(** * Verification of [resources/sys_patch/sys_patch_auto.py]

    The class [AutomaticSysPatch] of OpenCore Legacy Patcher: the decision
    cycle run by the launch agent ([start_auto_patch] and its two helpers)
    and the installer of the launch agent and launch daemon
    ([install_auto_patcher_launch_agent], [_create_rsr_monitor_daemon]).

    The Python code is embedded shallowly.  Its effects (logging, dialogs,
    sub-processes, the file system, the [start_build_install] flag) are
    explicit: every method is a computation in a small monad that threads the
    machine state, may raise a Python exception, and emits the effects it
    performs, in order.  The collaborators of the class (update check, seal
    check, patch detection, disk utilities, dialogs) answer through a record
    of probes; the file system is a finite map from paths to entries, on
    which the commands of the installer are interpreted.

    The definitions come first: the Python string primitives, the data, the
    monad, the file system, the methods of the class, and the notions used
    to state properties.  The theorems follow, method by method. *)

From Stdlib Require Import String Ascii ZArith List Bool.
From stdpp Require Import base option gmap strings list fin_maps.

Open Scope string_scope.
Open Scope Z_scope.

(** ** Python string primitives used by the source *)

Module Py.

(** [s.startswith(p)] *)
Definition startswith (s p : string) : bool := String.prefix p s.

(** [c in chars], for a character and the argument of [strip]. *)
Fixpoint mem (c : ascii) (chars : string) : bool :=
  match chars with
  | EmptyString => false
  | String d r => Ascii.eqb c d || mem c r
  end.

(** [s.lstrip(chars)] *)
Fixpoint lstrip (chars s : string) : string :=
  match s with
  | EmptyString => EmptyString
  | String c r => if mem c chars then lstrip chars r else s
  end.

(** [s.rstrip(chars)] *)
Fixpoint rstrip (chars s : string) : string :=
  match s with
  | EmptyString => EmptyString
  | String c r =>
      match rstrip chars r with
      | EmptyString => if mem c chars then EmptyString else String c EmptyString
      | r' => String c r'
      end
  end.

(** [s.strip(chars)]: every leading and every trailing character that
    belongs to [chars] is removed. *)
Definition strip (s chars : string) : string := rstrip chars (lstrip chars s).

(** The worker of [split]: [skip] counts the characters of a separator
    just recognised that are still to be dropped, [cur] is the segment
    being read, in reverse. *)
Fixpoint split_go (sep : string) (skip : nat) (cur : string) (s : string)
  : list string :=
  match s with
  | EmptyString => [String.rev cur]
  | String c r =>
      match skip with
      | S k => split_go sep k cur r
      | O =>
          if String.prefix sep s
          then String.rev cur :: split_go sep (Nat.pred (String.length sep)) EmptyString r
          else split_go sep O (String c cur) r
      end
  end.

(** [s.split(sep)], for a separator that is not empty (Python raises
    [ValueError] on the empty one; the source only passes literals). *)
Definition split (s sep : string) : list string := split_go sep O EmptyString s.

(** [l[0]] and [l[-1]] on the result of [split], which is never empty. *)
Definition first (l : list string) : string := List.hd EmptyString l.
Definition last_ (l : list string) : string := List.last l EmptyString.

(** [a in b] on strings: [a] occurs in [b] as a substring. *)
Fixpoint contains (a b : string) : bool :=
  String.prefix a b ||
  match b with
  | EmptyString => false
  | String _ r => contains a r
  end.

End Py.

(** ** Data model *)

(** Characters that cannot be written inside a string literal. *)
Definition dq : string := String (ascii_of_nat 34) EmptyString.
Definition nl : string := String (ascii_of_nat 10) EmptyString.

(** A property-list value, as far as the source inspects one. *)
Inductive pvalue :=
| PString (s : string)
| PBool (b : bool)
| PArray (items : list string).

(** A property-list dictionary.  [plistlib.dump] sorts the keys, so the
    order of insertion is not observable. *)
Abbreviation plist := (gmap string pvalue).

(** What a file holds: a well-formed property list, or bytes that
    [plistlib.load] rejects. *)
Inductive content :=
| Plist (d : plist)
| Raw (bytes : string).

(** An entry of the file system.  A [Bundle] is a directory tree taken as a
    whole (an application bundle); [payload] stands for all it contains. *)
Inductive node :=
| Directory
| Bundle (payload : string)
| File (c : content) (mode owner : string)
| Symlink (target : string).

(** The part of the machine the methods read and write: the file system,
    as a finite map from absolute paths to entries, and the attribute
    [constants.start_build_install], the only field of [constants] that the
    class assigns. *)
Record World := {
  files : gmap string node;
  start_build_install : bool
}.

(** [self.constants], the fields the class reads.  [computer.real_model]
    and [computer.oclp_version] are flattened; [commit_info0] is
    [commit_info[0]]; [cwd] is the working directory of the process, against
    which the one relative path of the source resolves. *)
Record Constants := {
  wxpython_variant : bool;
  patcher_version : string;
  commit_info0 : string;
  computer_real_model : string;
  computer_oclp_version : option string;
  special_build : bool;
  host_is_hackintosh : bool;
  booted_oc_disk : option string;
  launcher_script : option string;
  launcher_binary : string;
  app_icon_path : string;
  auto_patch_launch_agent_path : string;
  rsr_monitor_launch_daemon_path : string;
  cwd : string
}.

(** The dictionary returned by [check_binary_updates] when a release is
    available. *)
Record UpdateInfo := {
  Version : string;
  Github_Link : string
}.

(** The dictionary parsed from [diskutil info -plist]; the key
    [Ejectable] may be missing. *)
Record DiskInfo := {
  Ejectable : option bool
}.

(** The answers of [wx.MessageDialog.ShowModal]. *)
Inductive wx_id := ID_YES | ID_NO | ID_CANCEL.

(** [gui_entry.SupportedEntryPoints], the two members used here. *)
Inductive entry_point := UPDATE_APP | BUILD_OC.

(** The four [osascript] invocations of the class. *)
Inductive dialog :=
| PatchPrompt (patch_string warning_str : string)
| PatchElevated (args_string : string)
| BootloaderPrompt (booted installed : string)
| InstallToDiskPrompt.

(** The report of [detect_patch_set]: patch names, [Settings...] and
    [Validation...] keys, each with its boolean, in the order of the
    dictionary. *)
Abbreviation PatchReport := (list (string * bool)).

(** Every effect a method performs on its collaborators. *)
Inductive event :=
| Log (msg : string)
| CheckBinaryUpdates
| CheckIfNewer (version : string)
| ShowModal (message caption : string)
| GuiEntry (entry : entry_point)
| WebbrowserOpen (url : string)
| CheckSeal
| DetectPatchSet (model : string)
| VerifyNetworkConnection (url : string)
| Osascript (d : dialog)
| SubprocessRun (argv : list string)
| Elevated (argv : list string)
| ProcessStatus (returncode : Z)
| ReadProperty (key : string)
| GetDiskPath
| FindApfsPhysicalVolume (disk : string)
| GetPrebootUuid
| Glob (dir pattern : string)
| PlistLoad (path : string)
| PlistDump (path : string).

(** The collaborators outside the class: what each probe answers when it
    is asked.  A probe is asked at most once per call of a method, so a
    fixed answer per probe describes every run. *)
Record Probes := {
  check_binary_updates : option UpdateInfo;
  show_modal : wx_id;
  check_seal : bool;
  detect_patch_set : string -> PatchReport;
  verify_network_connection : bool;
  osascript : dialog -> Z;
  check_if_newer : string -> bool;
  read_property : string -> option bool;
  get_disk_path : string;
  find_apfs_physical_volume : string -> list string;
  diskutil_info : string -> DiskInfo;
  get_preboot_uuid : string;
  glob_extensions : list string
}.

(** [repr] of a list of strings, as an f-string prints it. *)
Definition repr_list (l : list string) : string :=
  "[" +:+ String.concat ", " (map (fun s => "'" +:+ s +:+ "'") l) +:+ "]".

(** ** The monad of methods *)

Inductive exn :=
| KeyError (key : string)
| FileNotFoundError (path : string)
| IsADirectoryError (path : string)
| InvalidFileException (path : string).

Inductive result (A : Type) :=
| Return (a : A)
| Raise (e : exn).
Arguments Return {A} a.
Arguments Raise {A} e.

(** The outcome of running a method: what it returned or raised, the
    machine it left, and the effects it performed, oldest first. *)
Record run (A : Type) := Run {
  value : result A;
  world : World;
  effects : list event
}.
Arguments Run {A} value world effects.
Arguments value {A} r.
Arguments world {A} r.
Arguments effects {A} r.

Definition M (A : Type) : Type := World -> run A.

Definition ret {A} (a : A) : M A := fun w => Run (Return a) w [].

Definition bind {A B} (m : M A) (k : A -> M B) : M B := fun w =>
  let r := m w in
  match value r with
  | Return a =>
      let r' := k a (world r) in
      Run (value r') (world r') (effects r ++ effects r')
  | Raise e => Run (Raise e) (world r) (effects r)
  end.

Definition raise {A} (e : exn) : M A := fun w => Run (Raise e) w [].

(** [try: body except ...: handler]; [handler e] is [None] when the
    clause does not catch [e]. *)
Definition try_except {A} (body : M A) (handler : exn -> option (M A)) : M A := fun w =>
  let r := body w in
  match value r with
  | Raise e =>
      match handler e with
      | Some h =>
          let r' := h (world r) in
          Run (value r') (world r') (effects r ++ effects r')
      | None => r
      end
  | Return _ => r
  end.

(** [try: body except KeyError: handler] *)
Definition try_except_KeyError {A} (body : M A) (handler : M A) : M A :=
  try_except body (fun e => match e with KeyError _ => Some handler | _ => None end).

(** [try: body except Exception as e: handler] *)
Definition try_except_Exception {A} (body : M A) (handler : exn -> M A) : M A :=
  try_except body (fun e => Some (handler e)).

Definition emit (e : event) : M unit := fun w => Run (Return tt) w [e].
Definition get_world : M World := fun w => Run (Return w) w [].
Definition put_world (w' : World) : M unit := fun _ => Run (Return tt) w' [].

Declare Scope py_scope.
Delimit Scope py_scope with py.
Notation "x <- m ;; k" := (bind m (fun x => k))
  (at level 100, m at next level, right associativity) : py_scope.
Notation "m ;; k" := (bind m (fun _ => k))
  (at level 100, right associativity) : py_scope.
Open Scope py_scope.

(** [logging.info(msg)] *)
Definition logging_info (msg : string) : M unit := emit (Log msg).

(** A method either ran to its end or left through [return]. *)
Inductive flow := Returned | FellThrough.

(** ** The file system and the commands run on it

    The commands that the installer hands to [utilities.elevated] are
    programs of the operating system.  They are given the meaning below on
    the finite map of entries: an entry is created, replaced or removed at
    the path that names it, whatever its ancestors; symbolic links are
    followed by [Path.exists] and [open], as in Python, and by the source
    argument of [ditto] and [cp]. *)

Module Fs.

(** [pathlib.Path(p)] as a string: trailing slashes are dropped. *)
Definition Path (p : string) : string :=
  match Py.rstrip "/" p with
  | EmptyString => match p with EmptyString => "." | _ => "/" end
  | q => q
  end.

(** The path a relative name stands for in a process whose working
    directory is [cwd]. *)
Definition absolute (cwd p : string) : string :=
  if Py.startswith p "/" then p else Py.rstrip "/" cwd +:+ "/" +:+ p.

(** [p.name], the last component. *)
Definition name (p : string) : string := Py.last_ (Py.split p "/").

(** The number of symbolic links followed before giving up. *)
Definition MAXSYMLINKS : nat := 32.

(** The path of the entry that [p] reaches through symbolic links. *)
Fixpoint realpath_go (fuel : nat) (fs : gmap string node) (p : string) : option string :=
  match fs !! p with
  | None => None
  | Some (Symlink target) =>
      match fuel with
      | O => None
      | S fuel' => realpath_go fuel' fs target
      end
  | Some _ => Some p
  end.

Definition realpath (fs : gmap string node) (p : string) : option string :=
  realpath_go MAXSYMLINKS fs p.

(** [os.stat(p)]: the entry reached, never a link. *)
Definition stat (fs : gmap string node) (p : string) : option node :=
  match realpath fs p with
  | Some q => fs !! q
  | None => None
  end.

(** [Path(p).exists()] *)
Definition exists_ (fs : gmap string node) (p : string) : bool :=
  match stat fs p with
  | Some _ => true
  | None => false
  end.

(** The owner of a file that a privileged command creates, before any
    [chown]. *)
Definition created_owner : string := "root".

(** [mkdir -p d] *)
Definition mkdir_p (d : string) (fs : gmap string node) : gmap string node * Z :=
  match fs !! Path d with
  | None => (<[Path d := Directory]> fs, 0)
  | Some _ =>
      match stat fs (Path d) with
      | Some Directory | Some (Bundle _) => (fs, 0)
      | _ => (fs, 1)
      end
  end.

(** [rm -R p] *)
Definition rm_R (p : string) (fs : gmap string node) : gmap string node * Z :=
  match fs !! p with
  | Some _ => (delete p fs, 0)
  | None => (fs, 1)
  end.

(** [rm p]: refuses a directory. *)
Definition rm (p : string) (fs : gmap string node) : gmap string node * Z :=
  match fs !! p with
  | Some (File _ _ _) | Some (Symlink _) => (delete p fs, 0)
  | _ => (fs, 1)
  end.

(** [ditto src dst]: [dst] becomes a copy of what [src] holds. *)
Definition ditto (src dst : string) (fs : gmap string node) : gmap string node * Z :=
  match stat fs src with
  | Some n => (<[dst := n]> fs, 0)
  | None => (fs, 1)
  end.

(** [mv src dst] *)
Definition mv (src dst : string) (fs : gmap string node) : gmap string node * Z :=
  match fs !! src with
  | Some n => (<[dst := n]> (delete src fs), 0)
  | None => (fs, 1)
  end.

(** [cp src dir/], the form the source uses: a file is copied into an
    existing directory under its own name.  A file that is there already
    is overwritten in place and keeps its mode and owner. *)
Definition cp (src dir : string) (fs : gmap string node) : gmap string node * Z :=
  match stat fs src, stat fs (Path dir) with
  | Some (File c mode _), Some Directory =>
      let dst := Path dir +:+ "/" +:+ name src in
      match fs !! dst with
      | None => (<[dst := File c mode created_owner]> fs, 0)
      | Some (File _ mode' owner') => (<[dst := File c mode' owner']> fs, 0)
      | Some _ => (fs, 1)
      end
  | _, _ => (fs, 1)
  end.

(** [chmod mode p]; only files carry a mode here. *)
Definition chmod (mode p : string) (fs : gmap string node) : gmap string node * Z :=
  match fs !! p with
  | Some (File c _ owner) => (<[p := File c mode owner]> fs, 0)
  | Some _ => (fs, 0)
  | None => (fs, 1)
  end.

(** [chown owner p] *)
Definition chown (owner p : string) (fs : gmap string node) : gmap string node * Z :=
  match fs !! p with
  | Some (File c mode _) => (<[p := File c mode owner]> fs, 0)
  | Some _ => (fs, 0)
  | None => (fs, 1)
  end.

(** [ln -s target link], for a [link] that is not a directory (the source
    asks for it only when [Path(link).exists()] is false). *)
Definition ln_s (target link : string) (fs : gmap string node) : gmap string node * Z :=
  match fs !! link with
  | None => (<[link := Symlink target]> fs, 0)
  | Some _ => (fs, 1)
  end.

(** The command a vector of arguments stands for, and its exit status;
    127 for a command that is not one of the above. *)
Definition sh (argv : list string) (fs : gmap string node) : gmap string node * Z :=
  match argv with
  | [cmd; a] =>
      if String.eqb cmd "rm" then rm a fs else (fs, 127)
  | [cmd; a; b] =>
      if String.eqb cmd "mkdir" && String.eqb a "-p" then mkdir_p b fs
      else if String.eqb cmd "rm" && String.eqb a "-R" then rm_R b fs
      else if String.eqb cmd "ditto" then ditto a b fs
      else if String.eqb cmd "mv" then mv a b fs
      else if String.eqb cmd "cp" then cp a b fs
      else if String.eqb cmd "chmod" then chmod a b fs
      else if String.eqb cmd "chown" then chown a b fs
      else (fs, 127)
  | [cmd; a; b; c] =>
      if String.eqb cmd "ln" && String.eqb a "-s" then ln_s b c fs else (fs, 127)
  | _ => (fs, 127)
  end.

(** The mode and the owner of a file that [open(p, "wb")] creates: the
    process is not privileged. *)
Definition created_mode : string := "644".
Definition process_owner : string := "user".

End Fs.

(** ** The class [AutomaticSysPatch] *)

Section AutomaticSysPatch.

(** [self.constants] and the collaborators of one process. *)
Variable constants : Constants.
Variable probes : Probes.

(** *** Collaborators, as effects *)

Definition updates_check_binary_updates : M (option UpdateInfo) :=
  emit CheckBinaryUpdates ;; ret (check_binary_updates probes).

Definition updates_check_if_newer (version : string) : M bool :=
  emit (CheckIfNewer version) ;; ret (check_if_newer probes version).

Definition dialog_ShowModal (message caption : string) : M wx_id :=
  emit (ShowModal message caption) ;; ret (show_modal probes).

Definition gui_entry_start (entry : entry_point) : M unit :=
  emit (GuiEntry entry).

Definition webbrowser_open (url : string) : M unit :=
  emit (WebbrowserOpen url).

Definition utilities_check_seal : M bool :=
  emit CheckSeal ;; ret (check_seal probes).

Definition sys_patch_detect (model : string) : M PatchReport :=
  emit (DetectPatchSet model) ;; ret (detect_patch_set probes model).

Definition network_verify (url : string) : M bool :=
  emit (VerifyNetworkConnection url) ;; ret (verify_network_connection probes).

(** [subprocess.run(["osascript", "-e", ...]).returncode] *)
Definition run_osascript (d : dialog) : M Z :=
  emit (Osascript d) ;; ret (osascript probes d).

Definition global_settings_read_property (key : string) : M (option bool) :=
  emit (ReadProperty key) ;; ret (read_property probes key).

Definition utilities_get_disk_path : M string :=
  emit GetDiskPath ;; ret (get_disk_path probes).

Definition utilities_find_apfs_physical_volume (disk : string) : M (list string) :=
  emit (FindApfsPhysicalVolume disk) ;; ret (find_apfs_physical_volume probes disk).

(** [plistlib.loads(subprocess.run(["diskutil", "info", "-plist", disk], ...).stdout)] *)
Definition diskutil_info_plist (disk : string) : M DiskInfo :=
  emit (SubprocessRun ["diskutil"; "info"; "-plist"; disk]) ;;
  ret (diskutil_info probes disk).

(** [self.constants.start_build_install = True] *)
Definition set_start_build_install : M unit :=
  w <- get_world ;;
  put_world {| files := files w; start_build_install := true |}.

(** *** The argument vectors of the four dialogs *)

Definition with_icon : string :=
  "with icon POSIX file " +:+ dq +:+ app_icon_path constants +:+ dq.

Definition osascript_args (d : dialog) : list string :=
  match d with
  | PatchPrompt patch_string warning_str =>
      [ "osascript"; "-e";
        "display dialog " +:+ dq +:+
        "OpenCore Legacy Patcher has detected you're running without Root Patches, and would like to install them." +:+ nl +:+ nl +:+
        "macOS wipes all root patches during OS installs and updates, so they need to be reinstalled." +:+ nl +:+ nl +:+
        "Following Patches have been detected for your system: " +:+ nl +:+
        patch_string +:+ nl +:+
        "Would you like to apply these patches?" +:+ warning_str +:+ dq +:+ " " +:+
        with_icon ]
  | PatchElevated args_string =>
      [ "osascript"; "-e";
        "do shell script " +:+ dq +:+ args_string +:+ dq +:+
        " with prompt " +:+ dq +:+
        "OpenCore Legacy Patcher would like to patch your root volume" +:+ dq +:+
        " with administrator privileges" +:+
        " without altering line endings" ]
  | BootloaderPrompt booted installed =>
      [ "osascript"; "-e";
        "display dialog " +:+ dq +:+
        "OpenCore Legacy Patcher has detected that you are booting " +:+
        (if special_build constants then "a different" else "an outdated") +:+
        " OpenCore build" +:+ nl +:+
        "- Booted: " +:+ booted +:+ nl +:+
        "- Installed: " +:+ installed +:+ nl +:+ nl +:+
        "Would you like to update the OpenCore bootloader?" +:+ dq +:+ " " +:+
        with_icon ]
  | InstallToDiskPrompt =>
      [ "osascript"; "-e";
        "display dialog " +:+ dq +:+
        "OpenCore Legacy Patcher has detected that you are booting OpenCore from an USB or External drive." +:+ nl +:+ nl +:+
        "If you would like to boot your Mac normally without a USB drive plugged in, you can install OpenCore to the internal hard drive." +:+ nl +:+ nl +:+
        "Would you like to launch OpenCore Legacy Patcher and install to disk?" +:+ dq +:+ " " +:+
        with_icon ]
  end.

(** *** [start_auto_patch], lines 72 to 84: the report *)

(** [not patch.startswith("Settings") and not patch.startswith("Validation")] *)
Definition is_patch_name (patch : string) : bool :=
  negb (Py.startswith patch "Settings") && negb (Py.startswith patch "Validation").

(** The generator of line 72, under [any]. *)
Definition any_patch (patches : PatchReport) : bool :=
  existsb (fun kv => is_patch_name (fst kv) && snd kv) patches.

(** [patches[key]] *)
Fixpoint getitem (patches : PatchReport) (key : string) : M bool :=
  match patches with
  | [] => raise (KeyError key)
  | (k, v) :: rest => if String.eqb k key then ret v else getitem rest key
  end.

(** The loop of lines 82 to 84. *)
Fixpoint build_patch_string (patches : PatchReport) : string :=
  match patches with
  | [] => EmptyString
  | (patch, v) :: rest =>
      (if v && is_patch_name patch then "- " +:+ patch +:+ nl else EmptyString)
      +:+ build_patch_string rest
  end.

Definition github_api : string :=
  "https://api.github.com/repos/dortania/OpenCore-Legacy-Patcher/releases/latest".

Definition network_warning : string :=
  nl +:+ nl +:+
  "WARNING: We're unable to verify whether there are any new releases of OpenCore Legacy Patcher on Github. Be aware that you may be using an outdated version for this OS. If you're unsure, verify on Github that OpenCore Legacy Patcher "
  +:+ patcher_version constants +:+ " is the latest official release".

(** *** [_determine_if_versions_match] *)

Definition _determine_if_versions_match : M bool :=
  logging_info "- Checking booted vs installed OCLP Build" ;;
  match computer_oclp_version constants with
  | None =>
      logging_info "- Booted version not found" ;;
      ret true
  | Some oclp_version =>
      if String.eqb oclp_version (patcher_version constants) then
        logging_info "- Versions match" ;;
        ret true
      else if special_build constants then
        logging_info "- Special build detected, assuming installed is older" ;;
        ret false
      else
        newer <- updates_check_if_newer oclp_version ;;
        if (newer : bool) then
          logging_info "- Installed version is newer than booted version" ;;
          ret true
        else
          returncode <- run_osascript (BootloaderPrompt oclp_version (patcher_version constants)) ;;
          (if Z.eqb returncode 0 then
             logging_info "- Launching GUI's Build/Install menu" ;;
             set_start_build_install ;;
             gui_entry_start BUILD_OC
           else ret tt) ;;
          ret false
  end.

(** *** [_determine_if_boot_matches] *)

(** Lines 206 and 207. *)
Definition root_disk_of (booted_oc_disk : string) : string :=
  let root_disk := Py.strip booted_oc_disk "disk" in
  "disk" +:+ Py.first (Py.split root_disk "s").

(** The loop of lines 215 to 220: the first store that contains
    [root_disk], if there is one. *)
Fixpoint find_matching_store (root_disk : string) (physical_stores : list string)
  : option string :=
  match physical_stores with
  | [] => None
  | disk :: rest =>
      if Py.contains root_disk disk then Some disk
      else find_matching_store root_disk rest
  end.

(** [disk_info["Ejectable"]] *)
Definition getitem_Ejectable (disk_info : DiskInfo) : M bool :=
  match Ejectable disk_info with
  | Some b => ret b
  | None => raise (KeyError "Ejectable")
  end.

(** [not self.constants.booted_oc_disk] is true of [None] and of the
    empty string. *)
Definition truthy (s : option string) : option string :=
  match s with
  | Some EmptyString => None
  | o => o
  end.

Definition _determine_if_boot_matches : M unit :=
  logging_info "- Determining if macOS drive matches boot drive" ;;
  should_notify <- global_settings_read_property "AutoPatch_Notify_Mismatched_Disks" ;;
  match should_notify with
  | Some false => logging_info "- Skipping due to user preference"
  | _ =>
  if host_is_hackintosh constants then
    logging_info "- Skipping due to hackintosh"
  else
  match truthy (booted_oc_disk constants) with
  | None => logging_info "- Failed to find disk OpenCore launched from"
  | Some booted =>
      let root_disk := root_disk_of booted in
      logging_info ("  - Boot Drive: " +:+ booted +:+ " (" +:+ root_disk +:+ ")") ;;
      macOS_disk <- utilities_get_disk_path ;;
      logging_info ("  - macOS Drive: " +:+ macOS_disk) ;;
      physical_stores <- utilities_find_apfs_physical_volume macOS_disk ;;
      logging_info ("  - APFS Physical Stores: " +:+ repr_list physical_stores) ;;
      match find_matching_store root_disk physical_stores with
      | Some disk =>
          logging_info ("- Boot drive matches macOS drive (" +:+ disk +:+ ")")
      | None =>
          logging_info "- Boot Drive does not match macOS drive, checking if OpenCore is on a USB drive" ;;
          disk_info <- diskutil_info_plist root_disk ;;
          try_except_KeyError
            (ejectable <- getitem_Ejectable disk_info ;;
             if negb ejectable then
               logging_info "- Boot Disk is not removable, skipping prompt"
             else
               logging_info "- Boot Disk is ejectable, prompting user to install to internal" ;;
               returncode <- run_osascript InstallToDiskPrompt ;;
               if Z.eqb returncode 0 then
                 logging_info "- Launching GUI's Build/Install menu" ;;
                 set_start_build_install ;;
                 gui_entry_start BUILD_OC
               else ret tt)
            (logging_info "- Unable to determine if boot disk is removable, skipping prompt")
      end
  end
  end.

(** *** [start_auto_patch] *)

Definition update_message (version : string) : string :=
  "Current Version: " +:+ patcher_version constants +:+
  (if negb (Py.startswith (commit_info0 constants) "refs/tags") then " (Nightly)" else EmptyString) +:+
  nl +:+ "New version: " +:+ version +:+ nl +:+ "Would you like to update?".

Definition args_string : string :=
  match launcher_script constants with
  | None => "'" +:+ launcher_binary constants +:+ "' --gui_patch"
  | Some script => launcher_binary constants +:+ " " +:+ script +:+ " --gui_patch"
  end.

(** Lines 69 to 125: the seal and the patches.  [Returned] stands for
    the two [return] statements of the block. *)
Definition seal_and_patches : M flow :=
  sealed <- utilities_check_seal ;;
  if (sealed : bool) then
    logging_info "- Detected Snapshot seal intact, detecting patches" ;;
    detected <- sys_patch_detect (computer_real_model constants) ;;
    let patches : PatchReport := if negb (any_patch detected) then [] else detected in
    match patches with
    | _ :: _ =>
        logging_info "- Detected applicable patches, determining whether possible to patch" ;;
        possible <- getitem patches "Validation: Patching Possible" ;;
        if negb possible then
          logging_info "- Cannot run patching" ;;
          ret Returned
        else
          logging_info "- Determined patching is possible, checking for OCLP updates" ;;
          let patch_string := build_patch_string patches in
          logging_info "- No new binaries found on Github, proceeding with patching" ;;
          online <- network_verify github_api ;;
          let warning_str := if negb online then network_warning else EmptyString in
          returncode <- run_osascript (PatchPrompt patch_string warning_str) ;;
          (if Z.eqb returncode 0 then
             _ <- run_osascript (PatchElevated args_string) ;; ret tt
           else ret tt) ;;
          ret Returned
    | [] =>
        logging_info "- No patches detected" ;;
        ret FellThrough
    end
  else
    logging_info "- Detected Snapshot seal not intact, skipping" ;;
    ret FellThrough.

Definition start_auto_patch : M unit :=
  logging_info "- Starting Automatic Patching" ;;
  if negb (wxpython_variant constants) then
    logging_info "- Auto Patch option is not supported on TUI, please use GUI"
  else
    dict <- updates_check_binary_updates ;;
    match dict with
    | Some d =>
        let version := Version d in
        logging_info ("- Found new version: " +:+ version) ;;
        response <- dialog_ShowModal (update_message version)
                      "Update Available for OpenCore Legacy Patcher!" ;;
        match response with
        | ID_YES => gui_entry_start UPDATE_APP
        | ID_NO => webbrowser_open (Github_Link d)
        | ID_CANCEL => ret tt
        end
    | None =>
        k <- seal_and_patches ;;
        match k with
        | Returned => ret tt
        | FellThrough =>
            versions_match <- _determine_if_versions_match ;;
            if (versions_match : bool) then _determine_if_boot_matches else ret tt
        end
    end.

(** *** The file system, as effects *)

(** [Path(p).exists()] *)
Definition Path_exists (p : string) : M bool :=
  w <- get_world ;;
  ret (Fs.exists_ (files w) (Fs.absolute (cwd constants) (Fs.Path p))).

(** [utilities.elevated(argv, ...)]: the command runs with privileges
    and its exit status comes back. *)
Definition utilities_elevated (argv : list string) : M Z :=
  emit (Elevated argv) ;;
  w <- get_world ;;
  let (fs', returncode) := Fs.sh argv (files w) in
  put_world {| files := fs'; start_build_install := start_build_install w |} ;;
  ret returncode.

(** Modelled from the spec: [utilities.process_status], which is not part
    of this file.  The exit status of a privileged step is checked and
    logged; a failure raises nothing and the installer goes on. *)
Definition utilities_process_status (returncode : Z) : M unit :=
  emit (ProcessStatus returncode).

(** [utilities.process_status(utilities.elevated(argv, ...))] *)
Definition elevated_checked (argv : list string) : M unit :=
  returncode <- utilities_elevated argv ;;
  utilities_process_status returncode.

Definition utilities_get_preboot_uuid : M string :=
  emit GetPrebootUuid ;; ret (get_preboot_uuid probes).

(** [Path(dir).glob(pattern)], asked of the directory scan. *)
Definition Path_glob (dir pattern : string) : M (list string) :=
  emit (Glob dir pattern) ;; ret (glob_extensions probes).

(** [plistlib.load(open(path, "rb"))] *)
Definition plistlib_load (path : string) : M plist :=
  emit (PlistLoad path) ;;
  w <- get_world ;;
  match Fs.stat (files w) (Fs.absolute (cwd constants) path) with
  | Some (File (Plist d) _ _) => ret d
  | Some (File (Raw _) _ _) => raise (InvalidFileException path)
  | Some Directory | Some (Bundle _) => raise (IsADirectoryError path)
  | Some (Symlink _) | None => raise (FileNotFoundError path)
  end.

(** [plistlib.dump(d, Path(path).open("wb"))]: the file is replaced as
    a whole. *)
Definition plistlib_dump (d : plist) (path : string) : M unit :=
  emit (PlistDump path) ;;
  w <- get_world ;;
  let fs := files w in
  let p := Fs.absolute (cwd constants) (Fs.Path path) in
  match fs !! p with
  | None =>
      put_world {| files := <[p := File (Plist d) Fs.created_mode Fs.process_owner]> fs;
                   start_build_install := start_build_install w |}
  | Some _ =>
      match Fs.realpath fs p with
      | None => raise (FileNotFoundError path)
      | Some q =>
          match fs !! q with
          | Some (File _ mode owner) =>
              put_world {| files := <[q := File (Plist d) mode owner]> fs;
                           start_build_install := start_build_install w |}
          | _ => raise (IsADirectoryError path)
          end
      end
  end.

(** [str(e)] for the exception caught at line 357. *)
Definition str_exn (e : exn) : string :=
  match e with
  | KeyError key => "'" +:+ key +:+ "'"
  | FileNotFoundError path => "[Errno 2] No such file or directory: '" +:+ path +:+ "'"
  | IsADirectoryError path => "[Errno 21] Is a directory: '" +:+ path +:+ "'"
  | InvalidFileException _ => "Invalid file"
  end.

(** *** [_create_rsr_monitor_daemon] *)

(** The loop of lines 352 to 363, returning the final [kexts]. *)
Fixpoint scan_kexts (globbed : list string) : M (list string) :=
  match globbed with
  | [] => ret []
  | kext :: rest =>
      present <- Path_exists (kext +:+ "/Contents/Info.plist") ;;
      if negb present then scan_kexts rest
      else
        loaded <- try_except_Exception
                    (kext_plist <- plistlib_load (kext +:+ "/Contents/Info.plist") ;;
                     ret (Some kext_plist))
                    (fun e =>
                       logging_info ("  - Failed to load plist for " +:+ Fs.name kext +:+ ": " +:+ str_exn e) ;;
                       ret None) ;;
        match loaded with
        | None => scan_kexts rest
        | Some kext_plist =>
            match (kext_plist : plist) !! "GPUCompanionBundles" with
            | None => scan_kexts rest
            | Some _ =>
                logging_info ("  - Found kext with GPUCompanionBundles: " +:+ Fs.name kext) ;;
                kexts <- scan_kexts rest ;;
                ret (Fs.name kext :: kexts)
            end
        end
  end.

(** Lines 370 to 388: the descriptor of the daemon is loaded, its two
    keys are set and it is written back. *)
Definition write_rsr_monitor_plist (cryptex_path : string) (kexts : list string) : M bool :=
  rsr_monitor_plist <- plistlib_load (rsr_monitor_launch_daemon_path constants) ;;
  let arguments :=
    (["rm"; "-Rfv"] ++ map (fun kext => "/Library/Extensions/" +:+ kext) kexts)%list in
  let rsr_monitor_plist : plist := <["ProgramArguments" := PArray arguments]> rsr_monitor_plist in
  logging_info ("  - Adding monitor: " +:+ cryptex_path) ;;
  let rsr_monitor_plist : plist := <["WatchPaths" := PArray [cryptex_path]]> rsr_monitor_plist in
  plistlib_dump rsr_monitor_plist (rsr_monitor_launch_daemon_path constants) ;;
  ret true.

Definition _create_rsr_monitor_daemon : M bool :=
  logging_info "- Checking if RSRMonitor is needed" ;;
  uuid <- utilities_get_preboot_uuid ;;
  let cryptex_path := "/System/Volumes/Preboot/" +:+ uuid +:+ "/cryptex1/current/OS.dmg" in
  present <- Path_exists cryptex_path ;;
  if negb present then
    logging_info "- No OS.dmg, skipping RSRMonitor" ;;
    ret false
  else
    globbed <- Path_glob "/Library/Extensions" "*.kext" ;;
    kexts <- scan_kexts globbed ;;
    match kexts with
    | [] =>
        logging_info "- No kexts found with GPUCompanionBundles, skipping RSRMonitor" ;;
        ret false
    | _ :: _ => write_rsr_monitor_plist cryptex_path kexts
    end.

(** *** [install_auto_patcher_launch_agent] *)

Definition support_dir : string := "/Library/Application Support/Dortania".
Definition staged_app : string := "/Library/Application Support/Dortania/OpenCore-Patcher.app".
Definition launch_agent : string :=
  "/Library/LaunchAgents/com.dortania.opencore-legacy-patcher.auto-patch.plist".
Definition launch_daemon : string :=
  "/Library/LaunchDaemons/com.dortania.opencore-legacy-patcher.rsr-monitor.plist".
Definition app_alias : string := "/Applications/OpenCore-Patcher.app".

(** A step guarded by [if cond:] with no [else]. *)
Definition when (cond : bool) (body : M unit) : M unit :=
  if cond then body else ret tt.

(** The method is a guard followed by five blocks, set apart in the
    source by its comments; each block is a definition of its own here. *)

(** Lines 279 to 281.  The path tested has no leading slash: it is
    resolved against the working directory. *)
Definition create_support_dir : M unit :=
  present <- Path_exists "Library/Application Support/Dortania" ;;
  when (negb present)
    (logging_info "- Creating /Library/Application Support/Dortania/" ;;
     elevated_checked ["mkdir"; "-p"; support_dir]).

(** [str(launcher_binary).split("/Contents/MacOS/OpenCore-Patcher")[0]] *)
Definition source_app : string :=
  Py.first (Py.split (launcher_binary constants) "/Contents/MacOS/OpenCore-Patcher").

(** Lines 283 to 300. *)
Definition copy_app : M unit :=
  logging_info "- Copying OpenCore Patcher to /Library/Application Support/Dortania/" ;;
  present <- Path_exists staged_app ;;
  when present
    (logging_info "- Deleting existing OpenCore-Patcher" ;;
     elevated_checked ["rm"; "-R"; staged_app]) ;;

  let path := source_app in
  logging_info ("- Copying " +:+ path +:+ " to /Library/Application Support/Dortania/") ;;
  elevated_checked ["ditto"; path; staged_app] ;;

  present <- Path_exists staged_app ;;
  when (negb present)
    (let path := Py.last_ (Py.split path "/") in
     logging_info ("- Renaming " +:+ path +:+ " to OpenCore-Patcher.app") ;;
     elevated_checked ["mv"; "/Library/Application Support/Dortania/" +:+ path; staged_app]) ;;

  emit (SubprocessRun ["xattr"; "-cr"; staged_app]).

(** Lines 302 to 315, "Copy over our launch agent". *)
Definition copy_launch_agent : M unit :=
  logging_info "- Copying auto-patch.plist Launch Agent to /Library/LaunchAgents/" ;;
  present <- Path_exists launch_agent ;;
  when present
    (logging_info "- Deleting existing auto-patch.plist" ;;
     elevated_checked ["rm"; launch_agent]) ;;
  present <- Path_exists "/Library/LaunchAgents/" ;;
  when (negb present)
    (logging_info "- Creating /Library/LaunchAgents/" ;;
     elevated_checked ["mkdir"; "-p"; "/Library/LaunchAgents/"]) ;;
  elevated_checked ["cp"; auto_patch_launch_agent_path constants; "/Library/LaunchAgents/"] ;;

  logging_info "- Setting permissions on auto-patch.plist" ;;
  elevated_checked ["chmod"; "644"; launch_agent] ;;
  elevated_checked ["chown"; "root:wheel"; launch_agent].

(** Lines 319 to 331, the body of [if self._create_rsr_monitor_daemon() is True:]. *)
Definition copy_launch_daemon : M unit :=
  logging_info "- Copying rsr-monitor.plist Launch Daemon to /Library/LaunchDaemons/" ;;
  present <- Path_exists launch_daemon ;;
  when present
    (logging_info "- Deleting existing rsr-monitor.plist" ;;
     elevated_checked ["rm"; launch_daemon]) ;;
  present <- Path_exists "/Library/LaunchDaemons/" ;;
  when (negb present)
    (logging_info "- Creating /Library/LaunchDaemons/" ;;
     elevated_checked ["mkdir"; "-p"; "/Library/LaunchDaemons/"]) ;;
  elevated_checked ["cp"; rsr_monitor_launch_daemon_path constants; "/Library/LaunchDaemons/"] ;;

  logging_info "- Setting permissions on rsr-monitor.plist" ;;
  elevated_checked ["chmod"; "644"; launch_daemon] ;;
  elevated_checked ["chown"; "root:wheel"; launch_daemon].

(** Lines 333 to 338, "Making app alias". *)
Definition make_app_alias : M unit :=
  present <- Path_exists app_alias ;;
  when (negb present)
    (logging_info "- Making app alias" ;;
     elevated_checked ["ln"; "-s"; staged_app; app_alias]).

Definition install_auto_patcher_launch_agent : M unit :=
  match launcher_script constants with
  | Some _ =>
      logging_info "- Skipping Auto Patcher Launch Agent, not supported when running from source"
  | None =>
  if Py.startswith (launcher_binary constants) "/Library/Application Support/Dortania/" then
    logging_info "- Skipping Auto Patcher Launch Agent, already installed"
  else
    logging_info "- Installing Auto Patcher Launch Agent" ;;
    create_support_dir ;;
    copy_app ;;
    copy_launch_agent ;;
    needed <- _create_rsr_monitor_daemon ;;
    when needed copy_launch_daemon ;;
    make_app_alias
  end.

End AutomaticSysPatch.

(** ** Observations on a run *)

(** The run presents a dialog through [osascript]. *)
Definition presents {A} (d : dialog) (r : run A) : Prop := In (Osascript d) (effects r).

(** The run presents no [osascript] dialog at all. *)
Definition no_prompt {A} (r : run A) : Prop := forall d, ~ presents d r.

(** The run asks [diskutil] about some disk. *)
Definition queries_diskutil {A} (r : run A) : Prop :=
  exists disk, In (SubprocessRun ["diskutil"; "info"; "-plist"; disk]) (effects r).

(** Every non-[Settings], non-[Validation] key of the report is false. *)
Definition all_patches_false (patches : PatchReport) : Prop :=
  forall patch v, In (patch, v) patches -> is_patch_name patch = true -> v = false.

(** [_determine_if_boot_matches] gets as far as asking whether the boot
    disk is removable: the notification is not turned off, the host is a
    Mac, the boot disk [booted] is known and no physical store contains its
    normalised name. *)
Definition reaches_removable_check (c : Constants) (p : Probes) (booted : string) : Prop :=
  read_property p "AutoPatch_Notify_Mismatched_Disks" <> Some false /\
  host_is_hackintosh c = false /\
  truthy (booted_oc_disk c) = Some booted /\
  find_matching_store (root_disk_of booted)
    (find_apfs_physical_volume p (get_disk_path p)) = None.

(** What [_determine_if_boot_matches] has done when it comes to compare
    the boot disk [booted] with the physical stores. *)
Definition boot_check_preamble (p : Probes) (booted : string) : list event :=
  [ Log "- Determining if macOS drive matches boot drive";
    ReadProperty "AutoPatch_Notify_Mismatched_Disks";
    Log ("  - Boot Drive: " +:+ booted +:+ " (" +:+ root_disk_of booted +:+ ")");
    GetDiskPath;
    Log ("  - macOS Drive: " +:+ get_disk_path p);
    FindApfsPhysicalVolume (get_disk_path p);
    Log ("  - APFS Physical Stores: " +:+
         repr_list (find_apfs_physical_volume p (get_disk_path p))) ].

(** The same machine with [start_build_install] set. *)
Definition build_install_started (w : World) : World :=
  {| files := files w; start_build_install := true |}.

(** What follows the patch detection when it falls through: the version
    check and, if the versions match, the boot disk check. *)
Definition version_then_boot_effects (c : Constants) (p : Probes) (w : World) : list event :=
  let v := _determine_if_versions_match c p w in
  effects v ++
  match value v with
  | Return true => effects (_determine_if_boot_matches c p (world v))
  | _ => []
  end.

(** *** The scan of the kernel extensions *)

(** The descriptor of a bundle, [Contents/Info.plist]. *)
Definition descriptor_path (kext : string) : string := kext +:+ "/Contents/Info.plist".

(** What the scan finds when it looks for the descriptor of a bundle:
    nothing, a file it cannot load, or a dictionary. *)
Inductive descriptor :=
| Missing
| Unreadable (e : exn)
| Parsed (d : plist).

Definition descriptor_of (c : Constants) (w : World) (kext : string) : descriptor :=
  match Fs.stat (files w) (Fs.absolute (cwd c) (descriptor_path kext)) with
  | None => Missing
  | Some (File (Plist d) _ _) => Parsed d
  | Some (File (Raw _) _ _) => Unreadable (InvalidFileException (descriptor_path kext))
  | Some Directory | Some (Bundle _) => Unreadable (IsADirectoryError (descriptor_path kext))
  | Some (Symlink _) => Unreadable (FileNotFoundError (descriptor_path kext))
  end.

(** The descriptor loads and has the key [GPUCompanionBundles]. *)
Definition carries_marker (c : Constants) (w : World) (kext : string) : bool :=
  match descriptor_of c w kext with
  | Parsed d => match d !! "GPUCompanionBundles" with Some _ => true | None => false end
  | _ => false
  end.

(** The effects of one turn of the loop. *)
Definition kext_effects (c : Constants) (w : World) (kext : string) : list event :=
  match descriptor_of c w kext with
  | Missing => []
  | Unreadable e =>
      [ PlistLoad (descriptor_path kext);
        Log ("  - Failed to load plist for " +:+ Fs.name kext +:+ ": " +:+ str_exn e) ]
  | Parsed d =>
      PlistLoad (descriptor_path kext) ::
      match d !! "GPUCompanionBundles" with
      | Some _ => [ Log ("  - Found kext with GPUCompanionBundles: " +:+ Fs.name kext) ]
      | None => []
      end
  end.

(** The path of the image whose presence makes the monitor daemon useful. *)
Definition cryptex_path (p : Probes) : string :=
  "/System/Volumes/Preboot/" +:+ get_preboot_uuid p +:+ "/cryptex1/current/OS.dmg".


(** *** The installer *)

(** A run preceded by effects already performed. *)
Definition prepend {A} (es : list event) (r : run A) : run A :=
  Run (value r) (world r) (es ++ effects r).

(** The same machine over another file system. *)
Definition with_files (fs : gmap string node) (w : World) : World :=
  {| files := fs; start_build_install := start_build_install w |}.

(** The run returns [a] and leaves the machine [w']. *)
Definition returns {A} (r : run A) (a : A) (w' : World) : Prop :=
  value r = Return a /\ world r = w'.

Definition launch_agents_dir : string := "/Library/LaunchAgents".
Definition launch_daemons_dir : string := "/Library/LaunchDaemons".





(** The working-directory path that line 279 tests. *)
Definition support_dir_tested (c : Constants) : string :=
  Fs.absolute (cwd c) "Library/Application Support/Dortania".

(** The file system after lines 279 to 281. *)
Definition support_made (c : Constants) (fs : gmap string node) : gmap string node :=
  if Fs.exists_ fs (support_dir_tested c) then fs
  else match fs !! support_dir with
       | None => <[support_dir := Directory]> fs
       | Some _ => fs
       end.

(** The file system after the block of the application. *)
Definition copy_app_files (c : Constants) (fs : gmap string node) : gmap string node :=
  let fs1 := if Fs.exists_ fs staged_app then fst (Fs.rm_R staged_app fs) else fs in
  let fs2 := fst (Fs.ditto (source_app c) staged_app fs1) in
  if Fs.exists_ fs2 staged_app then fs2
  else fst (Fs.mv ("/Library/Application Support/Dortania/" +:+
                   Py.last_ (Py.split (source_app c) "/")) staged_app fs2).

(** The file system after a block that copies a descriptor: the template
    goes to [target], in the directory named by [dir]. *)
Definition copy_descriptor_files (template target dir : string) (fs : gmap string node)
  : gmap string node :=
  let fs1 := if Fs.exists_ fs target then fst (Fs.rm target fs) else fs in
  let fs2 := if Fs.exists_ fs1 (Fs.Path dir) then fs1 else fst (Fs.mkdir_p dir fs1) in
  let fs3 := fst (Fs.cp template dir fs2) in
  let fs4 := fst (Fs.chmod "644" target fs3) in
  fst (Fs.chown "root:wheel" target fs4).

(** The file system after the block of the alias. *)
Definition alias_made (fs : gmap string node) : gmap string node :=
  match fs !! app_alias with
  | None => <[app_alias := Symlink staged_app]> fs
  | Some _ => fs
  end.

(** The names that the scan collects on a machine, and whether the monitor
    daemon is needed there. *)
Definition monitor_kexts (c : Constants) (p : Probes) (w : World) : list string :=
  map Fs.name (List.filter (carries_marker c w) (glob_extensions p)).

Definition monitor_needed (c : Constants) (p : Probes) (w : World) : bool :=
  Fs.exists_ (files w) (Fs.absolute (cwd c) (Fs.Path (cryptex_path p))) &&
  match monitor_kexts c p w with
  | [] => false
  | _ :: _ => true
  end.

(** The descriptor of the daemon once lines 373 to 383 have rewritten its
    two keys. *)
Definition monitor_plist (p : Probes) (kexts : list string) (d : plist) : plist :=
  <["WatchPaths" := PArray [cryptex_path p]]>
    (<["ProgramArguments" :=
         PArray (["rm"; "-Rfv"] ++ map (fun kext => "/Library/Extensions/" +:+ kext) kexts)%list]> d).

(** The files once the support directory, the application and the
    descriptor of the agent are in place. *)
Definition agent_installed (c : Constants) (fs : gmap string node)
    (payload : string) (agent : content) : gmap string node :=
  <[launch_agent := File agent "644" "root:wheel"]>
    (<[launch_agents_dir := Directory]>
       (<[staged_app := Bundle payload]> (support_made c fs))).

(** The files once the descriptor of the daemon, a property list [d] in
    the template, is rewritten for the machine [w] and copied. *)
Definition daemon_installed (c : Constants) (p : Probes) (w : World)
    (d : plist) (mode owner : string) : gmap string node :=
  let d' := monitor_plist p (monitor_kexts c p w) d in
  <[launch_daemon := File (Plist d') "644" "root:wheel"]>
    (<[launch_daemons_dir := Directory]>
       (<[rsr_monitor_launch_daemon_path c := File (Plist d') mode owner]> (files w))).

(** The descriptor of the daemon in the template after a run: rewritten
    if the daemon is needed, as it was otherwise. *)
Definition template_after (c : Constants) (p : Probes) (w : World)
    (payload : string) (agent : content) (d : plist) : plist :=
  let w1 := with_files (agent_installed c (files w) payload agent) w in
  if monitor_needed c p w1 then monitor_plist p (monitor_kexts c p w1) d else d.

(** The files that a run of the installer leaves, from the bundle
    [payload], the agent template [agent] and the daemon template [d]. *)
Definition installed (c : Constants) (p : Probes) (w : World)
    (payload : string) (agent : content) (d : plist) (mode owner : string)
  : gmap string node :=
  let w1 := with_files (agent_installed c (files w) payload agent) w in
  alias_made (if monitor_needed c p w1 then daemon_installed c p w1 d mode owner
              else files w1).

(** The places the installer fills or creates. *)
Definition installed_paths : list string :=
  [ support_dir; staged_app; launch_agents_dir; launch_agent;
    launch_daemons_dir; launch_daemon; app_alias ].

(** The paths whose presence or content decides whether the monitor
    daemon is needed. *)
Definition probed_paths (c : Constants) (p : Probes) : list string :=
  Fs.absolute (cwd c) (Fs.Path (cryptex_path p)) ::
  map (fun kext => Fs.absolute (cwd c) (descriptor_path kext)) (glob_extensions p).

Definition is_bundle (o : option node) : Prop :=
  match o with Some (Bundle _) => True | _ => False end.

Definition is_file (o : option node) : Prop :=
  match o with Some (File _ _ _) => True | _ => False end.

Definition is_plist_file (o : option node) : Prop :=
  match o with Some (File (Plist _) _ _) => True | _ => False end.

Definition absent_or_file (o : option node) : Prop :=
  match o with None | Some (File _ _ _) => True | _ => False end.

Definition absent_or_directory (o : option node) : Prop :=
  match o with None | Some Directory => True | _ => False end.

Definition not_a_link (o : option node) : Prop :=
  match o with Some (Symlink _) => False | _ => True end.

(** Every path that has an entry in [fs] has in [fs'] the same entry, or
    one that is no symbolic link. *)
Definition keeps_paths (fs fs' : gmap string node) : Prop :=
  forall k,
    fs !! k = None \/ fs' !! k = fs !! k \/
    (fs' !! k <> None /\ not_a_link (fs' !! k)).

(** A machine on which the installer has something to install: it runs
    from an application bundle that is on the disk, outside the support
    directory; the two templates are files of the disk, named as the
    descriptors they become, the one of the daemon a property list at an
    absolute path; neither the bundle nor a template is one of the places
    the installer fills; where a descriptor goes there is a file or nothing,
    where its directory goes a directory or nothing; and the paths probed
    for the monitor daemon are no symbolic links and are none of the paths
    the installer writes. *)
Record Deployment (c : Constants) (p : Probes) (w : World) : Prop := {
  dep_binary : launcher_script c = None;
  dep_outside :
    Py.startswith (launcher_binary c) "/Library/Application Support/Dortania/" = false;
  dep_source : is_bundle (files w !! source_app c);
  dep_agent_template : is_file (files w !! auto_patch_launch_agent_path c);
  dep_agent_name :
    Fs.name (auto_patch_launch_agent_path c) =
    "com.dortania.opencore-legacy-patcher.auto-patch.plist";
  dep_daemon_template : is_plist_file (files w !! rsr_monitor_launch_daemon_path c);
  dep_daemon_name :
    Fs.name (rsr_monitor_launch_daemon_path c) =
    "com.dortania.opencore-legacy-patcher.rsr-monitor.plist";
  dep_daemon_absolute :
    Fs.absolute (cwd c) (rsr_monitor_launch_daemon_path c) = rsr_monitor_launch_daemon_path c;
  dep_daemon_normal :
    Fs.Path (rsr_monitor_launch_daemon_path c) = rsr_monitor_launch_daemon_path c;
  dep_inputs_apart :
    forall q,
      In q [ source_app c; auto_patch_launch_agent_path c; rsr_monitor_launch_daemon_path c ] ->
      ~ In q installed_paths;
  dep_agent_target : absent_or_file (files w !! launch_agent);
  dep_daemon_target : absent_or_file (files w !! launch_daemon);
  dep_agents_dir : absent_or_directory (files w !! launch_agents_dir);
  dep_daemons_dir : absent_or_directory (files w !! launch_daemons_dir);
  dep_probed :
    forall q,
      In q (probed_paths c p) ->
      not_a_link (files w !! q) /\
      ~ In q (rsr_monitor_launch_daemon_path c :: installed_paths)
}.

(** *** The decision cycle as a whole *)

(** What [patches[key]] finds: the value of the first entry under [key],
    or nothing, in which case Python raises [KeyError]. *)
Fixpoint report_get (patches : PatchReport) (key : string) : option bool :=
  match patches with
  | [] => None
  | (k, v) :: rest => if String.eqb k key then Some v else report_get rest key
  end.

(** The patches to apply: the keys outside [Settings...] and
    [Validation...] whose value is true, in the order of the report. *)
Definition actionable (patches : PatchReport) : list string :=
  map fst (List.filter (fun kv => snd kv && is_patch_name (fst kv)) patches).

(** The dialog of lines 96 to 101 for a report: the patches listed, and
    the warning when GitHub cannot be reached. *)
Definition patch_prompt (c : Constants) (p : Probes) (patches : PatchReport) : dialog :=
  PatchPrompt (build_patch_string patches)
    (if verify_network_connection p then EmptyString else network_warning c).

(** Lines 127 and 128: the version check and, if the versions match, the
    boot disk check. *)
Definition version_then_boot (c : Constants) (p : Probes) : M unit :=
  versions_match <- _determine_if_versions_match c p ;;
  if (versions_match : bool) then _determine_if_boot_matches c p else ret tt.

(** The [osascript] invocations among the effects of a run, in order. *)
Definition dialogs (es : list event) : list dialog :=
  flat_map (fun e => match e with Osascript d => [d] | _ => [] end) es.


(** *** Disks and privileged commands *)

(** A string of decimal digits, as in the identifier of a disk. *)
Fixpoint digits (s : string) : bool :=
  match s with
  | EmptyString => true
  | String c r => Py.mem c "0123456789" && digits r
  end.

(** The run issues some privileged command. *)
Definition runs_elevated {A} (r : run A) : Prop :=
  exists argv, In (Elevated argv) (effects r).



(** The privileged commands written in the installer, lines 281 to 338,
    in the order of the source. *)
Definition installer_commands (c : Constants) : list (list string) :=
  [ ["mkdir"; "-p"; support_dir];
    ["rm"; "-R"; staged_app];
    ["ditto"; source_app c; staged_app];
    ["mv"; "/Library/Application Support/Dortania/" +:+ Py.last_ (Py.split (source_app c) "/");
     staged_app];
    ["rm"; launch_agent];
    ["mkdir"; "-p"; "/Library/LaunchAgents/"];
    ["cp"; auto_patch_launch_agent_path c; "/Library/LaunchAgents/"];
    ["chmod"; "644"; launch_agent];
    ["chown"; "root:wheel"; launch_agent];
    ["rm"; launch_daemon];
    ["mkdir"; "-p"; "/Library/LaunchDaemons/"];
    ["cp"; rsr_monitor_launch_daemon_path c; "/Library/LaunchDaemons/"];
    ["chmod"; "644"; launch_daemon];
    ["chown"; "root:wheel"; launch_daemon];
    ["ln"; "-s"; staged_app; app_alias] ].

(** ** Machines used as instances *)

Module Example.

Definition constants : Constants := {|
  wxpython_variant := true;
  patcher_version := "0.6.2";
  commit_info0 := "refs/tags/0.6.2";
  computer_real_model := "MacBookPro11,1";
  computer_oclp_version := Some "0.6.1";
  special_build := true;
  host_is_hackintosh := false;
  booted_oc_disk := Some "disk0s1";
  launcher_script := None;
  launcher_binary := "/Users/me/Downloads/OpenCore-Patcher.app/Contents/MacOS/OpenCore-Patcher";
  app_icon_path := "/Users/me/Downloads/OpenCore-Patcher.app/Contents/Resources/AppIcon.icns";
  auto_patch_launch_agent_path :=
    "/private/tmp/payloads/com.dortania.opencore-legacy-patcher.auto-patch.plist";
  rsr_monitor_launch_daemon_path :=
    "/private/tmp/payloads/com.dortania.opencore-legacy-patcher.rsr-monitor.plist";
  cwd := "/"
|}.

(** The same process booted from [disk]. *)
Definition booted_from (disk : string) : Constants := {|
  wxpython_variant := true;
  patcher_version := "0.6.2";
  commit_info0 := "refs/tags/0.6.2";
  computer_real_model := "MacBookPro11,1";
  computer_oclp_version := Some "0.6.2";
  special_build := false;
  host_is_hackintosh := false;
  booted_oc_disk := Some disk;
  launcher_script := None;
  launcher_binary := launcher_binary constants;
  app_icon_path := app_icon_path constants;
  auto_patch_launch_agent_path := auto_patch_launch_agent_path constants;
  rsr_monitor_launch_daemon_path := rsr_monitor_launch_daemon_path constants;
  cwd := "/"
|}.

(** Collaborators: no update, seal intact, no patch to apply, every
    dialog accepted, and the disks as given. *)
Definition probes_with (notify : option bool) (stores : list string)
    (ejectable : option bool) (extensions : list string) : Probes := {|
  check_binary_updates := None;
  show_modal := ID_CANCEL;
  check_seal := true;
  detect_patch_set := fun _ =>
    [ ("Graphics: Intel Haswell", false);
      ("Settings: Requires AMFI exemption", true);
      ("Validation: Patching Possible", true) ];
  verify_network_connection := true;
  osascript := fun _ => 0;
  check_if_newer := fun _ => true;
  read_property := fun _ => notify;
  get_disk_path := "disk3s1";
  find_apfs_physical_volume := fun _ => stores;
  diskutil_info := fun _ => {| Ejectable := ejectable |};
  get_preboot_uuid := "0F1E2D3C";
  glob_extensions := extensions
|}.

Definition probes : Probes :=
  probes_with None ["disk0s2"; "disk1s1"] (Some true) [].

Definition empty_disk : World := {| files := ∅; start_build_install := false |}.

(** A bundle in [/Library/Extensions] that has no [Contents/Info.plist]. *)
Definition bare_kext : string := "/Library/Extensions/Bare.kext".

(** A disk on which nothing is installed yet: the application in the
    downloads of the user, the two templates among the payloads, the image
    of the cryptex, and three kernel extensions: one whose descriptor has
    the key [GPUCompanionBundles], one whose descriptor does not load, one
    whose descriptor lacks the key. *)
Definition extensions : list string :=
  [ "/Library/Extensions/AMDRadeonX4000.kext";
    "/Library/Extensions/Broken.kext";
    "/Library/Extensions/Plain.kext";
    bare_kext ].

Definition fresh_files : gmap string node :=
  <["/Users/me/Downloads/OpenCore-Patcher.app" := Bundle "OpenCore-Patcher 0.6.2"]>
  (<["/private/tmp/payloads/com.dortania.opencore-legacy-patcher.auto-patch.plist" :=
       File (Raw "auto-patch") "755" "me:staff"]>
  (<["/private/tmp/payloads/com.dortania.opencore-legacy-patcher.rsr-monitor.plist" :=
       File (Plist (<["Label" := PString "com.dortania.opencore-legacy-patcher.rsr-monitor"]> ∅))
            "755" "me:staff"]>
  (<["/System/Volumes/Preboot/0F1E2D3C/cryptex1/current/OS.dmg" :=
       File (Raw "OS.dmg") "644" "root:wheel"]>
  (<["/Library/Extensions/AMDRadeonX4000.kext/Contents/Info.plist" :=
       File (Plist (<["GPUCompanionBundles" := PArray ["AMDRadeonX4000GLDriver"]]> ∅))
            "644" "root:wheel"]>
  (<["/Library/Extensions/Broken.kext/Contents/Info.plist" :=
       File (Raw "not a property list") "644" "root:wheel"]>
  (<["/Library/Extensions/Plain.kext/Contents/Info.plist" :=
       File (Plist (<["CFBundleName" := PString "Plain"]> ∅)) "644" "root:wheel"]>
   ∅)))))).

Definition fresh_disk : World := {| files := fresh_files; start_build_install := false |}.

(** The collaborators of the installer on that disk. *)
Definition installer_probes : Probes := probes_with None ["disk0s2"] None extensions.

(** The disk after one run of the installer. *)
Definition installed_disk : World :=
  world (install_auto_patcher_launch_agent constants installer_probes fresh_disk).


(** Collaborators of a decision cycle: the update found, the answer to
    the update dialog, the seal, the report of the detection, whether GitHub
    is reached, and the exit status of every [osascript] dialog.  The disks
    are those of [probes], the notification is not turned off and the boot
    disk is ejectable. *)
Definition cycle_probes (update : option UpdateInfo) (answer : wx_id) (seal : bool)
    (report : PatchReport) (online : bool) (returncode : Z) : Probes := {|
  check_binary_updates := update;
  show_modal := answer;
  check_seal := seal;
  detect_patch_set := fun _ => report;
  verify_network_connection := online;
  osascript := fun _ => returncode;
  check_if_newer := fun _ => false;
  read_property := fun _ => None;
  get_disk_path := "disk3s1";
  find_apfs_physical_volume := fun _ => ["disk0s2"; "disk1s1"];
  diskutil_info := fun _ => {| Ejectable := Some true |};
  get_preboot_uuid := "0F1E2D3C";
  glob_extensions := []
|}.


(** A report with one patch to apply, and whether patching is possible,
    if the report says. *)
Definition report (possible : option bool) : PatchReport :=
  [ ("Graphics: Intel Ivy Bridge", true);
    ("Graphics: Intel Haswell", false);
    ("Settings: Requires AMFI exemption", true) ] ++
  match possible with
  | Some v => [ ("Validation: Patching Possible", v) ]
  | None => []
  end.

(** The same process on a machine that booted the build [oclp] from the
    disk [booted], a hackintosh or not. *)
Definition machine (oclp : option string) (special hackintosh : bool)
    (booted : option string) : Constants := {|
  wxpython_variant := true;
  patcher_version := "0.6.2";
  commit_info0 := "refs/tags/0.6.2";
  computer_real_model := "MacBookPro11,1";
  computer_oclp_version := oclp;
  special_build := special;
  host_is_hackintosh := hackintosh;
  booted_oc_disk := booted;
  launcher_script := None;
  launcher_binary := launcher_binary constants;
  app_icon_path := app_icon_path constants;
  auto_patch_launch_agent_path := auto_patch_launch_agent_path constants;
  rsr_monitor_launch_daemon_path := rsr_monitor_launch_daemon_path constants;
  cwd := "/"
|}.

End Example.


Open Scope list_scope.

(** ** The Python string primitives on examples *)

Example strip_disk0s1 : Py.strip "disk0s1" "disk" = "0s1".
Proof. reflexivity. Qed.

Example split_disk : Py.split "10s2s1" "s" = ["10"; "2"; "1"].
Proof. reflexivity. Qed.

Example split_path :
  Py.split "/Users/me/OpenCore-Patcher.app/Contents/MacOS/OpenCore-Patcher"
           "/Contents/MacOS/OpenCore-Patcher"
  = ["/Users/me/OpenCore-Patcher.app"; EmptyString].
Proof. reflexivity. Qed.

(** ** Reasoning on runs *)

(** A sequence whose first part returns goes on with the second. *)
Lemma bind_returned {A B} (m : M A) (k : A -> M B) (w w' : World) (a : A) (es : list event) :
  m w = Run (Return a) w' es -> bind m k w = prepend es (k a w').
Proof. intros H. unfold bind, prepend. rewrite H. reflexivity. Qed.

(** A sequence whose first part raises stops there. *)
Lemma bind_raised {A B} (m : M A) (k : A -> M B) (w w' : World) (e : exn) (es : list event) :
  m w = Run (Raise e) w' es -> bind m k w = Run (Raise e) w' es.
Proof. intros H. unfold bind. rewrite H. reflexivity. Qed.

Lemma try_returned {A} (body : M A) (handler : exn -> option (M A)) (w w' : World)
    (a : A) (es : list event) :
  body w = Run (Return a) w' es -> try_except body handler w = Run (Return a) w' es.
Proof. intros H. unfold try_except. rewrite H. reflexivity. Qed.

Lemma try_raised {A} (body : M A) (handler : exn -> option (M A)) (w w' : World)
    (e : exn) (es : list event) :
  body w = Run (Raise e) w' es ->
  try_except body handler w =
  match handler e with
  | Some h => prepend es (h w')
  | None => Run (Raise e) w' es
  end.
Proof. intros H. unfold try_except, prepend. rewrite H. cbn. destruct (handler e); reflexivity. Qed.

(** One step of a run: the first part of the sequence at the head of the
    goal is a basic operation, which returns. *)
Ltac run_step := erewrite bind_returned by reflexivity; cbv beta.

(** Membership in an explicit list of effects, one element at a time. *)
Ltac absent :=
  cbn; intuition (try discriminate);
  repeat match goal with
         | H : _ \/ _ |- _ => destruct H as [H | H]; try discriminate
         | H : False |- _ => destruct H
         end.

(** ** The decision cycle: version check *)

(** The runs of [_determine_if_versions_match]. *)
Lemma versions_match_run (c : Constants) (p : Probes) (w : World) :
  _determine_if_versions_match c p w =
  prepend [ Log "- Checking booted vs installed OCLP Build" ]
    match computer_oclp_version c with
    | None => Run (Return true) w [ Log "- Booted version not found" ]
    | Some booted =>
        if String.eqb booted (patcher_version c) then
          Run (Return true) w [ Log "- Versions match" ]
        else if special_build c then
          Run (Return false) w [ Log "- Special build detected, assuming installed is older" ]
        else if check_if_newer p booted then
          Run (Return true) w
            [ CheckIfNewer booted;
              Log "- Installed version is newer than booted version" ]
        else if Z.eqb (osascript p (BootloaderPrompt booted (patcher_version c))) 0 then
          Run (Return false) (build_install_started w)
            [ CheckIfNewer booted;
              Osascript (BootloaderPrompt booted (patcher_version c));
              Log "- Launching GUI's Build/Install menu";
              GuiEntry BUILD_OC ]
        else
          Run (Return false) w
            [ CheckIfNewer booted;
              Osascript (BootloaderPrompt booted (patcher_version c)) ]
    end.
Proof.
  unfold _determine_if_versions_match. run_step.
  destruct (computer_oclp_version c) as [booted|]; [|reflexivity].
  destruct (String.eqb booted (patcher_version c)); [reflexivity|].
  destruct (special_build c); [reflexivity|].
  run_step.
  destruct (check_if_newer p booted); [reflexivity|].
  run_step.
  destruct (Z.eqb _ 0); reflexivity.
Qed.

(** C3. When the booted version differs from the installed one and the
    build is a special build, [_determine_if_versions_match] returns
    [False]; it logs two lines and does nothing else: the comparator
    [check_if_newer] is not asked, whatever it would answer, no dialog is
    shown and the machine is left as it was.  This holds of any two
    different strings, empty or not. *)
Theorem special_build_versions_mismatch (c : Constants) (p : Probes) (w : World)
    (booted : string) :
  computer_oclp_version c = Some booted ->
  booted <> patcher_version c ->
  special_build c = true ->
  let r := _determine_if_versions_match c p w in
  value r = Return false /\
  world r = w /\
  effects r = [ Log "- Checking booted vs installed OCLP Build";
                Log "- Special build detected, assuming installed is older" ] /\
  (forall version, ~ In (CheckIfNewer version) (effects r)) /\
  no_prompt r.
Proof.
  intros Hbooted Hdiff Hspecial r.
  assert (Hr : r = Run (Return false) w
                 [ Log "- Checking booted vs installed OCLP Build";
                   Log "- Special build detected, assuming installed is older" ]).
  { subst r. rewrite versions_match_run, Hbooted.
    apply String.eqb_neq in Hdiff. rewrite Hdiff, Hspecial. reflexivity. }
  rewrite Hr. cbn. repeat split; try reflexivity.
  - intros version [H | [H | []]]; discriminate H.
  - intros d [H | [H | []]]; discriminate H.
Qed.

Lemma special_build_versions_mismatch_witness :
  let r := _determine_if_versions_match Example.constants Example.probes Example.empty_disk in
  value r = Return false /\
  world r = Example.empty_disk /\
  effects r = [ Log "- Checking booted vs installed OCLP Build";
                Log "- Special build detected, assuming installed is older" ] /\
  (forall version, ~ In (CheckIfNewer version) (effects r)) /\
  no_prompt r.
Proof.
  apply (special_build_versions_mismatch Example.constants Example.probes
           Example.empty_disk "0.6.1").
  - reflexivity.
  - discriminate.
  - reflexivity.
Defined.

(** ** The decision cycle: boot disk check *)

(** The runs of [_determine_if_boot_matches] that a guard stops. *)
Lemma boot_check_guarded (c : Constants) (p : Probes) (w : World) :
  read_property p "AutoPatch_Notify_Mismatched_Disks" = Some false \/
  host_is_hackintosh c = true \/
  truthy (booted_oc_disk c) = None ->
  exists msg,
    _determine_if_boot_matches c p w =
    Run (Return tt) w
      [ Log "- Determining if macOS drive matches boot drive";
        ReadProperty "AutoPatch_Notify_Mismatched_Disks";
        Log msg ].
Proof.
  unfold _determine_if_boot_matches. intros H. run_step. run_step.
  destruct H as [Hp | [Hh | Hb]].
  - rewrite Hp. eexists. reflexivity.
  - destruct (read_property p "AutoPatch_Notify_Mismatched_Disks") as [[|]|];
      try rewrite Hh; eexists; reflexivity.
  - destruct (read_property p "AutoPatch_Notify_Mismatched_Disks") as [[|]|];
      destruct (host_is_hackintosh c); try rewrite Hb; eexists; reflexivity.
Qed.

(** The runs of [_determine_if_boot_matches] once the three guards are
    passed, by what the probes answer. *)
Lemma boot_check_compared (c : Constants) (p : Probes) (w : World) (booted : string) :
  read_property p "AutoPatch_Notify_Mismatched_Disks" <> Some false ->
  host_is_hackintosh c = false ->
  truthy (booted_oc_disk c) = Some booted ->
  _determine_if_boot_matches c p w =
  match find_matching_store (root_disk_of booted)
          (find_apfs_physical_volume p (get_disk_path p)) with
  | Some disk =>
      Run (Return tt) w
        (boot_check_preamble p booted ++
         [ Log ("- Boot drive matches macOS drive (" +:+ disk +:+ ")") ])
  | None =>
      let asked :=
        boot_check_preamble p booted ++
        [ Log "- Boot Drive does not match macOS drive, checking if OpenCore is on a USB drive";
          SubprocessRun ["diskutil"; "info"; "-plist"; root_disk_of booted] ] in
      match Ejectable (diskutil_info p (root_disk_of booted)) with
      | None =>
          Run (Return tt) w
            (asked ++ [ Log "- Unable to determine if boot disk is removable, skipping prompt" ])
      | Some false =>
          Run (Return tt) w
            (asked ++ [ Log "- Boot Disk is not removable, skipping prompt" ])
      | Some true =>
          if Z.eqb (osascript p InstallToDiskPrompt) 0 then
            Run (Return tt) (build_install_started w)
              (asked ++
               [ Log "- Boot Disk is ejectable, prompting user to install to internal";
                 Osascript InstallToDiskPrompt;
                 Log "- Launching GUI's Build/Install menu";
                 GuiEntry BUILD_OC ])
          else
            Run (Return tt) w
              (asked ++
               [ Log "- Boot Disk is ejectable, prompting user to install to internal";
                 Osascript InstallToDiskPrompt ])
      end
  end.
Proof.
  intros Hpref Hmac Hbooted.
  unfold _determine_if_boot_matches. run_step. run_step.
  assert (Hgo : forall (A : Type) (x y : A),
             match read_property p "AutoPatch_Notify_Mismatched_Disks" with
             | Some false => x
             | _ => y
             end = y)
    by (intros A x y;
        destruct (read_property p "AutoPatch_Notify_Mismatched_Disks") as [[|]|];
        congruence).
  rewrite Hgo, Hmac, Hbooted. cbv beta iota zeta.
  do 5 run_step.
  destruct (find_matching_store _ _) as [disk|]; [reflexivity|].
  run_step. run_step.
  unfold try_except_KeyError, getitem_Ejectable.
  destruct (Ejectable _) as [[|]|].
  - destruct (Z.eqb (osascript p InstallToDiskPrompt) 0) eqn:Hrc;
      (erewrite try_returned; revgoals;
       [ run_step; cbv beta iota delta [negb]; run_step; run_step; rewrite Hrc;
         repeat run_step; reflexivity
       | reflexivity ]).
  - erewrite try_returned; revgoals; [run_step; reflexivity | reflexivity].
  - erewrite try_raised by reflexivity. reflexivity.
Qed.

(** C7. When the preference [AutoPatch_Notify_Mismatched_Disks] reads
    [False], [_determine_if_boot_matches] logs, reads the preference, logs
    that it skips, and returns: no dialog, no disk probe, and the machine,
    with its [start_build_install] flag, is left as it was, whatever the
    disks are. *)
Theorem boot_check_skipped_by_preference (c : Constants) (p : Probes) (w : World) :
  read_property p "AutoPatch_Notify_Mismatched_Disks" = Some false ->
  let r := _determine_if_boot_matches c p w in
  value r = Return tt /\
  world r = w /\
  effects r = [ Log "- Determining if macOS drive matches boot drive";
                ReadProperty "AutoPatch_Notify_Mismatched_Disks";
                Log "- Skipping due to user preference" ] /\
  no_prompt r /\
  ~ queries_diskutil r /\
  ~ In GetDiskPath (effects r) /\
  (forall disk, ~ In (FindApfsPhysicalVolume disk) (effects r)).
Proof.
  intros Hpref r.
  assert (Hr : r = Run (Return tt) w
                 [ Log "- Determining if macOS drive matches boot drive";
                   ReadProperty "AutoPatch_Notify_Mismatched_Disks";
                   Log "- Skipping due to user preference" ]).
  { subst r. unfold _determine_if_boot_matches. run_step. run_step.
    rewrite Hpref. reflexivity. }
  rewrite Hr. unfold no_prompt, presents, queries_diskutil. cbn.
  repeat split; try reflexivity.
  - intros d. absent.
  - intros [disk H]. revert H. absent.
  - absent.
  - intros disk. absent.
Qed.

Lemma boot_check_skipped_by_preference_witness :
  let r := _determine_if_boot_matches (Example.booted_from "disk4s1")
             (Example.probes_with (Some false) ["disk0s2"] (Some true) [])
             Example.empty_disk in
  value r = Return tt /\
  world r = Example.empty_disk /\
  effects r = [ Log "- Determining if macOS drive matches boot drive";
                ReadProperty "AutoPatch_Notify_Mismatched_Disks";
                Log "- Skipping due to user preference" ] /\
  no_prompt r /\
  ~ queries_diskutil r /\
  ~ In GetDiskPath (effects r) /\
  (forall disk, ~ In (FindApfsPhysicalVolume disk) (effects r)).
Proof.
  apply (boot_check_skipped_by_preference (Example.booted_from "disk4s1")
           (Example.probes_with (Some false) ["disk0s2"] (Some true) [])
           Example.empty_disk).
  reflexivity.
Defined.

(** Either a guard stops [_determine_if_boot_matches], or the boot disk is
    known and compared. *)
Lemma boot_check_guards (c : Constants) (p : Probes) :
  (read_property p "AutoPatch_Notify_Mismatched_Disks" = Some false \/
   host_is_hackintosh c = true \/
   truthy (booted_oc_disk c) = None) \/
  (exists booted,
     read_property p "AutoPatch_Notify_Mismatched_Disks" <> Some false /\
     host_is_hackintosh c = false /\
     truthy (booted_oc_disk c) = Some booted).
Proof.
  destruct (read_property p "AutoPatch_Notify_Mismatched_Disks") as [[|]|];
    destruct (host_is_hackintosh c);
    destruct (truthy (booted_oc_disk c)) as [booted|];
    try (left; tauto); right; exists booted; repeat split; congruence.
Qed.

(** C4. In [_determine_if_boot_matches], the dialog that offers to install
    to the internal disk is shown only when the boot disk matches no
    physical store and the dictionary of [diskutil info] has the key
    [Ejectable] with the value [True].  When the key is missing the method
    logs that it cannot tell and returns; when the value is [False] it logs
    and returns; in both cases no dialog is shown and the machine is left as
    it was. *)
Theorem relocation_prompt_only_if_ejectable (c : Constants) (p : Probes) (w : World) :
  let r := _determine_if_boot_matches c p w in
  (presents InstallToDiskPrompt r ->
   exists booted,
     reaches_removable_check c p booted /\
     Ejectable (diskutil_info p (root_disk_of booted)) = Some true) /\
  (forall booted,
     reaches_removable_check c p booted ->
     match Ejectable (diskutil_info p (root_disk_of booted)) with
     | None =>
         value r = Return tt /\ world r = w /\ no_prompt r /\
         List.last (effects r) (Log EmptyString) =
           Log "- Unable to determine if boot disk is removable, skipping prompt"
     | Some false =>
         value r = Return tt /\ world r = w /\ no_prompt r /\
         List.last (effects r) (Log EmptyString) =
           Log "- Boot Disk is not removable, skipping prompt"
     | Some true => presents InstallToDiskPrompt r
     end).
Proof.
  intros r. subst r. unfold no_prompt, presents. split.
  - destruct (boot_check_guards c p) as [Hg | (booted & Hp & Hh & Hb)].
    + destruct (boot_check_guarded c p w Hg) as [msg ->]. absent.
    + rewrite (boot_check_compared c p w booted Hp Hh Hb).
      unfold boot_check_preamble.
      destruct (find_matching_store _ _) eqn:Hstore; [absent|].
      destruct (Ejectable _) as [[|]|] eqn:He; [|absent|absent].
      intros _. exists booted. unfold reaches_removable_check. auto.
  - intros booted (Hp & Hh & Hb & Hstore).
    rewrite (boot_check_compared c p w booted Hp Hh Hb), Hstore.
    unfold boot_check_preamble.
    destruct (Ejectable _) as [[|]|].
    + destruct (Z.eqb _ 0); cbn; tauto.
    + cbn. repeat split; try reflexivity. intros d. absent.
    + cbn. repeat split; try reflexivity. intros d. absent.
Qed.

Lemma relocation_prompt_only_if_ejectable_witness :
  let c := Example.booted_from "disk2s1" in
  let p := Example.probes_with None ["disk0s2"] (Some false) [] in
  let r := _determine_if_boot_matches c p Example.empty_disk in
  value r = Return tt /\ world r = Example.empty_disk /\ no_prompt r /\
  List.last (effects r) (Log EmptyString) =
    Log "- Boot Disk is not removable, skipping prompt".
Proof.
  intros c p.
  apply (proj2 (relocation_prompt_only_if_ejectable c p Example.empty_disk) "disk2s1").
  unfold reaches_removable_check. repeat split; try reflexivity. discriminate.
Defined.


(** *** Substrings *)

Lemma append_cons (c : ascii) (a b : string) : String c a +:+ b = String c (a +:+ b).
Proof. reflexivity. Qed.

Lemma prefix_spec (a b : string) :
  String.prefix a b = true <-> exists post, b = a +:+ post.
Proof.
  revert b. induction a as [|x a IH]; intros b.
  - split; [intros _; exists b; reflexivity | intros _; destruct b; reflexivity].
  - destruct b as [|y b].
    + split; [discriminate | intros [post H]; discriminate H].
    + cbn [String.prefix]. destruct (ascii_dec x y) as [->|Hxy].
      * rewrite IH. split; intros [post H]; exists post.
        -- rewrite H. reflexivity.
        -- rewrite append_cons in H. now inversion H.
      * split; [discriminate|].
        intros [post H]. rewrite append_cons in H. congruence.
Qed.

(** [a in b] holds exactly when [b] is [a] with something before and
    something after. *)
Lemma contains_spec (a b : string) :
  Py.contains a b = true <-> exists pre post, b = pre +:+ a +:+ post.
Proof.
  induction b as [|y b IH].
  - cbn [Py.contains]. rewrite orb_false_r, prefix_spec. split.
    + intros [post H]. exists EmptyString, post. exact H.
    + intros (pre & post & H). destruct pre as [|z pre];
        [exists post; exact H | rewrite append_cons in H; discriminate H].
  - cbn [Py.contains]. rewrite orb_true_iff, prefix_spec, IH. split.
    + intros [[post H] | (pre & post & H)].
      * exists EmptyString, post. exact H.
      * exists (String y pre), post. rewrite append_cons, H. reflexivity.
    + intros (pre & post & H). destruct pre as [|z pre].
      * left. exists post. exact H.
      * right. exists pre, post. rewrite append_cons in H. now inversion H.
Qed.

(** The loop over the stores stops at the first one that contains the
    name. *)
Lemma find_matching_store_some (root_disk : string) (stores : list string) (store : string) :
  In store stores ->
  Py.contains root_disk store = true ->
  exists disk,
    find_matching_store root_disk stores = Some disk /\
    In disk stores /\ Py.contains root_disk disk = true.
Proof.
  induction stores as [|s stores IH]; intros Hin Hc; [destruct Hin|].
  cbn [find_matching_store].
  destruct (Py.contains root_disk s) eqn:Hs.
  - exists s. repeat split; [left; reflexivity | exact Hs].
  - destruct Hin as [-> | Hin]; [congruence|].
    destruct (IH Hin Hc) as (disk & Hf & Hd & Hcd).
    exists disk. repeat split; [exact Hf | right; exact Hd | exact Hcd].
Qed.

(** A run that ends with the log line of a match shows no dialog and asks
    [diskutil] nothing. *)
Lemma matched_run_quiet (p : Probes) (w : World) (booted disk : string) :
  let r := Run (Return tt) w
             (boot_check_preamble p booted ++
              [ Log ("- Boot drive matches macOS drive (" +:+ disk +:+ ")") ]) in
  no_prompt r /\ ~ queries_diskutil r.
Proof.
  unfold no_prompt, presents, queries_diskutil, boot_check_preamble. split.
  - intros d. absent.
  - intros [d H]. revert H. absent.
Qed.

Lemma guarded_run_quiet (w : World) (msg : string) :
  let r := Run (Return tt) w
             [ Log "- Determining if macOS drive matches boot drive";
               ReadProperty "AutoPatch_Notify_Mismatched_Disks";
               Log msg ] in
  no_prompt r /\ ~ queries_diskutil r.
Proof.
  unfold no_prompt, presents, queries_diskutil. split.
  - intros d. absent.
  - intros [d H]. revert H. absent.
Qed.

(** C8. Booted from [disk0s1], with the physical stores [disk0s2] and
    [disk1s1]: the identifier is normalised to [disk0], which [disk0s2]
    contains, so [_determine_if_boot_matches] returns with the machine
    untouched, no dialog and no question to [diskutil]; when no guard stops
    it before, its last log line reports the match with [disk0s2]. *)
Theorem disk0s1_matches_disk0s2 (c : Constants) (p : Probes) (w : World) :
  booted_oc_disk c = Some "disk0s1" ->
  find_apfs_physical_volume p (get_disk_path p) = ["disk0s2"; "disk1s1"] ->
  root_disk_of "disk0s1" = "disk0" /\
  find_matching_store "disk0" ["disk0s2"; "disk1s1"] = Some "disk0s2" /\
  let r := _determine_if_boot_matches c p w in
  value r = Return tt /\
  world r = w /\
  no_prompt r /\
  ~ queries_diskutil r /\
  (read_property p "AutoPatch_Notify_Mismatched_Disks" <> Some false ->
   host_is_hackintosh c = false ->
   effects r = boot_check_preamble p "disk0s1" ++
               [ Log "- Boot drive matches macOS drive (disk0s2)" ]).
Proof.
  intros Hbooted Hstores.
  split; [reflexivity|]. split; [reflexivity|].
  assert (Hrun : forall (Hp : read_property p "AutoPatch_Notify_Mismatched_Disks" <> Some false)
                        (Hh : host_is_hackintosh c = false),
             _determine_if_boot_matches c p w =
             Run (Return tt) w
               (boot_check_preamble p "disk0s1" ++
                [ Log "- Boot drive matches macOS drive (disk0s2)" ])).
  { intros Hp Hh.
    rewrite (boot_check_compared c p w "disk0s1" Hp Hh) by (rewrite Hbooted; reflexivity).
    rewrite Hstores. reflexivity. }
  cbv zeta.
  destruct (boot_check_guards c p) as [Hg | (booted & Hp & Hh & Hb)].
  - destruct (boot_check_guarded c p w Hg) as [msg ->].
    destruct (guarded_run_quiet w msg) as [Hq1 Hq2].
    repeat split; try assumption.
    intros Hp Hh. destruct Hg as [Hg | [Hg | Hg]]; try congruence.
    rewrite Hbooted in Hg. discriminate Hg.
  - rewrite (Hrun Hp Hh).
    destruct (matched_run_quiet p w "disk0s1" "disk0s2") as [Hq1 Hq2].
    repeat split; assumption.
Qed.

Lemma disk0s1_matches_disk0s2_witness :
  root_disk_of "disk0s1" = "disk0" /\
  find_matching_store "disk0" ["disk0s2"; "disk1s1"] = Some "disk0s2" /\
  let r := _determine_if_boot_matches (Example.booted_from "disk0s1") Example.probes
             Example.empty_disk in
  value r = Return tt /\
  world r = Example.empty_disk /\
  no_prompt r /\
  ~ queries_diskutil r /\
  (read_property Example.probes "AutoPatch_Notify_Mismatched_Disks" <> Some false ->
   host_is_hackintosh (Example.booted_from "disk0s1") = false ->
   effects r = boot_check_preamble Example.probes "disk0s1" ++
               [ Log "- Boot drive matches macOS drive (disk0s2)" ]).
Proof.
  apply (disk0s1_matches_disk0s2 (Example.booted_from "disk0s1") Example.probes
           Example.empty_disk); reflexivity.
Defined.

(** C10. The comparison of the boot disk with the physical stores is a
    substring test: as soon as the normalised name of the boot disk occurs
    somewhere inside one of the store identifiers, the method reports a
    match with the first such store and returns, with no dialog and no
    question to [diskutil].  So [disk1], the name of the boot disk
    [disk1s1], matches the store [disk10s2], a partition of the other disk
    [disk10]. *)
Theorem boot_check_matches_by_substring (c : Constants) (p : Probes) (w : World)
    (booted store pre post : string) :
  read_property p "AutoPatch_Notify_Mismatched_Disks" <> Some false ->
  host_is_hackintosh c = false ->
  truthy (booted_oc_disk c) = Some booted ->
  In store (find_apfs_physical_volume p (get_disk_path p)) ->
  store = pre +:+ root_disk_of booted +:+ post ->
  (let r := _determine_if_boot_matches c p w in
   exists disk,
     In disk (find_apfs_physical_volume p (get_disk_path p)) /\
     Py.contains (root_disk_of booted) disk = true /\
     effects r = boot_check_preamble p booted ++
                 [ Log ("- Boot drive matches macOS drive (" +:+ disk +:+ ")") ] /\
     value r = Return tt /\
     world r = w /\
     no_prompt r /\
     ~ queries_diskutil r) /\
  root_disk_of "disk1s1" = "disk1" /\
  root_disk_of "disk10s2" = "disk10" /\
  find_matching_store "disk1" ["disk10s2"] = Some "disk10s2".
Proof.
  intros Hp Hh Hb Hin Hsub.
  split; [|repeat split; reflexivity].
  assert (Hc : Py.contains (root_disk_of booted) store = true).
  { apply contains_spec. exists pre, post. exact Hsub. }
  destruct (find_matching_store_some _ _ _ Hin Hc) as (disk & Hf & Hd & Hcd).
  cbv zeta. rewrite (boot_check_compared c p w booted Hp Hh Hb), Hf.
  destruct (matched_run_quiet p w booted disk) as [Hq1 Hq2].
  exists disk. repeat split; assumption.
Qed.

Lemma boot_check_matches_by_substring_witness :
  let c := Example.booted_from "disk1s1" in
  let p := Example.probes_with None ["disk10s2"] (Some true) [] in
  (let r := _determine_if_boot_matches c p Example.empty_disk in
   exists disk,
     In disk (find_apfs_physical_volume p (get_disk_path p)) /\
     Py.contains (root_disk_of "disk1s1") disk = true /\
     effects r = boot_check_preamble p "disk1s1" ++
                 [ Log ("- Boot drive matches macOS drive (" +:+ disk +:+ ")") ] /\
     value r = Return tt /\
     world r = Example.empty_disk /\
     no_prompt r /\
     ~ queries_diskutil r) /\
  root_disk_of "disk1s1" = "disk1" /\
  root_disk_of "disk10s2" = "disk10" /\
  find_matching_store "disk1" ["disk10s2"] = Some "disk10s2".
Proof.
  intros c p.
  apply (boot_check_matches_by_substring c p Example.empty_disk
           "disk1s1" "disk10s2" EmptyString "0s2").
  - discriminate.
  - reflexivity.
  - reflexivity.
  - left. reflexivity.
  - reflexivity.
Defined.

(** ** The decision cycle: the patch report *)

(** A report whose patches are all false passes the test of line 72 as
    "nothing to apply". *)
Lemma all_patches_false_any (patches : PatchReport) :
  all_patches_false patches -> any_patch patches = false.
Proof.
  unfold all_patches_false, any_patch.
  induction patches as [|[patch v] rest IH]; intros H; [reflexivity|].
  cbn. rewrite IH by (intros q u Hin; apply H; right; exact Hin).
  destruct (is_patch_name patch) eqn:Hn; [|reflexivity].
  rewrite (H patch v (or_introl eq_refl) Hn). reflexivity.
Qed.

(** The only dialog of the version check is the one about the bootloader. *)
Lemma versions_match_dialogs (c : Constants) (p : Probes) (w : World) (d : dialog) :
  presents d (_determine_if_versions_match c p w) ->
  exists booted installed, d = BootloaderPrompt booted installed.
Proof.
  unfold presents. rewrite versions_match_run.
  destruct (computer_oclp_version c) as [booted|]; [|absent].
  destruct (String.eqb booted (patcher_version c)); [absent|].
  destruct (special_build c); [absent|].
  destruct (check_if_newer p booted); [absent|].
  destruct (Z.eqb _ 0); cbn;
    intros H; repeat (destruct H as [H | H]; try discriminate H);
    try (injection H as <-; eauto); destruct H.
Qed.

(** The only dialog of the boot disk check is the one about the internal
    disk. *)
Lemma boot_check_dialogs (c : Constants) (p : Probes) (w : World) (d : dialog) :
  presents d (_determine_if_boot_matches c p w) -> d = InstallToDiskPrompt.
Proof.
  unfold presents.
  destruct (boot_check_guards c p) as [Hg | (booted & Hp & Hh & Hb)].
  - destruct (boot_check_guarded c p w Hg) as [msg ->]. absent.
  - rewrite (boot_check_compared c p w booted Hp Hh Hb).
    unfold boot_check_preamble.
    destruct (find_matching_store _ _); [absent|].
    destruct (Ejectable _) as [[|]|]; [|absent|absent].
    destruct (Z.eqb _ 0); cbn;
      intros H; repeat (destruct H as [H | H]; try discriminate H);
      try (injection H as <-; reflexivity); destruct H.
Qed.

Lemma version_then_boot_dialogs (c : Constants) (p : Probes) (w : World) (d : dialog) :
  In (Osascript d) (version_then_boot_effects c p w) ->
  d = InstallToDiskPrompt \/ exists booted installed, d = BootloaderPrompt booted installed.
Proof.
  unfold version_then_boot_effects. intros H.
  apply in_app_or in H. destruct H as [H | H].
  - right. exact (versions_match_dialogs c p w d H).
  - destruct (value (_determine_if_versions_match c p w)) as [[|]|e];
      [left; exact (boot_check_dialogs c p _ d H) | destruct H | destruct H].
Qed.

(** The run of [start_auto_patch] when the interface is graphical, no
    update is offered and the report has nothing to apply. *)
Lemma start_auto_patch_nothing_to_apply (c : Constants) (p : Probes) (w : World) :
  wxpython_variant c = true ->
  check_binary_updates p = None ->
  any_patch (detect_patch_set p (computer_real_model c)) = false ->
  effects (start_auto_patch c p w) =
    ([ Log "- Starting Automatic Patching"; CheckBinaryUpdates; CheckSeal ] ++
     (if check_seal p then
        [ Log "- Detected Snapshot seal intact, detecting patches";
          DetectPatchSet (computer_real_model c);
          Log "- No patches detected" ]
      else
        [ Log "- Detected Snapshot seal not intact, skipping" ])) ++
    version_then_boot_effects c p w.
Proof.
  intros Hgui Hupd Hany.
  unfold start_auto_patch, version_then_boot_effects. run_step.
  rewrite Hgui. cbv beta iota delta [negb]. run_step. rewrite Hupd. cbv beta iota.
  assert (Hseal : seal_and_patches c p w =
                  Run (Return FellThrough) w
                    (CheckSeal ::
                     (if check_seal p then
                        [ Log "- Detected Snapshot seal intact, detecting patches";
                          DetectPatchSet (computer_real_model c);
                          Log "- No patches detected" ]
                      else
                        [ Log "- Detected Snapshot seal not intact, skipping" ]))).
  { unfold seal_and_patches. run_step.
    destruct (check_seal p); [|run_step; reflexivity].
    run_step. run_step. rewrite Hany. cbv beta iota zeta delta [negb].
    run_step. reflexivity. }
  rewrite (bind_returned _ _ _ _ _ _ Hseal). cbv beta iota.
  destruct (_determine_if_versions_match c p w) as [[[|]|e] wv ev] eqn:Hv.
  - rewrite (bind_returned _ _ _ _ _ _ Hv). cbn [prepend value world effects].
    destruct (check_seal p); reflexivity.
  - rewrite (bind_returned _ _ _ _ _ _ Hv). cbn [prepend value world effects ret].
    destruct (check_seal p); reflexivity.
  - rewrite (bind_raised _ _ _ _ _ _ Hv). cbn [prepend value world effects].
    destruct (check_seal p); cbn; rewrite app_nil_r; reflexivity.
Qed.

(** The runs of [start_auto_patch] that stop before the patch detection
    show no [osascript] dialog. *)
Lemma start_auto_patch_stopped_early (c : Constants) (p : Probes) (w : World) :
  wxpython_variant c = false \/ check_binary_updates p <> None ->
  no_prompt (start_auto_patch c p w).
Proof.
  unfold no_prompt, presents, start_auto_patch. intros H d. run_step.
  destruct (wxpython_variant c); [|absent].
  destruct H as [H | H]; [discriminate H|].
  cbv beta iota delta [negb]. run_step.
  destruct (check_binary_updates p) as [u|]; [|congruence].
  run_step. run_step.
  destruct (show_modal p); absent.
Qed.

(** C2. When every key of the report outside [Settings...] and
    [Validation...] is false, [start_auto_patch] never shows the dialog that
    lists the patches and never runs the privileged patch command; and when
    the cycle gets to the detection (graphical interface, no update, seal
    intact), it logs "No patches detected" and goes on with the version
    check, followed by the boot disk check if the versions match. *)
Theorem non_actionable_report_falls_through (c : Constants) (p : Probes) (w : World) :
  all_patches_false (detect_patch_set p (computer_real_model c)) ->
  let r := start_auto_patch c p w in
  (forall patch_string warning_str, ~ presents (PatchPrompt patch_string warning_str) r) /\
  (forall args, ~ presents (PatchElevated args) r) /\
  (wxpython_variant c = true ->
   check_binary_updates p = None ->
   check_seal p = true ->
   effects r =
     [ Log "- Starting Automatic Patching"; CheckBinaryUpdates; CheckSeal;
       Log "- Detected Snapshot seal intact, detecting patches";
       DetectPatchSet (computer_real_model c);
       Log "- No patches detected" ] ++
     version_then_boot_effects c p w).
Proof.
  intros Hfalse r.
  pose proof (all_patches_false_any _ Hfalse) as Hany.
  assert (Hno : forall d, presents d r ->
                  d = InstallToDiskPrompt \/
                  exists booted installed, d = BootloaderPrompt booted installed).
  { intros d Hd. subst r.
    destruct (wxpython_variant c) eqn:Hgui;
      [|exfalso; exact (start_auto_patch_stopped_early c p w (or_introl Hgui) d Hd)].
    destruct (check_binary_updates p) as [u|] eqn:Hupd.
    { exfalso. refine (start_auto_patch_stopped_early c p w (or_intror _) d Hd).
      congruence. }
    unfold presents in Hd.
    rewrite (start_auto_patch_nothing_to_apply c p w Hgui Hupd Hany) in Hd.
    apply in_app_or in Hd. destruct Hd as [Hd | Hd].
    - exfalso. revert Hd. destruct (check_seal p); absent.
    - exact (version_then_boot_dialogs c p w d Hd). }
  repeat split.
  - intros ps ws H. destruct (Hno _ H) as [H' | (b & i & H')]; discriminate H'.
  - intros a H. destruct (Hno _ H) as [H' | (b & i & H')]; discriminate H'.
  - intros Hgui Hupd Hseal. subst r.
    rewrite (start_auto_patch_nothing_to_apply c p w Hgui Hupd Hany), Hseal.
    reflexivity.
Qed.

Lemma non_actionable_report_falls_through_witness :
  let c := Example.booted_from "disk0s1" in
  let r := start_auto_patch c Example.probes Example.empty_disk in
  (forall patch_string warning_str, ~ presents (PatchPrompt patch_string warning_str) r) /\
  (forall args, ~ presents (PatchElevated args) r) /\
  (wxpython_variant c = true ->
   check_binary_updates Example.probes = None ->
   check_seal Example.probes = true ->
   effects r =
     [ Log "- Starting Automatic Patching"; CheckBinaryUpdates; CheckSeal;
       Log "- Detected Snapshot seal intact, detecting patches";
       DetectPatchSet (computer_real_model c);
       Log "- No patches detected" ] ++
     version_then_boot_effects c Example.probes Example.empty_disk).
Proof.
  intros c.
  apply (non_actionable_report_falls_through c Example.probes Example.empty_disk).
  intros patch v Hin Hname. cbn in Hin.
  destruct Hin as [H | [H | [H | []]]]; injection H as <- <-;
    [reflexivity | discriminate Hname | discriminate Hname].
Defined.

(** ** The scan of the kernel extensions *)

(** Stripping on the right leaves alone whatever precedes a character that
    stays. *)
Lemma rstrip_app (chars a b : string) :
  Py.rstrip chars b <> EmptyString ->
  Py.rstrip chars (a +:+ b) = a +:+ Py.rstrip chars b.
Proof.
  intros Hb. induction a as [|x a IH]; [reflexivity|].
  rewrite append_cons. cbn [Py.rstrip]. rewrite IH.
  destruct (a +:+ Py.rstrip chars b) eqn:E; [|rewrite append_cons, E; reflexivity].
  destruct a; [change (Py.rstrip chars b = EmptyString) in E; congruence
              | rewrite append_cons in E; discriminate E].
Qed.

(** [Path] leaves the path of a descriptor as it is. *)
Lemma Path_descriptor_path (kext : string) :
  Fs.Path (descriptor_path kext) = descriptor_path kext.
Proof.
  unfold Fs.Path, descriptor_path.
  rewrite rstrip_app by (vm_compute; discriminate).
  change (Py.rstrip "/" "/Contents/Info.plist") with "/Contents/Info.plist".
  destruct kext; reflexivity.
Qed.

(** The basic operations on files return. *)
Lemma Path_exists_run (c : Constants) (q : string) (w : World) :
  Path_exists c q w =
  Run (Return (Fs.exists_ (files w) (Fs.absolute (cwd c) (Fs.Path q)))) w [].
Proof. reflexivity. Qed.

Lemma plistlib_load_run (c : Constants) (path : string) (w : World) :
  plistlib_load c path w =
  Run (match Fs.stat (files w) (Fs.absolute (cwd c) path) with
       | Some (File (Plist d) _ _) => Return d
       | Some (File (Raw _) _ _) => Raise (InvalidFileException path)
       | Some Directory | Some (Bundle _) => Raise (IsADirectoryError path)
       | Some (Symlink _) | None => Raise (FileNotFoundError path)
       end)
      w [ PlistLoad path ].
Proof.
  unfold plistlib_load. run_step. run_step.
  destruct (Fs.stat (files w) (Fs.absolute (cwd c) path))
    as [[| payload | [d | bytes] mode owner | target]|]; reflexivity.
Qed.

(** One turn of the loop of [scan_kexts]. *)
Lemma scan_kexts_cons (c : Constants) (w : World) (kext : string) (rest : list string) :
  scan_kexts c (kext :: rest) w =
  let r := scan_kexts c rest w in
  Run (match value r with
       | Return kexts =>
           Return (if carries_marker c w kext then Fs.name kext :: kexts else kexts)
       | Raise e => Raise e
       end)
      (world r)
      (kext_effects c w kext ++ effects r).
Proof.
  cbn [scan_kexts].
  rewrite (bind_returned _ _ _ _ _ _ (Path_exists_run c _ w)).
  change (kext +:+ "/Contents/Info.plist") with (descriptor_path kext).
  rewrite Path_descriptor_path.
  unfold carries_marker, kext_effects, descriptor_of, Fs.exists_, try_except_Exception.
  pose proof (plistlib_load_run c (descriptor_path kext) w) as Hload.
  destruct (Fs.stat (files w) (Fs.absolute (cwd c) (descriptor_path kext)))
    as [[| payload | [d | bytes] mode owner | target]|];
    cbv beta iota delta [negb prepend value world effects app].
  1,2,4,5:
    (erewrite bind_returned;
     [| erewrite try_raised by (erewrite bind_raised by exact Hload; reflexivity);
        cbv beta iota; run_step; reflexivity ];
     cbn [prepend value world effects app ret];
     destruct (scan_kexts c rest w) as [[kexts|e] wr er]; reflexivity).
  - erewrite bind_returned;
      [| erewrite try_returned;
         [reflexivity | rewrite (bind_returned _ _ _ _ _ _ Hload); reflexivity ] ].
    cbn [prepend value world effects app ret].
    destruct (d !! "GPUCompanionBundles").
    + run_step.
      destruct (scan_kexts c rest w) as [[kexts|e] wr er] eqn:Hrest.
      * rewrite (bind_returned _ _ _ _ _ _ Hrest).
        cbn [prepend value world effects app ret]. rewrite app_nil_r. reflexivity.
      * rewrite (bind_raised _ _ _ _ _ _ Hrest). reflexivity.
    + destruct (scan_kexts c rest w) as [[kexts|e] wr er]; reflexivity.
  - destruct (scan_kexts c rest w) as [[kexts|e] wr er]; reflexivity.
Qed.

(** The scan as a whole: it returns, collects the names of the bundles
    whose descriptor loads and has the key, in the order of the scan, leaves
    the machine as it was, and its effects are those of its turns. *)
Lemma scan_kexts_run (c : Constants) (w : World) (globbed : list string) :
  scan_kexts c globbed w =
  Run (Return (map Fs.name (List.filter (carries_marker c w) globbed)))
      w
      (flat_map (kext_effects c w) globbed).
Proof.
  induction globbed as [|kext rest IH]; [reflexivity|].
  rewrite scan_kexts_cons, IH. cbn -[carries_marker kext_effects].
  destruct (carries_marker c w kext); reflexivity.
Qed.

(** The turn of a bundle loads nothing but the descriptor of that bundle
    and writes no file. *)
Lemma kext_effects_loads (c : Constants) (w : World) (kext : string) (e : event) :
  In e (kext_effects c w kext) ->
  e = PlistLoad (descriptor_path kext) \/ exists msg, e = Log msg.
Proof.
  unfold kext_effects.
  destruct (descriptor_of c w kext) as [| x | d]; cbn.
  - intros [].
  - intros [H | [H | []]]; subst; eauto.
  - intros [H | H]; [subst; eauto|].
    destruct (d !! "GPUCompanionBundles"); [destruct H as [H | []]; subst; eauto | destruct H].
Qed.



(** ** The monitor daemon *)


(** The runs of [_create_rsr_monitor_daemon] up to the point where the
    descriptor of the daemon is rewritten. *)
Lemma create_rsr_monitor_daemon_run (c : Constants) (p : Probes) (w : World) :
  _create_rsr_monitor_daemon c p w =
  prepend [ Log "- Checking if RSRMonitor is needed"; GetPrebootUuid ]
    (if Fs.exists_ (files w) (Fs.absolute (cwd c) (Fs.Path (cryptex_path p))) then
       prepend (Glob "/Library/Extensions" "*.kext" ::
                flat_map (kext_effects c w) (glob_extensions p))
         match monitor_kexts c p w with
         | [] =>
             Run (Return false) w
               [ Log "- No kexts found with GPUCompanionBundles, skipping RSRMonitor" ]
         | kext :: kexts => write_rsr_monitor_plist c (cryptex_path p) (kext :: kexts) w
         end
     else
       Run (Return false) w [ Log "- No OS.dmg, skipping RSRMonitor" ]).
Proof.
  unfold _create_rsr_monitor_daemon. run_step. run_step. cbv zeta.
  rewrite (bind_returned _ _ _ _ _ _ (Path_exists_run c _ w)).
  change ("/System/Volumes/Preboot/" +:+ get_preboot_uuid p +:+ "/cryptex1/current/OS.dmg")
    with (cryptex_path p).
  destruct (Fs.exists_ _ _); cbv beta iota delta [negb]; [|run_step; reflexivity].
  run_step.
  rewrite (bind_returned _ _ _ _ _ _ (scan_kexts_run c w (glob_extensions p))).
  fold (monitor_kexts c p w).
  destruct (monitor_kexts c p w) as [|kext kexts].
  - run_step. cbn [prepend value world effects app ret]. reflexivity.
  - cbn [prepend value world effects app]. reflexivity.
Qed.



(** ** Reasoning on the installer *)

Lemma returns_ret {A} (a : A) (w : World) : returns (ret a w) a w.
Proof. split; reflexivity. Qed.

Lemma returns_emit (e : event) (w : World) : returns (emit e w) tt w.
Proof. split; reflexivity. Qed.

Lemma returns_logging_info (msg : string) (w : World) : returns (logging_info msg w) tt w.
Proof. split; reflexivity. Qed.

Lemma returns_Path_exists (c : Constants) (q : string) (w : World) :
  returns (Path_exists c q w) (Fs.exists_ (files w) (Fs.absolute (cwd c) (Fs.Path q))) w.
Proof. split; reflexivity. Qed.

Lemma utilities_elevated_run (argv : list string) (w : World) :
  utilities_elevated argv w =
  Run (Return (snd (Fs.sh argv (files w)))) (with_files (fst (Fs.sh argv (files w))) w)
    [ Elevated argv ].
Proof.
  unfold utilities_elevated, with_files. run_step. run_step.
  destruct (Fs.sh argv (files w)) as [fs' returncode].
  run_step. reflexivity.
Qed.

Lemma elevated_checked_run (argv : list string) (w : World) :
  elevated_checked argv w =
  Run (Return tt) (with_files (fst (Fs.sh argv (files w))) w)
    [ Elevated argv; ProcessStatus (snd (Fs.sh argv (files w))) ].
Proof.
  unfold elevated_checked.
  rewrite (bind_returned _ _ _ _ _ _ (utilities_elevated_run argv w)). reflexivity.
Qed.

Lemma returns_elevated_checked (argv : list string) (w : World) :
  returns (elevated_checked argv w) tt (with_files (fst (Fs.sh argv (files w))) w).
Proof. rewrite elevated_checked_run. split; reflexivity. Qed.

Lemma returns_bind {A B} (m : M A) (k : A -> M B) (w w' w'' : World) (a : A) (b : B) :
  returns (m w) a w' -> returns (k a w') b w'' -> returns (bind m k w) b w''.
Proof.
  unfold returns, bind. intros [Hv Hw] [Hv' Hw']. rewrite Hv, Hw. cbn. split; assumption.
Qed.

Lemma returns_to {A} (r : run A) (a : A) (w' w'' : World) :
  returns r a w' -> w' = w'' -> returns r a w''.
Proof. intros H <-. exact H. Qed.


(** So is an effect of what follows, once the first part has returned. *)
Lemma in_effects_bind_r {A B} (m : M A) (k : A -> M B) (w w' : World) (a : A) (e : event) :
  returns (m w) a w' -> In e (effects (k a w')) -> In e (effects (bind m k w)).
Proof.
  unfold returns, bind. intros [Hv Hw] H. rewrite Hv, Hw. cbn. apply in_or_app. right. exact H.
Qed.

Lemma returns_when (b : bool) (body : M unit) (w w1 : World) :
  returns (body w) tt w1 -> returns (when b body w) tt (if b then w1 else w).
Proof. destruct b; [trivial | intros _; split; reflexivity]. Qed.

(** The chain of basic steps of a block, with the machine each one
    leaves. *)
Ltac returns_chain :=
  repeat (cbv beta zeta;
          match goal with
          | |- returns (bind _ _ _) _ _ => eapply returns_bind
          | |- returns (logging_info _ _) _ _ => apply returns_logging_info
          | |- returns (Path_exists _ _ _) _ _ => apply returns_Path_exists
          | |- returns (elevated_checked _ _) _ _ => apply returns_elevated_checked
          | |- returns (emit _ _) _ _ => apply returns_emit
          | |- returns (when _ _ _) _ _ => eapply returns_when
          | |- returns (ret _ _) _ _ => apply returns_ret
          end).

(** Skip the first part of a sequence, which returns, and look for the
    effect in what follows. *)
Ltac skip := eapply in_effects_bind_r; [solve [returns_chain] | cbv beta zeta].



(** The staged path is absolute and normal. *)
Lemma exists_staged_app (c : Constants) :
  Fs.absolute (cwd c) (Fs.Path staged_app) = staged_app.
Proof. reflexivity. Qed.

(** ** The file system: lookups and commands *)

Lemma with_files_id (w : World) : with_files (files w) w = w.
Proof. destruct w. reflexivity. Qed.

Lemma realpath_go_step (fuel : nat) (fs : gmap string node) (q : string) :
  Fs.realpath_go (S fuel) fs q =
  match fs !! q with
  | None => None
  | Some (Symlink target) => Fs.realpath_go fuel fs target
  | Some _ => Some q
  end.
Proof. cbn [Fs.realpath_go]. destruct (fs !! q) as [[]|]; reflexivity. Qed.

(** A path that holds no link is its own real path. *)
Lemma realpath_not_link (fs : gmap string node) (q : string) :
  not_a_link (fs !! q) ->
  Fs.realpath fs q = match fs !! q with Some _ => Some q | None => None end.
Proof.
  unfold Fs.realpath, Fs.MAXSYMLINKS. rewrite realpath_go_step.
  destruct (fs !! q) as [[]|]; cbn; tauto.
Qed.

Lemma stat_not_link (fs : gmap string node) (q : string) :
  not_a_link (fs !! q) -> Fs.stat fs q = fs !! q.
Proof.
  intros H. unfold Fs.stat. rewrite (realpath_not_link fs q H).
  destruct (fs !! q) eqn:E; [exact E | reflexivity].
Qed.

Lemma exists_not_link (fs : gmap string node) (q : string) :
  not_a_link (fs !! q) ->
  Fs.exists_ fs q = match fs !! q with Some _ => true | None => false end.
Proof. intros H. unfold Fs.exists_. rewrite (stat_not_link fs q H). reflexivity. Qed.

(** What exists has an entry. *)
Lemma exists_lookup (fs : gmap string node) (q : string) :
  Fs.exists_ fs q = true -> fs !! q <> None.
Proof.
  unfold Fs.exists_, Fs.stat, Fs.realpath, Fs.MAXSYMLINKS. rewrite realpath_go_step.
  destruct (fs !! q); [congruence | discriminate].
Qed.

(** The commands behind the argument vectors of the installer. *)
Lemma sh_mkdir_p (d : string) (fs : gmap string node) :
  Fs.sh ["mkdir"; "-p"; d] fs = Fs.mkdir_p d fs.
Proof. reflexivity. Qed.

Lemma sh_rm_R (q : string) (fs : gmap string node) :
  Fs.sh ["rm"; "-R"; q] fs = Fs.rm_R q fs.
Proof. reflexivity. Qed.

Lemma sh_rm (q : string) (fs : gmap string node) : Fs.sh ["rm"; q] fs = Fs.rm q fs.
Proof. reflexivity. Qed.

Lemma sh_ditto (src dst : string) (fs : gmap string node) :
  Fs.sh ["ditto"; src; dst] fs = Fs.ditto src dst fs.
Proof. reflexivity. Qed.

Lemma sh_mv (src dst : string) (fs : gmap string node) :
  Fs.sh ["mv"; src; dst] fs = Fs.mv src dst fs.
Proof. reflexivity. Qed.

Lemma sh_cp (src dir : string) (fs : gmap string node) :
  Fs.sh ["cp"; src; dir] fs = Fs.cp src dir fs.
Proof. reflexivity. Qed.

Lemma sh_chmod (mode q : string) (fs : gmap string node) :
  Fs.sh ["chmod"; mode; q] fs = Fs.chmod mode q fs.
Proof. reflexivity. Qed.

Lemma sh_chown (owner q : string) (fs : gmap string node) :
  Fs.sh ["chown"; owner; q] fs = Fs.chown owner q fs.
Proof. reflexivity. Qed.

Lemma sh_ln_s (target link : string) (fs : gmap string node) :
  Fs.sh ["ln"; "-s"; target; link] fs = Fs.ln_s target link fs.
Proof. reflexivity. Qed.

(** ** The installer, block by block *)

(** The block of the alias makes the link when nothing is there, and
    nothing otherwise. *)
Lemma make_app_alias_returns (c : Constants) (w : World) :
  returns (make_app_alias c w) tt (with_files (alias_made (files w)) w).
Proof.
  eapply returns_to; [unfold make_app_alias; returns_chain|].
  change (Fs.absolute (cwd c) (Fs.Path app_alias)) with app_alias.
  cbn [files with_files]. rewrite sh_ln_s. unfold alias_made, Fs.ln_s.
  destruct (Fs.exists_ (files w) app_alias) eqn:He; cbn [negb].
  - apply exists_lookup in He.
    destruct (files w !! app_alias); [|congruence]. symmetry. apply with_files_id.
  - destruct (files w !! app_alias); [|reflexivity].
    cbn [fst]. reflexivity.
Qed.

(** The first block creates the support directory or leaves the disk as
    it is. *)
Lemma create_support_dir_returns (c : Constants) (w : World) :
  returns (create_support_dir c w) tt (with_files (support_made c (files w)) w).
Proof.
  eapply returns_to; [unfold create_support_dir; returns_chain|].
  change (Fs.absolute (cwd c) (Fs.Path "Library/Application Support/Dortania"))
    with (support_dir_tested c).
  cbn [files with_files]. rewrite sh_mkdir_p. unfold support_made, Fs.mkdir_p.
  change (Fs.Path support_dir) with support_dir.
  destruct (Fs.exists_ (files w) (support_dir_tested c)); cbn [negb].
  - symmetry. apply with_files_id.
  - destruct (files w !! support_dir); [|reflexivity].
    destruct (Fs.stat (files w) support_dir) as [[]|]; reflexivity.
Qed.

(** Case analysis on the tests of a block, innermost first. *)
Ltac split_tests :=
  repeat match goal with
         | |- context [if ?b then _ else _] =>
             lazymatch b with
             | context [if _ then _ else _] => fail
             | negb ?b' => destruct b'
             | _ => destruct b
             end;
             cbn [negb files with_files]
         end.

(** What the block of the application does to the files. *)
Lemma copy_app_returns (c : Constants) (w : World) :
  returns (copy_app c w) tt (with_files (copy_app_files c (files w)) w).
Proof.
  eapply returns_to; [unfold copy_app; returns_chain|].
  rewrite !exists_staged_app, ?sh_rm_R, ?sh_ditto, ?sh_mv.
  unfold copy_app_files. cbv zeta.
  split_tests; rewrite ?with_files_id; reflexivity.
Qed.

(** What the blocks of the two descriptors do to the files. *)
Lemma copy_launch_agent_returns (c : Constants) (w : World) :
  returns (copy_launch_agent c w) tt
    (with_files
       (copy_descriptor_files (auto_patch_launch_agent_path c) launch_agent
          "/Library/LaunchAgents/" (files w)) w).
Proof.
  eapply returns_to; [unfold copy_launch_agent; returns_chain|].
  change (Fs.absolute (cwd c) (Fs.Path launch_agent)) with launch_agent.
  change (Fs.absolute (cwd c) (Fs.Path "/Library/LaunchAgents/"))
    with (Fs.Path "/Library/LaunchAgents/").
  rewrite ?sh_rm, ?sh_mkdir_p, ?sh_cp, ?sh_chmod, ?sh_chown.
  unfold copy_descriptor_files. cbv zeta.
  split_tests; rewrite ?with_files_id; reflexivity.
Qed.

Lemma copy_launch_daemon_returns (c : Constants) (w : World) :
  returns (copy_launch_daemon c w) tt
    (with_files
       (copy_descriptor_files (rsr_monitor_launch_daemon_path c) launch_daemon
          "/Library/LaunchDaemons/" (files w)) w).
Proof.
  eapply returns_to; [unfold copy_launch_daemon; returns_chain|].
  change (Fs.absolute (cwd c) (Fs.Path launch_daemon)) with launch_daemon.
  change (Fs.absolute (cwd c) (Fs.Path "/Library/LaunchDaemons/"))
    with (Fs.Path "/Library/LaunchDaemons/").
  rewrite ?sh_rm, ?sh_mkdir_p, ?sh_cp, ?sh_chmod, ?sh_chown.
  unfold copy_descriptor_files. cbv zeta.
  split_tests; rewrite ?with_files_id; reflexivity.
Qed.

(** ** The installer on a deployment *)

(** Lookups through insertions and deletions at keys known to be equal or
    different. *)
Ltac lookups :=
  repeat first
    [ rewrite lookup_insert_eq
    | rewrite lookup_delete_eq
    | rewrite lookup_insert_ne by (congruence || discriminate)
    | rewrite lookup_delete_ne by (congruence || discriminate) ].

(** With the source bundle on the disk, the block of the application
    leaves a copy of it at the staged path, whatever was there. *)
Lemma copy_app_files_spec (c : Constants) (fs : gmap string node) (payload : string) :
  fs !! source_app c = Some (Bundle payload) ->
  source_app c <> staged_app ->
  copy_app_files c fs = <[staged_app := Bundle payload]> fs.
Proof.
  intros Hsrc Hne. unfold copy_app_files.
  set (fs1 := if Fs.exists_ fs staged_app then fst (Fs.rm_R staged_app fs) else fs).
  assert (H1 : fs1 !! source_app c = Some (Bundle payload)).
  { subst fs1. destruct (Fs.exists_ fs staged_app); [|exact Hsrc].
    unfold Fs.rm_R. destruct (fs !! staged_app); [|exact Hsrc].
    cbn [fst]. rewrite lookup_delete_ne by congruence. exact Hsrc. }
  assert (H2 : <[staged_app := Bundle payload]> fs1 = <[staged_app := Bundle payload]> fs).
  { subst fs1. destruct (Fs.exists_ fs staged_app); [|reflexivity].
    unfold Fs.rm_R. destruct (fs !! staged_app); [|reflexivity].
    cbn [fst]. apply insert_delete_eq. }
  cbv zeta. unfold Fs.ditto.
  rewrite stat_not_link by (rewrite H1; exact I).
  rewrite H1. cbn [fst]. rewrite H2.
  rewrite exists_not_link by (rewrite lookup_insert_eq; exact I).
  rewrite lookup_insert_eq. reflexivity.
Qed.

Lemma absent_or_file_not_link (o : option node) : absent_or_file o -> not_a_link o.
Proof. destruct o as [[]|]; cbn; tauto. Qed.

Lemma absent_or_directory_not_link (o : option node) : absent_or_directory o -> not_a_link o.
Proof. destruct o as [[]|]; cbn; tauto. Qed.

(** With the template on the disk, a file or nothing at the target and a
    directory or nothing where the directory goes, the block of a descriptor
    leaves the content of the template at the target, with mode 644 and
    owner root:wheel, in a directory. *)
Lemma copy_descriptor_files_spec (template target dir : string) (fs : gmap string node)
    (content : content) (mode owner : string) :
  fs !! template = Some (File content mode owner) ->
  absent_or_file (fs !! target) ->
  absent_or_directory (fs !! Fs.Path dir) ->
  template <> target ->
  target <> Fs.Path dir ->
  Fs.Path dir +:+ "/" +:+ Fs.name template = target ->
  copy_descriptor_files template target dir fs =
  <[target := File content "644" "root:wheel"]> (<[Fs.Path dir := Directory]> fs).
Proof.
  intros Htemplate Htarget Hdir Hne Hne' Hdst.
  assert (Hne'' : template <> Fs.Path dir).
  { intros E. rewrite <- E, Htemplate in Hdir. exact Hdir. }
  unfold copy_descriptor_files.
  set (fs1 := if Fs.exists_ fs target then fst (Fs.rm target fs) else fs).
  assert (H1 : fs1 = delete target fs).
  { subst fs1. unfold Fs.rm.
    rewrite exists_not_link by (apply absent_or_file_not_link; exact Htarget).
    destruct (fs !! target) as [[]|] eqn:E; try contradiction; [reflexivity|].
    symmetry. apply delete_id. exact E. }
  clearbody fs1. subst fs1.
  set (fs2 := if Fs.exists_ (delete target fs) (Fs.Path dir) then delete target fs
              else fst (Fs.mkdir_p dir (delete target fs))).
  assert (H2 : fs2 = <[Fs.Path dir := Directory]> (delete target fs)).
  { subst fs2. unfold Fs.mkdir_p.
    assert (E : delete target fs !! Fs.Path dir = fs !! Fs.Path dir)
      by (apply lookup_delete_ne; congruence).
    rewrite exists_not_link by (rewrite E; apply absent_or_directory_not_link; exact Hdir).
    rewrite E.
    destruct (fs !! Fs.Path dir) as [[]|] eqn:E'; try contradiction; [|reflexivity].
    symmetry. apply insert_id. exact E. }
  clearbody fs2. subst fs2. cbv zeta.
  unfold Fs.cp.
  rewrite stat_not_link
    by (rewrite lookup_insert_ne, lookup_delete_ne, Htemplate by congruence; exact I).
  rewrite lookup_insert_ne, lookup_delete_ne, Htemplate by congruence.
  rewrite stat_not_link by (rewrite lookup_insert_eq; exact I).
  rewrite lookup_insert_eq, Hdst.
  rewrite lookup_insert_ne, lookup_delete_eq by congruence.
  cbn [fst]. unfold Fs.chmod. rewrite lookup_insert_eq. cbn [fst].
  unfold Fs.chown. rewrite lookup_insert_eq. cbn [fst].
  rewrite !insert_insert_eq.
  apply map_eq. intros k.
  destruct (decide (k = target)) as [->|Hk];
    [|destruct (decide (k = Fs.Path dir)) as [->|Hk']];
    lookups; reflexivity.
Qed.

(** *** The descriptor of the monitor daemon *)

Lemma returns_prepend {A} (es : list event) (r : run A) (a : A) (w' : World) :
  returns r a w' -> returns (prepend es r) a w'.
Proof. trivial. Qed.

Lemma plistlib_load_returns (c : Constants) (path : string) (w : World)
    (d : plist) (mode owner : string) :
  Fs.absolute (cwd c) path = path ->
  files w !! path = Some (File (Plist d) mode owner) ->
  returns (plistlib_load c path w) d w.
Proof.
  intros Habs Hfile. rewrite plistlib_load_run, Habs.
  rewrite stat_not_link by (rewrite Hfile; exact I).
  rewrite Hfile. split; reflexivity.
Qed.

Lemma plistlib_dump_returns (c : Constants) (d : plist) (path : string) (w : World)
    (content : content) (mode owner : string) :
  Fs.absolute (cwd c) (Fs.Path path) = path ->
  files w !! path = Some (File content mode owner) ->
  returns (plistlib_dump c d path w) tt
    (with_files (<[path := File (Plist d) mode owner]> (files w)) w).
Proof.
  intros Habs Hfile. unfold plistlib_dump. run_step. run_step. cbv zeta.
  rewrite Habs, Hfile.
  rewrite realpath_not_link by (rewrite Hfile; exact I).
  rewrite Hfile. cbv beta iota. rewrite Hfile. split; reflexivity.
Qed.

(** Lines 370 to 388 on a descriptor that is a property list: its two
    keys are set and the rest is kept. *)
Lemma write_rsr_monitor_plist_returns (c : Constants) (p : Probes) (kexts : list string)
    (w : World) (d : plist) (mode owner : string) :
  Fs.absolute (cwd c) (rsr_monitor_launch_daemon_path c) = rsr_monitor_launch_daemon_path c ->
  Fs.Path (rsr_monitor_launch_daemon_path c) = rsr_monitor_launch_daemon_path c ->
  files w !! rsr_monitor_launch_daemon_path c = Some (File (Plist d) mode owner) ->
  returns (write_rsr_monitor_plist c (cryptex_path p) kexts w) true
    (with_files
       (<[rsr_monitor_launch_daemon_path c := File (Plist (monitor_plist p kexts d)) mode owner]>
          (files w)) w).
Proof.
  intros Habs Hnormal Hfile. unfold write_rsr_monitor_plist.
  eapply returns_bind; [exact (plistlib_load_returns c _ w d mode owner Habs Hfile)|].
  cbv beta zeta.
  eapply returns_bind; [apply returns_logging_info|].
  eapply returns_bind; [|apply returns_ret].
  apply (plistlib_dump_returns c _ _ w (Plist d) mode owner); [|exact Hfile].
  rewrite Hnormal. exact Habs.
Qed.

(** [_create_rsr_monitor_daemon] on a descriptor that is a property list:
    it returns whether the daemon is needed, and if it is, the descriptor is
    rewritten for the bundles collected. *)
Lemma create_rsr_monitor_daemon_returns (c : Constants) (p : Probes) (w : World)
    (d : plist) (mode owner : string) :
  Fs.absolute (cwd c) (rsr_monitor_launch_daemon_path c) = rsr_monitor_launch_daemon_path c ->
  Fs.Path (rsr_monitor_launch_daemon_path c) = rsr_monitor_launch_daemon_path c ->
  files w !! rsr_monitor_launch_daemon_path c = Some (File (Plist d) mode owner) ->
  returns (_create_rsr_monitor_daemon c p w) (monitor_needed c p w)
    (if monitor_needed c p w then
       with_files
         (<[rsr_monitor_launch_daemon_path c :=
              File (Plist (monitor_plist p (monitor_kexts c p w) d)) mode owner]> (files w)) w
     else w).
Proof.
  intros Habs Hnormal Hfile.
  rewrite create_rsr_monitor_daemon_run. unfold monitor_needed.
  apply returns_prepend.
  destruct (Fs.exists_ _ _); [|split; reflexivity].
  apply returns_prepend. cbn [andb].
  pose proof (write_rsr_monitor_plist_returns c p (monitor_kexts c p w) w d mode owner
                Habs Hnormal Hfile) as Hw.
  destruct (monitor_kexts c p w) as [|kext kexts]; [split; reflexivity | exact Hw].
Qed.

(** *** One run *)

Lemma with_files_with_files (fs fs' : gmap string node) (w : World) :
  with_files fs (with_files fs' w) = with_files fs w.
Proof. reflexivity. Qed.

(** A path outside a list of paths differs from each of them. *)
Ltac apart H :=
  repeat (apply not_in_cons in H; let E := fresh "Hne" in destruct H as [E H]).

(** The paths of a deployment that the installer reads are none of the
    paths it fills. *)
Lemma deployment_apart (c : Constants) (p : Probes) (w : World) (q : string) :
  Deployment c p w ->
  In q [ source_app c; auto_patch_launch_agent_path c; rsr_monitor_launch_daemon_path c ] ->
  q <> support_dir /\ q <> staged_app /\ q <> launch_agents_dir /\ q <> launch_agent /\
  q <> launch_daemons_dir /\ q <> launch_daemon /\ q <> app_alias.
Proof.
  intros D Hq. pose proof (dep_inputs_apart c p w D q Hq) as H.
  unfold installed_paths in H. apart H. tauto.
Qed.

(** The two templates are different files. *)
Lemma deployment_templates_differ (c : Constants) (p : Probes) (w : World) :
  Deployment c p w ->
  auto_patch_launch_agent_path c <> rsr_monitor_launch_daemon_path c.
Proof.
  intros D E. pose proof (dep_agent_name c p w D) as H1.
  rewrite E, (dep_daemon_name c p w D) in H1. discriminate H1.
Qed.

Lemma support_made_lookup (c : Constants) (fs : gmap string node) (q : string) :
  q <> support_dir -> support_made c fs !! q = fs !! q.
Proof.
  intros Hq. unfold support_made.
  destruct (Fs.exists_ fs (support_dir_tested c)); [reflexivity|].
  destruct (fs !! support_dir); [reflexivity|]. apply lookup_insert_ne. congruence.
Qed.

Lemma agent_installed_lookup (c : Constants) (fs : gmap string node)
    (payload : string) (agent : content) (q : string) :
  q <> support_dir -> q <> staged_app -> q <> launch_agents_dir -> q <> launch_agent ->
  agent_installed c fs payload agent !! q = fs !! q.
Proof.
  intros H1 H2 H3 H4. unfold agent_installed. lookups. apply support_made_lookup. exact H1.
Qed.

(** The first three blocks on a deployment, on the files. *)
Lemma agent_installed_files (c : Constants) (p : Probes) (w : World)
    (payload : string) (agent : content) (amode aowner : string) :
  Deployment c p w ->
  files w !! source_app c = Some (Bundle payload) ->
  files w !! auto_patch_launch_agent_path c = Some (File agent amode aowner) ->
  copy_descriptor_files (auto_patch_launch_agent_path c) launch_agent "/Library/LaunchAgents/"
    (copy_app_files c (support_made c (files w))) =
  agent_installed c (files w) payload agent.
Proof.
  intros D Hsrc Hagent.
  destruct (deployment_apart c p w _ D (or_introl eq_refl))
    as (Hs1 & Hs2 & Hs3 & Hs4 & Hs5 & Hs6 & Hs7).
  destruct (deployment_apart c p w _ D (or_intror (or_introl eq_refl)))
    as (Ha1 & Ha2 & Ha3 & Ha4 & Ha5 & Ha6 & Ha7).
  rewrite (copy_app_files_spec c _ payload)
    by (rewrite ?support_made_lookup by congruence; congruence).
  unfold agent_installed.
  apply (copy_descriptor_files_spec _ launch_agent "/Library/LaunchAgents/" _ agent amode aowner).
  - lookups. rewrite support_made_lookup by congruence. exact Hagent.
  - rewrite lookup_insert_ne by discriminate.
    rewrite support_made_lookup by discriminate. exact (dep_agent_target c p w D).
  - change (Fs.Path "/Library/LaunchAgents/") with launch_agents_dir.
    rewrite lookup_insert_ne by discriminate.
    rewrite support_made_lookup by discriminate. exact (dep_agents_dir c p w D).
  - congruence.
  - discriminate.
  - rewrite (dep_agent_name c p w D). reflexivity.
Qed.

(** The block of the daemon on a deployment, on the files, once the
    template is rewritten. *)
Lemma daemon_installed_files (c : Constants) (p : Probes) (w : World)
    (payload : string) (agent : content) (d : plist) (dmode downer : string) :
  Deployment c p w ->
  let w1 := with_files (agent_installed c (files w) payload agent) w in
  copy_descriptor_files (rsr_monitor_launch_daemon_path c) launch_daemon "/Library/LaunchDaemons/"
    (<[rsr_monitor_launch_daemon_path c :=
         File (Plist (monitor_plist p (monitor_kexts c p w1) d)) dmode downer]> (files w1)) =
  daemon_installed c p w1 d dmode downer.
Proof.
  intros D w1.
  destruct (deployment_apart c p w (rsr_monitor_launch_daemon_path c) D)
    as (Hd1 & Hd2 & Hd3 & Hd4 & Hd5 & Hd6 & Hd7); [cbn; tauto|].
  unfold daemon_installed. cbv zeta.
  apply (copy_descriptor_files_spec _ launch_daemon "/Library/LaunchDaemons/" _ _ dmode downer).
  - apply lookup_insert_eq.
  - rewrite lookup_insert_ne by congruence. subst w1. cbn [files with_files].
    rewrite agent_installed_lookup by discriminate. exact (dep_daemon_target c p w D).
  - change (Fs.Path "/Library/LaunchDaemons/") with launch_daemons_dir.
    rewrite lookup_insert_ne by congruence. subst w1. cbn [files with_files].
    rewrite agent_installed_lookup by discriminate. exact (dep_daemons_dir c p w D).
  - congruence.
  - discriminate.
  - rewrite (dep_daemon_name c p w D). reflexivity.
Qed.

(** A run of the installer on a deployment returns and leaves the files
    [installed]. *)
Lemma install_returns (c : Constants) (p : Probes) (w : World)
    (payload : string) (agent : content) (amode aowner : string)
    (d : plist) (dmode downer : string) :
  Deployment c p w ->
  files w !! source_app c = Some (Bundle payload) ->
  files w !! auto_patch_launch_agent_path c = Some (File agent amode aowner) ->
  files w !! rsr_monitor_launch_daemon_path c = Some (File (Plist d) dmode downer) ->
  returns (install_auto_patcher_launch_agent c p w) tt
    (with_files (installed c p w payload agent d dmode downer) w).
Proof.
  intros D Hsrc Hagent Hdaemon.
  destruct (deployment_apart c p w (rsr_monitor_launch_daemon_path c) D)
    as (Hd1 & Hd2 & Hd3 & Hd4 & Hd5 & Hd6 & Hd7); [cbn; tauto|].
  unfold install_auto_patcher_launch_agent.
  rewrite (dep_binary c p w D), (dep_outside c p w D).
  eapply returns_bind; [apply returns_logging_info|].
  eapply returns_bind; [apply create_support_dir_returns|].
  eapply returns_bind; [apply copy_app_returns|].
  eapply returns_bind; [apply copy_launch_agent_returns|].
  cbn [files with_files]. rewrite !with_files_with_files.
  rewrite (agent_installed_files c p w payload agent amode aowner D Hsrc Hagent).
  set (w1 := with_files (agent_installed c (files w) payload agent) w).
  assert (Hd : files w1 !! rsr_monitor_launch_daemon_path c = Some (File (Plist d) dmode downer)).
  { subst w1. cbn [files with_files]. rewrite agent_installed_lookup by congruence.
    exact Hdaemon. }
  eapply returns_bind;
    [exact (create_rsr_monitor_daemon_returns c p w1 d dmode downer
              (dep_daemon_absolute c p w D) (dep_daemon_normal c p w D) Hd)|].
  cbv beta. unfold installed. fold w1. cbv zeta.
  destruct (monitor_needed c p w1).
  - eapply returns_bind; [apply returns_when; apply copy_launch_daemon_returns|].
    eapply returns_to; [apply make_app_alias_returns|].
    cbn [files with_files]. subst w1. rewrite !with_files_with_files.
    rewrite (daemon_installed_files c p w payload agent d dmode downer D). reflexivity.
  - eapply returns_bind; [apply returns_when; apply copy_launch_daemon_returns|].
    eapply returns_to; [apply make_app_alias_returns|]. reflexivity.
Qed.

(** *** What exists stays *)

Lemma realpath_go_entry (fs : gmap string node) (fuel : nat) (q r : string) :
  Fs.realpath_go fuel fs q = Some r -> fs !! r <> None.
Proof.
  revert q. induction fuel as [|fuel IH]; intros q.
  - cbn [Fs.realpath_go].
    destruct (fs !! q) as [[]|] eqn:E; intros H; try discriminate H;
      injection H as <-; congruence.
  - rewrite realpath_go_step.
    destruct (fs !! q) as [[| | | target]|] eqn:E; intros H; try discriminate H;
      try (injection H as <-; congruence).
    exact (IH target H).
Qed.

Lemma realpath_go_keeps (fs fs' : gmap string node) :
  keeps_paths fs fs' ->
  forall fuel q r,
    Fs.realpath_go fuel fs q = Some r -> exists r', Fs.realpath_go fuel fs' q = Some r'.
Proof.
  intros K. induction fuel as [|fuel IH]; intros q r.
  - cbn [Fs.realpath_go]. destruct (K q) as [E | [E | [E1 E2]]].
    + rewrite E. discriminate.
    + rewrite E. destruct (fs !! q) as [[]|]; eauto.
    + intros _. destruct (fs' !! q) as [[]|]; try contradiction; eauto; congruence.
  - rewrite !realpath_go_step. destruct (K q) as [E | [E | [E1 E2]]].
    + rewrite E. discriminate.
    + rewrite E. destruct (fs !! q) as [[]|]; eauto.
    + intros _. destruct (fs' !! q) as [[]|]; try contradiction; eauto; congruence.
Qed.

(** A path that exists before exists after, whatever links lead to it. *)
Lemma keeps_paths_exists (fs fs' : gmap string node) (q : string) :
  keeps_paths fs fs' -> Fs.exists_ fs q = true -> Fs.exists_ fs' q = true.
Proof.
  intros K. unfold Fs.exists_, Fs.stat, Fs.realpath.
  destruct (Fs.realpath_go Fs.MAXSYMLINKS fs q) as [r|] eqn:E; [|discriminate].
  intros _. destruct (realpath_go_keeps fs fs' K _ _ _ E) as [r' E'].
  rewrite E'. pose proof (realpath_go_entry fs' _ _ _ E') as Hr.
  destruct (fs' !! r'); [reflexivity | congruence].
Qed.


(** *** The paths probed for the monitor daemon *)

(** Two machines that agree on the probed paths collect the same bundles
    and need the monitor daemon alike. *)
Lemma monitor_frame (c : Constants) (p : Probes) (w w' : World) :
  (forall q, In q (probed_paths c p) -> Fs.stat (files w') q = Fs.stat (files w) q) ->
  monitor_kexts c p w' = monitor_kexts c p w /\
  monitor_needed c p w' = monitor_needed c p w.
Proof.
  intros H.
  assert (Hk : monitor_kexts c p w' = monitor_kexts c p w).
  { unfold monitor_kexts. f_equal. apply filter_ext_in. intros kext Hin.
    unfold carries_marker, descriptor_of. rewrite H; [reflexivity|].
    right. apply in_map_iff. exists kext. split; [reflexivity | exact Hin]. }
  split; [exact Hk|].
  unfold monitor_needed, Fs.exists_. rewrite Hk, H; [reflexivity|].
  left. reflexivity.
Qed.

(** A probed path of a deployment holds no link and is not written: its
    status is the same wherever the written paths alone differ. *)
Lemma probed_stat (c : Constants) (p : Probes) (w : World) (fs : gmap string node) (q : string) :
  Deployment c p w ->
  In q (probed_paths c p) ->
  fs !! q = files w !! q ->
  Fs.stat fs q = Fs.stat (files w) q.
Proof.
  intros D Hq E. destruct (dep_probed c p w D q Hq) as [Hl _].
  rewrite !stat_not_link by (rewrite ?E; exact Hl). exact E.
Qed.

(** ** The installer: what is replaced on every run *)





(** *** The files that a run leaves *)

Lemma alias_made_lookup_ne (fs : gmap string node) (q : string) :
  q <> app_alias -> alias_made fs !! q = fs !! q.
Proof.
  intros Hq. unfold alias_made. destruct (fs !! app_alias); [reflexivity|].
  apply lookup_insert_ne. congruence.
Qed.

Lemma alias_made_lookup (fs : gmap string node) :
  alias_made fs !! app_alias =
  match fs !! app_alias with
  | None => Some (Symlink staged_app)
  | Some n => Some n
  end.
Proof.
  unfold alias_made. destruct (fs !! app_alias) eqn:E; [exact E | apply lookup_insert_eq].
Qed.

Lemma deployment_data (c : Constants) (p : Probes) (w : World) :
  Deployment c p w ->
  exists payload agent amode aowner d dmode downer,
    files w !! source_app c = Some (Bundle payload) /\
    files w !! auto_patch_launch_agent_path c = Some (File agent amode aowner) /\
    files w !! rsr_monitor_launch_daemon_path c = Some (File (Plist d) dmode downer).
Proof.
  intros D.
  pose proof (dep_source c p w D) as H1.
  pose proof (dep_agent_template c p w D) as H2.
  pose proof (dep_daemon_template c p w D) as H3.
  destruct (files w !! source_app c) as [[| payload | |]|]; try contradiction.
  destruct (files w !! auto_patch_launch_agent_path c) as [[| | agent amode aowner |]|];
    try contradiction.
  destruct (files w !! rsr_monitor_launch_daemon_path c) as [[| | [d|] dmode downer |]|];
    try contradiction.
  repeat eexists.
Qed.

(** Setting the two keys again changes nothing. *)
Lemma monitor_plist_idempotent (p : Probes) (kexts : list string) (d : plist) :
  monitor_plist p kexts (monitor_plist p kexts d) = monitor_plist p kexts d.
Proof.
  unfold monitor_plist. apply map_eq. intros key.
  destruct (decide (key = "WatchPaths")) as [->|H1];
    [|destruct (decide (key = "ProgramArguments")) as [->|H2]];
    lookups; reflexivity.
Qed.

Section Run.

Variables (c : Constants) (p : Probes) (w : World).
Variables (payload : string) (agent : content) (amode aowner : string).
Variables (d : plist) (dmode downer : string).

Hypothesis D : Deployment c p w.
Hypothesis Hsrc : files w !! source_app c = Some (Bundle payload).
Hypothesis Hagent : files w !! auto_patch_launch_agent_path c = Some (File agent amode aowner).
Hypothesis Hdaemon :
  files w !! rsr_monitor_launch_daemon_path c = Some (File (Plist d) dmode downer).

(** The machine on which the run asks whether the daemon is needed, the
    answer, and the descriptor of the daemon after the run. *)
Let w1 : World := with_files (agent_installed c (files w) payload agent) w.
Let needed : bool := monitor_needed c p w1.
Let d' : plist := template_after c p w payload agent d.
Let F : gmap string node := installed c p w payload agent d dmode downer.

(** The files before the block of the alias. *)
Let G : gmap string node :=
  if needed then daemon_installed c p w1 d dmode downer else files w1.

Lemma installed_alias_made : F = alias_made G.
Proof. reflexivity. Qed.

Lemma source_apart :
  source_app c <> support_dir /\ source_app c <> staged_app /\
  source_app c <> launch_agents_dir /\ source_app c <> launch_agent /\
  source_app c <> launch_daemons_dir /\ source_app c <> launch_daemon /\
  source_app c <> app_alias.
Proof. apply (deployment_apart c p w _ D). cbn. tauto. Qed.

Lemma daemon_apart :
  rsr_monitor_launch_daemon_path c <> support_dir /\
  rsr_monitor_launch_daemon_path c <> staged_app /\
  rsr_monitor_launch_daemon_path c <> launch_agents_dir /\
  rsr_monitor_launch_daemon_path c <> launch_agent /\
  rsr_monitor_launch_daemon_path c <> launch_daemons_dir /\
  rsr_monitor_launch_daemon_path c <> launch_daemon /\
  rsr_monitor_launch_daemon_path c <> app_alias.
Proof. apply (deployment_apart c p w _ D). cbn. tauto. Qed.

(** A path that the installer does not write holds after the run what it
    held before. *)
Lemma G_frame (q : string) :
  ~ In q (rsr_monitor_launch_daemon_path c :: installed_paths) ->
  G !! q = files w !! q.
Proof.
  intros H. unfold installed_paths in H. apart H.
  unfold G, daemon_installed, w1. cbn [files with_files].
  destruct needed; lookups; apply agent_installed_lookup; assumption.
Qed.

Lemma installed_frame (q : string) :
  ~ In q (rsr_monitor_launch_daemon_path c :: installed_paths) ->
  F !! q = files w !! q.
Proof.
  intros H. rewrite installed_alias_made, alias_made_lookup_ne; [apply G_frame; exact H|].
  unfold installed_paths in H. apart H. assumption.
Qed.

Lemma installed_source : F !! source_app c = Some (Bundle payload).
Proof.
  destruct source_apart as (H1 & H2 & H3 & H4 & H5 & H6 & H7).
  rewrite installed_frame; [exact Hsrc|].
  intros [E | E]; [rewrite <- E, Hdaemon in Hsrc; discriminate Hsrc|].
  revert E. apply (dep_inputs_apart c p w D). cbn. tauto.
Qed.

Lemma installed_agent_template :
  F !! auto_patch_launch_agent_path c = Some (File agent amode aowner).
Proof.
  rewrite installed_frame; [exact Hagent|].
  intros [E | E]; [symmetry in E; revert E; apply (deployment_templates_differ c p w D)|].
  revert E. apply (dep_inputs_apart c p w D). cbn. tauto.
Qed.

Lemma installed_daemon_template :
  F !! rsr_monitor_launch_daemon_path c = Some (File (Plist d') dmode downer).
Proof.
  destruct daemon_apart as (H1 & H2 & H3 & H4 & H5 & H6 & H7).
  rewrite installed_alias_made, alias_made_lookup_ne by assumption.
  unfold G, d', template_after, daemon_installed. fold w1. fold needed.
  destruct needed; lookups; [reflexivity|].
  unfold w1. cbn [files with_files].
  rewrite agent_installed_lookup by assumption. exact Hdaemon.
Qed.

Lemma installed_staged_app : F !! staged_app = Some (Bundle payload).
Proof.
  destruct daemon_apart as (H1 & H2 & H3 & H4 & H5 & H6 & H7).
  rewrite installed_alias_made, alias_made_lookup_ne by discriminate.
  unfold G, daemon_installed, w1, agent_installed. cbn [files with_files].
  destruct needed; lookups; reflexivity.
Qed.

Lemma installed_launch_agent : F !! launch_agent = Some (File agent "644" "root:wheel").
Proof.
  destruct daemon_apart as (H1 & H2 & H3 & H4 & H5 & H6 & H7).
  rewrite installed_alias_made, alias_made_lookup_ne by discriminate.
  unfold G, daemon_installed, w1, agent_installed. cbn [files with_files].
  destruct needed; lookups; reflexivity.
Qed.

Lemma installed_launch_agents_dir : F !! launch_agents_dir = Some Directory.
Proof.
  destruct daemon_apart as (H1 & H2 & H3 & H4 & H5 & H6 & H7).
  rewrite installed_alias_made, alias_made_lookup_ne by discriminate.
  unfold G, daemon_installed, w1, agent_installed. cbn [files with_files].
  destruct needed; lookups; reflexivity.
Qed.

Lemma installed_launch_daemon :
  F !! launch_daemon =
  if needed then Some (File (Plist d') "644" "root:wheel") else files w !! launch_daemon.
Proof.
  destruct daemon_apart as (H1 & H2 & H3 & H4 & H5 & H6 & H7).
  rewrite installed_alias_made, alias_made_lookup_ne by discriminate.
  unfold G, d', template_after, daemon_installed. fold w1. fold needed.
  destruct needed; lookups; [reflexivity|].
  unfold w1. cbn [files with_files].
  apply agent_installed_lookup; discriminate.
Qed.

Lemma installed_launch_daemons_dir :
  F !! launch_daemons_dir =
  if needed then Some Directory else files w !! launch_daemons_dir.
Proof.
  destruct daemon_apart as (H1 & H2 & H3 & H4 & H5 & H6 & H7).
  rewrite installed_alias_made, alias_made_lookup_ne by discriminate.
  unfold G, daemon_installed, w1. cbn [files with_files].
  destruct needed; lookups; [reflexivity|].
  apply agent_installed_lookup; discriminate.
Qed.

Lemma installed_app_alias :
  F !! app_alias =
  match files w !! app_alias with
  | None => Some (Symlink staged_app)
  | Some n => Some n
  end.
Proof.
  destruct daemon_apart as (H1 & H2 & H3 & H4 & H5 & H6 & H7).
  rewrite installed_alias_made, alias_made_lookup.
  assert (E : G !! app_alias = files w !! app_alias).
  { unfold G, daemon_installed, w1. cbn [files with_files].
    destruct needed; lookups; apply agent_installed_lookup; discriminate. }
  rewrite E. reflexivity.
Qed.

Lemma installed_support_dir : F !! support_dir = support_made c (files w) !! support_dir.
Proof.
  destruct daemon_apart as (H1 & H2 & H3 & H4 & H5 & H6 & H7).
  rewrite installed_alias_made, alias_made_lookup_ne by discriminate.
  unfold G, daemon_installed, w1, agent_installed. cbn [files with_files].
  destruct needed; lookups; reflexivity.
Qed.

(** The run keeps what exists. *)
Lemma installed_keeps_paths : keeps_paths (files w) F.
Proof.
  intros k.
  destruct (in_dec string_dec k (rsr_monitor_launch_daemon_path c :: installed_paths))
    as [Hin | Hout]; [|right; left; apply installed_frame; exact Hout].
  unfold installed_paths in Hin. cbn [In] in Hin.
  destruct Hin as [<- | [<- | [<- | [<- | [<- | [<- | [<- | [<- | []]]]]]]]].
  - right. right. rewrite installed_daemon_template. split; [discriminate | exact I].
  - rewrite installed_support_dir. unfold support_made.
    destruct (Fs.exists_ (files w) (support_dir_tested c)); [right; left; reflexivity|].
    destruct (files w !! support_dir) eqn:E; [right; left; congruence|].
    left. congruence.
  - right. right. rewrite installed_staged_app. split; [discriminate | exact I].
  - right. right. rewrite installed_launch_agents_dir. split; [discriminate | exact I].
  - right. right. rewrite installed_launch_agent. split; [discriminate | exact I].
  - rewrite installed_launch_daemons_dir.
    destruct needed; [right; right; split; [discriminate | exact I] | right; left; reflexivity].
  - rewrite installed_launch_daemon.
    destruct needed; [right; right; split; [discriminate | exact I] | right; left; reflexivity].
  - rewrite installed_app_alias.
    destruct (files w !! app_alias); [right; left; reflexivity | left; reflexivity].
Qed.

(** The machine after the run is a deployment again. *)
Lemma deployment_kept : Deployment c p (with_files F w).
Proof.
  constructor; cbn [files with_files].
  - exact (dep_binary c p w D).
  - exact (dep_outside c p w D).
  - rewrite installed_source. exact I.
  - rewrite installed_agent_template. exact I.
  - exact (dep_agent_name c p w D).
  - rewrite installed_daemon_template. exact I.
  - exact (dep_daemon_name c p w D).
  - exact (dep_daemon_absolute c p w D).
  - exact (dep_daemon_normal c p w D).
  - exact (dep_inputs_apart c p w D).
  - rewrite installed_launch_agent. exact I.
  - rewrite installed_launch_daemon. destruct needed; [exact I | exact (dep_daemon_target c p w D)].
  - rewrite installed_launch_agents_dir. exact I.
  - rewrite installed_launch_daemons_dir.
    destruct needed; [exact I | exact (dep_daemons_dir c p w D)].
  - intros q Hq. destruct (dep_probed c p w D q Hq) as [Hl Hout].
    split; [rewrite installed_frame by exact Hout; exact Hl | exact Hout].
Qed.

(** The support directory is not made a second time. *)
Lemma installed_support_made : support_made c F = F.
Proof.
  unfold support_made.
  destruct (Fs.exists_ F (support_dir_tested c)) eqn:E2; [reflexivity|].
  assert (H : F !! support_dir <> None).
  { rewrite installed_support_dir. unfold support_made.
    destruct (Fs.exists_ (files w) (support_dir_tested c)) eqn:E1.
    - rewrite (keeps_paths_exists _ _ _ installed_keeps_paths E1) in E2. discriminate E2.
    - destruct (files w !! support_dir) eqn:E; [congruence|].
      rewrite lookup_insert_eq. discriminate. }
  destruct (F !! support_dir); [reflexivity | congruence].
Qed.

Lemma installed_agent_installed : agent_installed c F payload agent = F.
Proof.
  unfold agent_installed. rewrite installed_support_made.
  rewrite (insert_id F staged_app) by exact installed_staged_app.
  rewrite (insert_id F launch_agents_dir) by exact installed_launch_agents_dir.
  apply insert_id. exact installed_launch_agent.
Qed.

(** The second run finds the same bundles and needs the daemon as the
    first did. *)
Lemma installed_monitor :
  monitor_kexts c p (with_files F w) = monitor_kexts c p w1 /\
  monitor_needed c p (with_files F w) = needed.
Proof.
  apply monitor_frame. intros q Hq. cbn [files with_files].
  destruct (dep_probed c p w D q Hq) as [Hl Hout].
  rewrite (probed_stat c p w F q D Hq) by (apply installed_frame; exact Hout).
  symmetry. apply (probed_stat c p w _ q D Hq).
  unfold installed_paths in Hout. apart Hout.
  apply agent_installed_lookup; assumption.
Qed.

(** A second run leaves the files of the first. *)
Lemma installed_again : installed c p (with_files F w) payload agent d' dmode downer = F.
Proof.
  unfold installed at 1. cbn [files with_files]. rewrite installed_agent_installed.
  rewrite with_files_with_files.
  destruct installed_monitor as [Hk Hn]. rewrite Hn.
  assert (Ha : alias_made F = F).
  { unfold alias_made. pose proof installed_app_alias as H.
    destruct (F !! app_alias); [reflexivity|].
    destruct (files w !! app_alias); discriminate H. }
  pose proof installed_daemon_template as T1.
  pose proof installed_launch_daemons_dir as T2.
  pose proof installed_launch_daemon as T3.
  assert (E : needed = true ->
              monitor_plist p (monitor_kexts c p w1) d' = d').
  { intros En. unfold d', template_after. fold w1. fold needed. rewrite En.
    apply monitor_plist_idempotent. }
  destruct needed; [|exact Ha].
  assert (Hd : daemon_installed c p (with_files F w) d' dmode downer = F).
  { unfold daemon_installed. cbn [files with_files]. rewrite Hk, (E eq_refl).
    rewrite (insert_id F (rsr_monitor_launch_daemon_path c)) by exact T1.
    rewrite (insert_id F launch_daemons_dir) by exact T2.
    apply insert_id. exact T3. }
  rewrite Hd. exact Ha.
Qed.

End Run.

(** ** The installer run twice *)

(** C5. On a deployment, running the installer a second time changes
    nothing: both runs return, and the machine after the second run is the
    machine after the first.  After one run the staged path holds a copy of
    the source bundle; the descriptor of the agent holds the content of its
    template with mode 644 and owner root:wheel; the descriptor of the
    daemon is untouched if the daemon is not needed, and otherwise holds the
    rewritten template with mode 644 and owner root:wheel; the alias path
    holds what it held before if it held something, and a link to the staged
    application otherwise; and every path that is not one of the installed
    paths or the daemon template holds what it held before, so no other copy
    of the bundle and no other alias is made. *)
Theorem install_twice_is_install_once (c : Constants) (p : Probes) (w : World) :
  Deployment c p w ->
  let once := install_auto_patcher_launch_agent c p w in
  let twice := install_auto_patcher_launch_agent c p (world once) in
  value once = Return tt /\
  value twice = Return tt /\
  world twice = world once /\
  is_bundle (files (world once) !! staged_app) /\
  files (world once) !! staged_app = files w !! source_app c /\
  (exists content mode owner,
     files w !! auto_patch_launch_agent_path c = Some (File content mode owner) /\
     files (world once) !! launch_agent = Some (File content "644" "root:wheel")) /\
  (files (world once) !! launch_daemon = files w !! launch_daemon \/
   exists d mode owner,
     files (world once) !! rsr_monitor_launch_daemon_path c = Some (File (Plist d) mode owner) /\
     files (world once) !! launch_daemon = Some (File (Plist d) "644" "root:wheel")) /\
  files (world once) !! app_alias =
    match files w !! app_alias with
    | Some n => Some n
    | None => Some (Symlink staged_app)
    end /\
  (forall q,
     ~ In q (rsr_monitor_launch_daemon_path c :: installed_paths) ->
     files (world once) !! q = files w !! q).
Proof.
  intros D.
  destruct (deployment_data c p w D)
    as (payload & agent & amode & aowner & d & dmode & downer & Hsrc & Hagent & Hdaemon).
  destruct (install_returns c p w payload agent amode aowner d dmode downer
              D Hsrc Hagent Hdaemon) as [Hv1 Hw1].
  pose proof (deployment_kept c p w payload agent amode aowner d dmode downer
                D Hsrc Hagent Hdaemon) as D'.
  set (F := installed c p w payload agent d dmode downer) in *.
  destruct (install_returns c p (with_files F w) payload agent amode aowner
              (template_after c p w payload agent d) dmode downer D')
    as [Hv2 Hw2].
  { exact (installed_source c p w payload agent d dmode downer D Hsrc Hdaemon). }
  { exact (installed_agent_template c p w payload agent amode aowner d dmode downer D Hagent). }
  { exact (installed_daemon_template c p w payload agent d dmode downer D Hdaemon). }
  cbv zeta. rewrite Hw1. cbn [files with_files].
  split; [exact Hv1|]. split; [exact Hv2|].
  split.
  { rewrite Hw2. rewrite with_files_with_files. f_equal.
    exact (installed_again c p w payload agent d dmode downer D Hdaemon). }
  pose proof (installed_staged_app c p w payload agent d dmode downer D) as Hs.
  fold F in Hs.
  split; [rewrite Hs; exact I|].
  split; [rewrite Hs, Hsrc; reflexivity|].
  split.
  { exists agent, amode, aowner. split; [exact Hagent|].
    exact (installed_launch_agent c p w payload agent d dmode downer D). }
  split.
  { pose proof (installed_launch_daemon c p w payload agent d dmode downer D) as Hl.
    fold F in Hl.
    destruct (monitor_needed c p (with_files (agent_installed c (files w) payload agent) w));
      [right | left; exact Hl].
    exists (template_after c p w payload agent d), dmode, downer.
    split; [|exact Hl].
    exact (installed_daemon_template c p w payload agent d dmode downer D Hdaemon). }
  split.
  { exact (installed_app_alias c p w payload agent d dmode downer D). }
  intros q Hq. exact (installed_frame c p w payload agent d dmode downer q Hq).
Qed.

Lemma example_deployment :
  Deployment Example.constants Example.installer_probes Example.fresh_disk.
Proof.
  constructor.
  - reflexivity.
  - reflexivity.
  - vm_compute. exact I.
  - vm_compute. exact I.
  - reflexivity.
  - vm_compute. exact I.
  - reflexivity.
  - reflexivity.
  - reflexivity.
  - intros q Hq Hin. cbn in Hq, Hin.
    destruct Hq as [<- | [<- | [<- | []]]];
      repeat (destruct Hin as [Hin | Hin]; [discriminate Hin|]); destruct Hin.
  - vm_compute. exact I.
  - vm_compute. exact I.
  - vm_compute. exact I.
  - vm_compute. exact I.
  - intros q Hq. vm_compute in Hq.
    destruct Hq as [<- | [<- | [<- | [<- | [<- | []]]]]];
      (split; [vm_compute; exact I|]);
      intros Hin; cbn in Hin;
      repeat (destruct Hin as [Hin | Hin]; [discriminate Hin|]); destruct Hin.
Defined.

Lemma install_twice_is_install_once_witness :
  let c := Example.constants in
  let p := Example.installer_probes in
  let w := Example.fresh_disk in
  let once := install_auto_patcher_launch_agent c p w in
  let twice := install_auto_patcher_launch_agent c p (world once) in
  value once = Return tt /\
  value twice = Return tt /\
  world twice = world once /\
  is_bundle (files (world once) !! staged_app) /\
  files (world once) !! staged_app = files w !! source_app c /\
  (exists content mode owner,
     files w !! auto_patch_launch_agent_path c = Some (File content mode owner) /\
     files (world once) !! launch_agent = Some (File content "644" "root:wheel")) /\
  (files (world once) !! launch_daemon = files w !! launch_daemon \/
   exists d mode owner,
     files (world once) !! rsr_monitor_launch_daemon_path c = Some (File (Plist d) mode owner) /\
     files (world once) !! launch_daemon = Some (File (Plist d) "644" "root:wheel")) /\
  files (world once) !! app_alias =
    match files w !! app_alias with
    | Some n => Some n
    | None => Some (Symlink staged_app)
    end /\
  (forall q,
     ~ In q (rsr_monitor_launch_daemon_path c :: installed_paths) ->
     files (world once) !! q = files w !! q).
Proof.
  exact (install_twice_is_install_once Example.constants Example.installer_probes
           Example.fresh_disk example_deployment).
Defined.

(** ** The decision cycle as a whole *)

(** [patches[key]] returns the value of the key or raises [KeyError]. *)
Lemma getitem_run (patches : PatchReport) (key : string) (w : World) :
  getitem patches key w =
  Run (match report_get patches key with
       | Some v => Return v
       | None => Raise (KeyError key)
       end) w [].
Proof.
  induction patches as [|[k v] rest IH]; [reflexivity|].
  cbn [getitem report_get]. destruct (String.eqb k key); [reflexivity | exact IH].
Qed.

(** A report that has something to apply is not empty. *)
Lemma any_patch_cons (patches : PatchReport) :
  any_patch patches = true -> exists kv rest, patches = kv :: rest.
Proof. destruct patches as [|kv rest]; [discriminate | eauto]. Qed.

(** The runs of lines 69 to 125. *)
Lemma seal_and_patches_run (c : Constants) (p : Probes) (w : World) :
  seal_and_patches c p w =
  prepend [ CheckSeal ]
    (if check_seal p then
       prepend [ Log "- Detected Snapshot seal intact, detecting patches";
                 DetectPatchSet (computer_real_model c) ]
         (let patches := detect_patch_set p (computer_real_model c) in
          if any_patch patches then
            prepend [ Log "- Detected applicable patches, determining whether possible to patch" ]
              match report_get patches "Validation: Patching Possible" with
              | None => Run (Raise (KeyError "Validation: Patching Possible")) w []
              | Some false => Run (Return Returned) w [ Log "- Cannot run patching" ]
              | Some true =>
                  Run (Return Returned) w
                    ([ Log "- Determined patching is possible, checking for OCLP updates";
                       Log "- No new binaries found on Github, proceeding with patching";
                       VerifyNetworkConnection github_api;
                       Osascript (patch_prompt c p patches) ] ++
                     (if Z.eqb (osascript p (patch_prompt c p patches)) 0
                      then [ Osascript (PatchElevated (args_string c)) ]
                      else []))
              end
          else Run (Return FellThrough) w [ Log "- No patches detected" ])
     else Run (Return FellThrough) w [ Log "- Detected Snapshot seal not intact, skipping" ]).
Proof.
  unfold seal_and_patches. run_step.
  destruct (check_seal p); [|run_step; reflexivity].
  run_step. run_step. cbv zeta.
  destruct (any_patch (detect_patch_set p (computer_real_model c))) eqn:Hany;
    cbv beta iota delta [negb]; [|run_step; reflexivity].
  destruct (any_patch_cons _ Hany) as (kv & rest & Hp). rewrite Hp. cbv beta iota.
  rewrite <- Hp. run_step.
  pose proof (getitem_run (detect_patch_set p (computer_real_model c))
                "Validation: Patching Possible" w) as Hget.
  destruct (report_get _ _) as [[|]|].
  - rewrite (bind_returned _ _ _ _ _ _ Hget). cbv beta iota delta [negb].
    do 3 run_step. unfold patch_prompt.
    destruct (verify_network_connection p); cbv beta iota delta [negb];
      run_step; (destruct (Z.eqb _ 0); run_step; reflexivity).
  - rewrite (bind_returned _ _ _ _ _ _ Hget). cbv beta iota delta [negb].
    run_step. reflexivity.
  - rewrite (bind_raised _ _ _ _ _ _ Hget). reflexivity.
Qed.

(** The runs of lines 127 and 128. *)
Lemma version_then_boot_run (c : Constants) (p : Probes) (w : World) :
  version_then_boot c p w =
  let v := _determine_if_versions_match c p w in
  match value v with
  | Return true => prepend (effects v) (_determine_if_boot_matches c p (world v))
  | Return false => Run (Return tt) (world v) (effects v)
  | Raise e => Run (Raise e) (world v) (effects v)
  end.
Proof.
  unfold version_then_boot. cbv zeta.
  destruct (_determine_if_versions_match c p w) as [[[|]|e] wv ev] eqn:Hv;
    cbn [value world effects].
  - rewrite (bind_returned _ _ _ _ _ _ Hv). reflexivity.
  - rewrite (bind_returned _ _ _ _ _ _ Hv). unfold prepend, ret. cbn [value world effects].
    rewrite app_nil_r. reflexivity.
  - rewrite (bind_raised _ _ _ _ _ _ Hv). reflexivity.
Qed.

(** The runs of [start_auto_patch]. *)
Lemma start_auto_patch_run (c : Constants) (p : Probes) (w : World) :
  start_auto_patch c p w =
  prepend [ Log "- Starting Automatic Patching" ]
    (if wxpython_variant c then
       prepend [ CheckBinaryUpdates ]
         match check_binary_updates p with
         | Some d =>
             Run (Return tt) w
               ([ Log ("- Found new version: " +:+ Version d);
                  ShowModal (update_message c (Version d))
                    "Update Available for OpenCore Legacy Patcher!" ] ++
                match show_modal p with
                | ID_YES => [ GuiEntry UPDATE_APP ]
                | ID_NO => [ WebbrowserOpen (Github_Link d) ]
                | ID_CANCEL => []
                end)
         | None =>
             let s := seal_and_patches c p w in
             match value s with
             | Return FellThrough => prepend (effects s) (version_then_boot c p (world s))
             | Return Returned => Run (Return tt) (world s) (effects s)
             | Raise e => Run (Raise e) (world s) (effects s)
             end
         end
     else
       Run (Return tt) w [ Log "- Auto Patch option is not supported on TUI, please use GUI" ]).
Proof.
  unfold start_auto_patch. run_step.
  destruct (wxpython_variant c); cbv beta iota delta [negb]; [|reflexivity].
  run_step.
  destruct (check_binary_updates p) as [d|].
  - cbv zeta. run_step. run_step. destruct (show_modal p); reflexivity.
  - cbv zeta.
    destruct (seal_and_patches c p w) as [[[|]|e] ws es] eqn:Hs; cbn [value world effects].
    + rewrite (bind_returned _ _ _ _ _ _ Hs). unfold prepend, ret, emit.
      cbn [value world effects app]. rewrite app_nil_r. reflexivity.
    + rewrite (bind_returned _ _ _ _ _ _ Hs). reflexivity.
    + rewrite (bind_raised _ _ _ _ _ _ Hs). reflexivity.
Qed.

(** No event of the version check or of the boot disk check belongs to the
    detection of patches. *)
Lemma version_then_boot_no_detection (c : Constants) (p : Probes) (w : World) :
  let t := version_then_boot c p w in
  ~ In CheckSeal (effects t) /\
  (forall model, ~ In (DetectPatchSet model) (effects t)) /\
  (forall patch_string warning_str, ~ presents (PatchPrompt patch_string warning_str) t) /\
  (forall args, ~ presents (PatchElevated args) t).
Proof.
  cbv zeta. unfold presents. rewrite version_then_boot_run. cbv zeta.
  assert (Hboot : forall w0 (e : event),
             e = CheckSeal \/ (exists model, e = DetectPatchSet model) \/
             (exists ps ws, e = Osascript (PatchPrompt ps ws)) \/
             (exists args, e = Osascript (PatchElevated args)) ->
             ~ In e (effects (_determine_if_boot_matches c p w0))).
  { intros w0 e He.
    destruct (boot_check_guards c p) as [Hg | (booted & Hp & Hh & Hb)].
    - destruct (boot_check_guarded c p w0 Hg) as [msg ->].
      destruct He as [-> | [[m ->] | [(ps & ws & ->) | [a ->]]]]; absent.
    - rewrite (boot_check_compared c p w0 booted Hp Hh Hb). unfold boot_check_preamble.
      destruct (find_matching_store _ _);
        [destruct He as [-> | [[m ->] | [(ps & ws & ->) | [a ->]]]]; absent|].
      destruct (Ejectable _) as [[|]|];
        [destruct (Z.eqb _ 0)| |];
        destruct He as [-> | [[m ->] | [(ps & ws & ->) | [a ->]]]]; absent. }
  assert (Hall : forall e : event,
             e = CheckSeal \/ (exists model, e = DetectPatchSet model) \/
             (exists ps ws, e = Osascript (PatchPrompt ps ws)) \/
             (exists args, e = Osascript (PatchElevated args)) ->
             ~ In e (effects
                       match value (_determine_if_versions_match c p w) with
                       | Return true =>
                           prepend (effects (_determine_if_versions_match c p w))
                             (_determine_if_boot_matches c p
                                (world (_determine_if_versions_match c p w)))
                       | Return false =>
                           Run (Return tt) (world (_determine_if_versions_match c p w))
                             (effects (_determine_if_versions_match c p w))
                       | Raise e0 =>
                           Run (Raise e0) (world (_determine_if_versions_match c p w))
                             (effects (_determine_if_versions_match c p w))
                       end)).
  { intros e He.
    assert (Hv : ~ In e (effects (_determine_if_versions_match c p w))).
    { rewrite versions_match_run.
      destruct (computer_oclp_version c) as [booted|];
        [|destruct He as [-> | [[m ->] | [(ps & ws & ->) | [a ->]]]]; absent].
      destruct (String.eqb booted (patcher_version c));
        [destruct He as [-> | [[m ->] | [(ps & ws & ->) | [a ->]]]]; absent|].
      destruct (special_build c);
        [destruct He as [-> | [[m ->] | [(ps & ws & ->) | [a ->]]]]; absent|].
      destruct (check_if_newer p booted);
        [destruct He as [-> | [[m ->] | [(ps & ws & ->) | [a ->]]]]; absent|].
      destruct (Z.eqb _ 0);
        destruct He as [-> | [[m ->] | [(ps & ws & ->) | [a ->]]]]; absent. }
    destruct (value (_determine_if_versions_match c p w)) as [[|]|e0];
      cbn [effects prepend]; try exact Hv.
    intros Hin. apply in_app_or in Hin. destruct Hin as [Hin | Hin];
      [exact (Hv Hin) | exact (Hboot _ e He Hin)]. }
  repeat split.
  - apply Hall. left. reflexivity.
  - intros model. apply Hall. right. left. eauto.
  - intros ps ws. apply Hall. right. right. left. eauto.
  - intros args. apply Hall. right. right. right. eauto.
Qed.



(** X2. When the seal of the snapshot is broken, the patches are not
    detected, whatever the machine would need: nothing is offered, and the
    cycle goes straight to the version check and, if the versions match, to
    the boot disk check, of which it has the result and the effects. *)
Theorem broken_seal_skips_detection (c : Constants) (p : Probes) (w : World) :
  wxpython_variant c = true ->
  check_binary_updates p = None ->
  check_seal p = false ->
  let r := start_auto_patch c p w in
  let t := version_then_boot c p w in
  value r = value t /\
  world r = world t /\
  effects r =
    [ Log "- Starting Automatic Patching";
      CheckBinaryUpdates;
      CheckSeal;
      Log "- Detected Snapshot seal not intact, skipping" ] ++ effects t /\
  (forall model, ~ In (DetectPatchSet model) (effects r)) /\
  (forall patch_string warning_str, ~ presents (PatchPrompt patch_string warning_str) r) /\
  (forall args, ~ presents (PatchElevated args) r).
Proof.
  intros Hgui Hupd Hseal r t.
  destruct (version_then_boot_no_detection c p w) as (_ & Hd & Hpp & Hpe).
  fold t in Hd, Hpp, Hpe. unfold presents in *.
  assert (Hr : r = prepend [ Log "- Starting Automatic Patching";
                             CheckBinaryUpdates;
                             CheckSeal;
                             Log "- Detected Snapshot seal not intact, skipping" ] t).
  { subst r t. rewrite start_auto_patch_run, Hgui, Hupd. cbv zeta.
    rewrite seal_and_patches_run, Hseal. reflexivity. }
  rewrite Hr. unfold prepend. cbn [value world effects].
  repeat split.
  - intros model Hin. apply in_app_or in Hin. destruct Hin as [Hin | Hin];
      [revert Hin; absent | exact (Hd model Hin)].
  - intros ps ws Hin. apply in_app_or in Hin. destruct Hin as [Hin | Hin];
      [revert Hin; absent | exact (Hpp ps ws Hin)].
  - intros args Hin. apply in_app_or in Hin. destruct Hin as [Hin | Hin];
      [revert Hin; absent | exact (Hpe args Hin)].
Qed.

Lemma broken_seal_skips_detection_witness :
  let c := Example.booted_from "disk0s1" in
  let p := Example.cycle_probes None ID_CANCEL false (Example.report (Some true)) true 0 in
  let r := start_auto_patch c p Example.empty_disk in
  let t := version_then_boot c p Example.empty_disk in
  value r = value t /\
  world r = world t /\
  effects r =
    [ Log "- Starting Automatic Patching";
      CheckBinaryUpdates;
      CheckSeal;
      Log "- Detected Snapshot seal not intact, skipping" ] ++ effects t /\
  (forall model, ~ In (DetectPatchSet model) (effects r)) /\
  (forall patch_string warning_str, ~ presents (PatchPrompt patch_string warning_str) r) /\
  (forall args, ~ presents (PatchElevated args) r).
Proof.
  intros c p.
  apply (broken_seal_skips_detection c p Example.empty_disk); reflexivity.
Defined.

(** *** The patches offered *)

Lemma string_append_nil_r (s : string) : s +:+ EmptyString = s.
Proof. induction s as [|x s IH]; [reflexivity | rewrite append_cons, IH; reflexivity]. Qed.




(** The report has a patch to apply exactly when a key outside
    [Settings...] and [Validation...] is true. *)
Lemma any_patch_actionable (patches : PatchReport) :
  any_patch patches = true <-> actionable patches <> [].
Proof.
  unfold any_patch, actionable.
  induction patches as [|[patch v] rest IH]; [cbn; split; [discriminate | congruence]|].
  cbn [existsb List.filter fst snd]. rewrite (andb_comm (is_patch_name patch) v).
  destruct (v && is_patch_name patch); cbn [orb map]; [split; [discriminate | reflexivity]|].
  exact IH.
Qed.

(** The runs of a cycle that gets to the detection and finds a patch to
    apply. *)
Lemma start_auto_patch_actionable (c : Constants) (p : Probes) (w : World) :
  wxpython_variant c = true ->
  check_binary_updates p = None ->
  check_seal p = true ->
  any_patch (detect_patch_set p (computer_real_model c)) = true ->
  start_auto_patch c p w =
  prepend [ Log "- Starting Automatic Patching";
            CheckBinaryUpdates;
            CheckSeal;
            Log "- Detected Snapshot seal intact, detecting patches";
            DetectPatchSet (computer_real_model c);
            Log "- Detected applicable patches, determining whether possible to patch" ]
    (let patches := detect_patch_set p (computer_real_model c) in
     match report_get patches "Validation: Patching Possible" with
     | None => Run (Raise (KeyError "Validation: Patching Possible")) w []
     | Some false => Run (Return tt) w [ Log "- Cannot run patching" ]
     | Some true =>
         Run (Return tt) w
           ([ Log "- Determined patching is possible, checking for OCLP updates";
              Log "- No new binaries found on Github, proceeding with patching";
              VerifyNetworkConnection github_api;
              Osascript (patch_prompt c p patches) ] ++
            (if Z.eqb (osascript p (patch_prompt c p patches)) 0
             then [ Osascript (PatchElevated (args_string c)) ]
             else []))
     end).
Proof.
  intros Hgui Hupd Hseal Hany.
  rewrite start_auto_patch_run, Hgui, Hupd. cbv zeta.
  rewrite seal_and_patches_run, Hseal. cbv zeta. rewrite Hany.
  destruct (report_get _ _) as [[|]|]; reflexivity.
Qed.

(** X3. When the report has a patch to apply but says that patching is
    not possible, the cycle logs "Cannot run patching" and ends: nothing is
    offered, GitHub is not asked, the version check and the boot disk check
    are not run, and the machine is left as it was. *)
Theorem impossible_patching_ends_cycle (c : Constants) (p : Probes) (w : World) :
  wxpython_variant c = true ->
  check_binary_updates p = None ->
  check_seal p = true ->
  actionable (detect_patch_set p (computer_real_model c)) <> [] ->
  report_get (detect_patch_set p (computer_real_model c)) "Validation: Patching Possible"
    = Some false ->
  let r := start_auto_patch c p w in
  value r = Return tt /\
  world r = w /\
  effects r =
    [ Log "- Starting Automatic Patching";
      CheckBinaryUpdates;
      CheckSeal;
      Log "- Detected Snapshot seal intact, detecting patches";
      DetectPatchSet (computer_real_model c);
      Log "- Detected applicable patches, determining whether possible to patch";
      Log "- Cannot run patching" ] /\
  no_prompt r.
Proof.
  intros Hgui Hupd Hseal Hact Hget r. subst r.
  apply any_patch_actionable in Hact.
  rewrite (start_auto_patch_actionable c p w Hgui Hupd Hseal Hact). cbv zeta. rewrite Hget.
  unfold no_prompt, presents, prepend. cbn [value world effects app].
  repeat split. intros d. absent.
Qed.

Lemma impossible_patching_ends_cycle_witness :
  let c := Example.booted_from "disk0s1" in
  let p := Example.cycle_probes None ID_CANCEL true (Example.report (Some false)) true 0 in
  let r := start_auto_patch c p Example.empty_disk in
  value r = Return tt /\
  world r = Example.empty_disk /\
  effects r =
    [ Log "- Starting Automatic Patching";
      CheckBinaryUpdates;
      CheckSeal;
      Log "- Detected Snapshot seal intact, detecting patches";
      DetectPatchSet (computer_real_model c);
      Log "- Detected applicable patches, determining whether possible to patch";
      Log "- Cannot run patching" ] /\
  no_prompt r.
Proof.
  intros c p.
  apply (impossible_patching_ends_cycle c p Example.empty_disk);
    try reflexivity.
  vm_compute. discriminate.
Defined.

(** X4. When the report has a patch to apply but lacks the key
    [Validation: Patching Possible], line 76 raises [KeyError], which
    nothing catches: the cycle stops there with the exception, before any
    dialog, and the machine is left as it was. *)
Theorem report_without_validation_raises (c : Constants) (p : Probes) (w : World) :
  wxpython_variant c = true ->
  check_binary_updates p = None ->
  check_seal p = true ->
  actionable (detect_patch_set p (computer_real_model c)) <> [] ->
  report_get (detect_patch_set p (computer_real_model c)) "Validation: Patching Possible"
    = None ->
  let r := start_auto_patch c p w in
  value r = Raise (KeyError "Validation: Patching Possible") /\
  world r = w /\
  effects r =
    [ Log "- Starting Automatic Patching";
      CheckBinaryUpdates;
      CheckSeal;
      Log "- Detected Snapshot seal intact, detecting patches";
      DetectPatchSet (computer_real_model c);
      Log "- Detected applicable patches, determining whether possible to patch" ] /\
  no_prompt r.
Proof.
  intros Hgui Hupd Hseal Hact Hget r. subst r.
  apply any_patch_actionable in Hact.
  rewrite (start_auto_patch_actionable c p w Hgui Hupd Hseal Hact). cbv zeta. rewrite Hget.
  unfold no_prompt, presents, prepend. cbn [value world effects app].
  repeat split. intros d. absent.
Qed.

Lemma report_without_validation_raises_witness :
  let c := Example.booted_from "disk0s1" in
  let p := Example.cycle_probes None ID_CANCEL true (Example.report None) true 0 in
  let r := start_auto_patch c p Example.empty_disk in
  value r = Raise (KeyError "Validation: Patching Possible") /\
  world r = Example.empty_disk /\
  effects r =
    [ Log "- Starting Automatic Patching";
      CheckBinaryUpdates;
      CheckSeal;
      Log "- Detected Snapshot seal intact, detecting patches";
      DetectPatchSet (computer_real_model c);
      Log "- Detected applicable patches, determining whether possible to patch" ] /\
  no_prompt r.
Proof.
  intros c p.
  apply (report_without_validation_raises c p Example.empty_disk);
    try reflexivity.
  vm_compute. discriminate.
Defined.



(** *** The questions of a cycle *)

Lemma dialogs_app (es es' : list event) : dialogs (es ++ es') = dialogs es ++ dialogs es'.
Proof. apply flat_map_app. Qed.

(** The dialogs of the version check: the one about the bootloader when
    the versions differ on a build that is not special and the installed
    version is not the newer one, none otherwise; the check answers [True]
    only when it has shown none. *)
Lemma versions_match_dialogs_list (c : Constants) (p : Probes) (w : World) :
  let v := _determine_if_versions_match c p w in
  (dialogs (effects v) = [] \/
   exists booted,
     computer_oclp_version c = Some booted /\
     value v = Return false /\
     dialogs (effects v) = [ BootloaderPrompt booted (patcher_version c) ]) /\
  (exists b, value v = Return b).
Proof.
  cbv zeta. rewrite versions_match_run.
  destruct (computer_oclp_version c) as [booted|]; [|split; [left; reflexivity | eauto]].
  destruct (String.eqb booted (patcher_version c)); [split; [left; reflexivity | eauto]|].
  destruct (special_build c); [split; [left; reflexivity | eauto]|].
  destruct (check_if_newer p booted); [split; [left; reflexivity | eauto]|].
  destruct (Z.eqb _ 0); (split; [right; exists booted; repeat split | eauto]).
Qed.

(** The dialogs of the boot disk check: the one about the internal disk,
    or none. *)
Lemma boot_check_dialogs_list (c : Constants) (p : Probes) (w : World) :
  let b := _determine_if_boot_matches c p w in
  dialogs (effects b) = [] \/ dialogs (effects b) = [ InstallToDiskPrompt ].
Proof.
  cbv zeta.
  destruct (boot_check_guards c p) as [Hg | (booted & Hp & Hh & Hb)].
  - destruct (boot_check_guarded c p w Hg) as [msg ->]. left. reflexivity.
  - rewrite (boot_check_compared c p w booted Hp Hh Hb). unfold boot_check_preamble.
    destruct (find_matching_store _ _); [left; reflexivity|].
    destruct (Ejectable _) as [[|]|]; [|left; reflexivity|left; reflexivity].
    destruct (Z.eqb _ 0); right; reflexivity.
Qed.

Lemma version_then_boot_dialogs_list (c : Constants) (p : Probes) (w : World) :
  let t := version_then_boot c p w in
  dialogs (effects t) = [] \/
  (exists booted,
     computer_oclp_version c = Some booted /\
     dialogs (effects t) = [ BootloaderPrompt booted (patcher_version c) ]) \/
  dialogs (effects t) = [ InstallToDiskPrompt ].
Proof.
  cbv zeta. rewrite version_then_boot_run. cbv zeta.
  destruct (versions_match_dialogs_list c p w) as [Hd [b Hb]]. cbv zeta in Hd, Hb.
  rewrite Hb. destruct b.
  - unfold prepend. cbn [effects]. rewrite dialogs_app.
    destruct Hd as [Hd | (booted & _ & Hv & _)]; [|congruence].
    rewrite Hd. cbn [app].
    destruct (boot_check_dialogs_list c p (world (_determine_if_versions_match c p w)))
      as [H | H]; rewrite H; tauto.
  - cbn [effects]. destruct Hd as [Hd | (booted & Ho & _ & Hd)]; [left; exact Hd|].
    right. left. exists booted. split; assumption.
Qed.

(** X6. A cycle asks at most one question through [osascript].  The
    dialogs of a run of [start_auto_patch] are: none; or the dialog that
    lists the patches, followed by the privileged patch command exactly when
    that dialog exits with status 0; or the dialog about the bootloader,
    alone; or the dialog about the internal disk, alone.  So the patch
    command never runs without the patches having been offered and accepted,
    and the two dialogs that lead to the Build/Install menu never come in
    the same cycle. *)
Theorem at_most_one_question_per_cycle (c : Constants) (p : Probes) (w : World) :
  let r := start_auto_patch c p w in
  let prompt := patch_prompt c p (detect_patch_set p (computer_real_model c)) in
  dialogs (effects r) = [] \/
  (dialogs (effects r) = [ prompt ] /\ osascript p prompt <> 0) \/
  (dialogs (effects r) = [ prompt; PatchElevated (args_string c) ] /\ osascript p prompt = 0) \/
  (exists booted,
     computer_oclp_version c = Some booted /\
     dialogs (effects r) = [ BootloaderPrompt booted (patcher_version c) ]) \/
  dialogs (effects r) = [ InstallToDiskPrompt ].
Proof.
  cbv zeta. rewrite start_auto_patch_run.
  destruct (wxpython_variant c); [|left; reflexivity].
  destruct (check_binary_updates p) as [d|];
    [left; destruct (show_modal p); reflexivity|].
  cbv zeta. rewrite seal_and_patches_run.
  assert (Hfall : forall es : list event,
             dialogs es = [] ->
             let r := prepend [ Log "- Starting Automatic Patching" ]
                        (prepend [ CheckBinaryUpdates ]
                           (prepend es (version_then_boot c p w))) in
             dialogs (effects r) = [] \/
             (exists booted,
                computer_oclp_version c = Some booted /\
                dialogs (effects r) = [ BootloaderPrompt booted (patcher_version c) ]) \/
             dialogs (effects r) = [ InstallToDiskPrompt ]).
  { intros es Hes. cbv zeta. unfold prepend. cbn [effects app].
    change (dialogs (Log "- Starting Automatic Patching" :: CheckBinaryUpdates ::
                     es ++ effects (version_then_boot c p w)))
      with (dialogs (es ++ effects (version_then_boot c p w))).
    rewrite dialogs_app, Hes. exact (version_then_boot_dialogs_list c p w). }
  destruct (check_seal p).
  - cbv zeta.
    destruct (any_patch (detect_patch_set p (computer_real_model c))).
    + destruct (report_get _ _) as [[|]|]; [|left; reflexivity|left; reflexivity].
      destruct (Z.eqb _ 0) eqn:Hrc.
      * right. right. left. split; [reflexivity | apply Z.eqb_eq; exact Hrc].
      * right. left. split; [reflexivity | apply Z.eqb_neq; exact Hrc].
    + destruct (Hfall [ CheckSeal;
                        Log "- Detected Snapshot seal intact, detecting patches";
                        DetectPatchSet (computer_real_model c);
                        Log "- No patches detected" ] eq_refl) as [H | [H | H]];
        [left | right; right; right; left | right; right; right; right]; exact H.
  - destruct (Hfall [ CheckSeal; Log "- Detected Snapshot seal not intact, skipping" ] eq_refl)
      as [H | [H | H]];
      [left | right; right; right; left | right; right; right; right]; exact H.
Qed.

(** *** What a cycle does to the machine *)






(** *** The exceptions of a cycle *)




(** ** The version check and the boot disk check, further *)

(** X9. [_determine_if_versions_match] always returns, and its answer is
    [True] exactly when no booted version is known, or the booted version is
    the installed one, or the build is not special and the installed version
    is the newer one.  The comparator is asked only about a booted version
    that differs from the installed one, on a build that is not special; and
    the dialog about the bootloader is shown exactly when the answer is
    [False] on a build that is not special. *)
Theorem versions_match_answer (c : Constants) (p : Probes) (w : World) :
  let v := _determine_if_versions_match c p w in
  value v =
    Return match computer_oclp_version c with
           | None => true
           | Some booted =>
               String.eqb booted (patcher_version c) ||
               (negb (special_build c) && check_if_newer p booted)
           end /\
  (forall version,
     In (CheckIfNewer version) (effects v) ->
     computer_oclp_version c = Some version /\
     version <> patcher_version c /\
     special_build c = false) /\
  ((exists d, presents d v) <-> value v = Return false /\ special_build c = false).
Proof.
  cbv zeta. unfold presents. rewrite versions_match_run.
  assert (Hquiet : forall (b : bool) (es : list event),
             (forall version, ~ In (CheckIfNewer version) es) ->
             (forall d, ~ In (Osascript d) es) ->
             (b = false -> special_build c = true) ->
             let v := prepend [ Log "- Checking booted vs installed OCLP Build" ]
                        (Run (Return b) w es) in
             (forall version,
                In (CheckIfNewer version) (effects v) ->
                computer_oclp_version c = Some version /\
                version <> patcher_version c /\
                special_build c = false) /\
             ((exists d, In (Osascript d) (effects v)) <->
              value v = Return false /\ special_build c = false)).
  { intros b es Hn Hd Hb. cbv zeta. unfold prepend. cbn [value effects app]. split.
    - intros version [H | H]; [discriminate H | destruct (Hn _ H)].
    - split.
      + intros [d [H | H]]; [discriminate H | destruct (Hd _ H)].
      + intros [H1 H2]. injection H1 as ->. rewrite (Hb eq_refl) in H2. discriminate H2. }
  destruct (computer_oclp_version c) as [booted|].
  2:{ split; [reflexivity|].
      apply (Hquiet true); [intros version; absent | intros d; absent | discriminate]. }
  destruct (String.eqb booted (patcher_version c)) eqn:Heq.
  { split; [reflexivity|].
    apply (Hquiet true); [intros version; absent | intros d; absent | discriminate]. }
  apply String.eqb_neq in Heq.
  destruct (special_build c) eqn:Hs.
  { split; [reflexivity|].
    apply (Hquiet false); [intros version; absent | intros d; absent | reflexivity]. }
  assert (Hn : forall (es : list event) version,
             In (CheckIfNewer version)
               (Log "- Checking booted vs installed OCLP Build" :: CheckIfNewer booted :: es) ->
             (forall v', ~ In (CheckIfNewer v') es) ->
             Some booted = Some version /\ version <> patcher_version c /\ false = false).
  { intros es version [H | [H | H]] Hes; try discriminate H.
    - injection H as <-. repeat split; assumption.
    - destruct (Hes _ H). }
  destruct (check_if_newer p booted).
  { split; [reflexivity|]. unfold prepend. cbn [value effects app]. split.
    - intros version H. apply (Hn _ _ H). intros v'. absent.
    - split; [intros [d H]; revert H; absent | intros [H _]; discriminate H]. }
  destruct (Z.eqb _ 0); (split; [reflexivity|]); unfold prepend; cbn [value effects app];
    (split;
     [ intros version H; apply (Hn _ _ H); intros v'; absent
     | split; [intros _; split; reflexivity|];
       intros _; exists (BootloaderPrompt booted (patcher_version c)); cbn; tauto ]).
Qed.

(** X10. On a hackintosh, or when the disk that OpenCore was launched
    from is unknown ([None] or the empty string), the boot disk check logs
    why it skips and returns: it asks for no disk, shows no dialog and leaves
    the machine as it was.  The hackintosh is tested first. *)
Theorem boot_check_needs_a_mac_and_a_boot_disk (c : Constants) (p : Probes) (w : World) :
  read_property p "AutoPatch_Notify_Mismatched_Disks" <> Some false ->
  host_is_hackintosh c = true \/
  booted_oc_disk c = None \/ booted_oc_disk c = Some EmptyString ->
  _determine_if_boot_matches c p w =
  Run (Return tt) w
    [ Log "- Determining if macOS drive matches boot drive";
      ReadProperty "AutoPatch_Notify_Mismatched_Disks";
      Log (if host_is_hackintosh c then "- Skipping due to hackintosh"
           else "- Failed to find disk OpenCore launched from") ].
Proof.
  intros Hp H. unfold _determine_if_boot_matches. run_step. run_step.
  assert (Hgo : forall (A : Type) (x y : A),
             match read_property p "AutoPatch_Notify_Mismatched_Disks" with
             | Some false => x
             | _ => y
             end = y)
    by (intros A x y;
        destruct (read_property p "AutoPatch_Notify_Mismatched_Disks") as [[|]|];
        congruence).
  rewrite Hgo.
  destruct (host_is_hackintosh c); [reflexivity|].
  destruct H as [H | [H | H]]; [discriminate H | rewrite H; reflexivity | rewrite H; reflexivity].
Qed.

Lemma boot_check_needs_a_mac_and_a_boot_disk_witness :
  let c := Example.machine (Some "0.6.2") false false (Some EmptyString) in
  _determine_if_boot_matches c Example.probes Example.empty_disk =
  Run (Return tt) Example.empty_disk
    [ Log "- Determining if macOS drive matches boot drive";
      ReadProperty "AutoPatch_Notify_Mismatched_Disks";
      Log "- Failed to find disk OpenCore launched from" ].
Proof.
  intros c.
  apply (boot_check_needs_a_mac_and_a_boot_disk c Example.probes Example.empty_disk).
  - discriminate.
  - right. right. reflexivity.
Defined.

(** X11. When the boot disk matches no physical store and [diskutil]
    says that it is ejectable, the dialog about the internal disk is shown,
    and it is the only one.  [diskutil] was asked about the normalised name
    of the boot disk.  If the dialog exits with status 0 the flag
    [start_build_install] is set and the Build/Install menu is launched;
    otherwise the machine is left as it was and nothing is launched. *)
Theorem ejectable_boot_disk_is_offered (c : Constants) (p : Probes) (w : World)
    (booted : string) :
  reaches_removable_check c p booted ->
  Ejectable (diskutil_info p (root_disk_of booted)) = Some true ->
  let r := _determine_if_boot_matches c p w in
  value r = Return tt /\
  dialogs (effects r) = [ InstallToDiskPrompt ] /\
  In (SubprocessRun ["diskutil"; "info"; "-plist"; root_disk_of booted]) (effects r) /\
  (if Z.eqb (osascript p InstallToDiskPrompt) 0
   then world r = build_install_started w /\
        List.last (effects r) (Log EmptyString) = GuiEntry BUILD_OC
   else world r = w /\ ~ In (GuiEntry BUILD_OC) (effects r)).
Proof.
  intros (Hp & Hh & Hb & Hstore) He r. subst r.
  rewrite (boot_check_compared c p w booted Hp Hh Hb), Hstore, He.
  unfold boot_check_preamble.
  destruct (Z.eqb _ 0); cbn [value world effects app].
  - repeat split; try reflexivity. cbn. tauto.
  - repeat split; try reflexivity; [cbn; tauto | absent].
Qed.

Lemma ejectable_boot_disk_is_offered_witness :
  let c := Example.booted_from "disk2s1" in
  let p := Example.probes_with None ["disk0s2"] (Some true) [] in
  let r := _determine_if_boot_matches c p Example.empty_disk in
  value r = Return tt /\
  dialogs (effects r) = [ InstallToDiskPrompt ] /\
  In (SubprocessRun ["diskutil"; "info"; "-plist"; "disk2"]) (effects r) /\
  world r = build_install_started Example.empty_disk /\
  List.last (effects r) (Log EmptyString) = GuiEntry BUILD_OC.
Proof.
  intros c p.
  apply (ejectable_boot_disk_is_offered c p Example.empty_disk "disk2s1").
  - unfold reaches_removable_check. repeat split; try reflexivity. discriminate.
  - reflexivity.
Defined.

(** *** The normalised name of the boot disk *)

(** A digit is none of the characters that [strip("disk")] removes, and is
    not the separator of [split("s")]. *)
Lemma digit_kept (x : ascii) :
  Py.mem x "0123456789" = true -> Py.mem x "disk" = false /\ x <> "s"%char.
Proof.
  intros Hd. split.
  - destruct (Py.mem x "disk") eqn:Hm; [|reflexivity]. exfalso.
    cbn [Py.mem] in Hm. rewrite !orb_true_iff, !Ascii.eqb_eq in Hm.
    destruct Hm as [-> | [-> | [-> | [-> | H]]]]; discriminate.
  - intros ->. discriminate Hd.
Qed.

Lemma rstrip_digits (n : string) : digits n = true -> Py.rstrip "disk" n = n.
Proof.
  induction n as [|x n IH]; [reflexivity|].
  cbn [digits]. rewrite andb_true_iff. intros [Hx Hn].
  cbn [Py.rstrip]. rewrite (IH Hn).
  destruct n; [|reflexivity].
  rewrite (proj1 (digit_kept x Hx)). reflexivity.
Qed.

(** Stripping on the right what follows a number leaves the number,
    followed by nothing or by something that starts as what followed. *)
Lemma rstrip_after_digits (n rest : string) (x : ascii) :
  digits n = true -> n <> EmptyString ->
  Py.rstrip "disk" (n +:+ String x rest) = n \/
  exists rest', Py.rstrip "disk" (n +:+ String x rest) = n +:+ String x rest'.
Proof.
  intros Hn Hne.
  destruct (Py.rstrip "disk" (String x rest)) as [|y r] eqn:Hr.
  - left. clear Hne. induction n as [|z n IH]; [exact Hr|].
    cbn [digits] in Hn. apply andb_true_iff in Hn. destruct Hn as [Hz Hn].
    rewrite append_cons. cbn [Py.rstrip].
    destruct n as [|z' n].
    + change (EmptyString +:+ String x rest) with (String x rest). rewrite Hr.
      rewrite (proj1 (digit_kept z Hz)). reflexivity.
    + rewrite (IH Hn). reflexivity.
  - right. assert (Hy : y = x).
    { cbn [Py.rstrip] in Hr. destruct (Py.rstrip "disk" rest);
        [destruct (Py.mem x "disk"); [discriminate Hr | injection Hr as <- _; reflexivity]
        | injection Hr as <- _; reflexivity]. }
    subst y. exists r. rewrite rstrip_app by (rewrite Hr; discriminate).
    rewrite Hr. reflexivity.
Qed.

(** The first piece of a split at "s" is the number that starts the
    string. *)
Lemma split_first_digits (n : string) (cur : string) :
  digits n = true ->
  (forall rest, Py.first (Py.split_go "s" O cur (n +:+ String "s" rest)) = String.rev_app cur n) /\
  Py.first (Py.split_go "s" O cur n) = String.rev_app cur n.
Proof.
  revert cur. induction n as [|x n IH]; intros cur Hn.
  - split; [|reflexivity]. intros rest.
    change (EmptyString +:+ String "s" rest) with (String "s" rest).
    cbn [Py.split_go].
    assert (Hpre : String.prefix "s" (String "s" rest) = true)
      by (apply prefix_spec; exists rest; reflexivity).
    rewrite Hpre. reflexivity.
  - cbn [digits] in Hn. apply andb_true_iff in Hn. destruct Hn as [Hx Hn].
    destruct (digit_kept x Hx) as [_ Hs].
    assert (Hpre : forall t, String.prefix "s" (String x t) = false).
    { intros t. cbn [String.prefix]. destruct (ascii_dec "s" x) as [E|E]; [congruence | reflexivity]. }
    destruct (IH (String x cur) Hn) as [IH1 IH2].
    split.
    + intros rest. rewrite append_cons. cbn [Py.split_go]. rewrite Hpre. apply IH1.
    + cbn [Py.split_go]. rewrite Hpre. apply IH2.
Qed.

(** X12. Lines 206 and 207 turn the identifier of a slice into the
    identifier of its disk: for every number N and whatever follows the
    first "s", "diskNs..." becomes "diskN"; and the identifier "diskN" of a
    whole disk stays as it is. *)
Theorem root_disk_of_slice (n rest : string) :
  digits n = true ->
  n <> EmptyString ->
  root_disk_of ("disk" +:+ n +:+ "s" +:+ rest) = "disk" +:+ n /\
  root_disk_of ("disk" +:+ n) = "disk" +:+ n.
Proof.
  intros Hn Hne.
  assert (Hl : forall t, Py.lstrip "disk" ("disk" +:+ n +:+ t) = n +:+ t).
  { intros t. change ("disk" +:+ n +:+ t)
      with (String "d" (String "i" (String "s" (String "k" (n +:+ t))))).
    cbn [Py.lstrip Py.mem Ascii.eqb Bool.eqb orb].
    destruct n as [|x n]; [congruence|].
    cbn [digits] in Hn. apply andb_true_iff in Hn. destruct Hn as [Hx _].
    rewrite append_cons. cbn [Py.lstrip]. rewrite (proj1 (digit_kept x Hx)). reflexivity. }
  unfold root_disk_of, Py.strip, Py.split. split.
  - rewrite Hl. change ("s" +:+ rest) with (String "s" rest).
    destruct (rstrip_after_digits n rest "s" Hn Hne) as [-> | [rest' ->]].
    + rewrite (proj2 (split_first_digits n EmptyString Hn)). reflexivity.
    + rewrite (proj1 (split_first_digits n EmptyString Hn)). reflexivity.
  - pose proof (Hl EmptyString) as Hl'. rewrite !string_append_nil_r in Hl'. rewrite Hl'.
    rewrite (rstrip_digits n Hn).
    rewrite (proj2 (split_first_digits n EmptyString Hn)). reflexivity.
Qed.

Lemma root_disk_of_slice_witness :
  root_disk_of ("disk" +:+ "12" +:+ "s" +:+ "3s1") = "disk" +:+ "12" /\
  root_disk_of ("disk" +:+ "12") = "disk" +:+ "12".
Proof.
  apply (root_disk_of_slice "12" "3s1").
  - reflexivity.
  - discriminate.
Defined.

(** ** The dialogs and the disks, further *)




(** The argument of [osascript -e] for the dialog about the bootloader, on
    a build that is not special. *)
Lemma bootloader_dialog_args (c : Constants) (booted installed : string) :
  special_build c = false ->
  osascript_args c (BootloaderPrompt booted installed) =
  [ "osascript"; "-e";
    "display dialog " +:+ dq +:+
    "OpenCore Legacy Patcher has detected that you are booting an outdated OpenCore build" +:+ nl +:+
    "- Booted: " +:+ booted +:+ nl +:+
    "- Installed: " +:+ installed +:+ nl +:+ nl +:+
    "Would you like to update the OpenCore bootloader?" +:+ dq +:+ " " +:+
    with_icon c ].
Proof.
  intros Hs. unfold osascript_args. rewrite Hs. reflexivity.
Qed.

(** X14. The dialog about the bootloader always speaks of "an outdated"
    build.  Line 164 has the wording "a different" for special builds, but
    on a special build line 150 has returned before: whenever
    [_determine_if_versions_match] shows a dialog, it is the one about the
    booted and the installed version, the build is not special, and the text
    handed to [osascript] is the one below. *)
Theorem bootloader_dialog_says_outdated (c : Constants) (p : Probes) (w : World) (d : dialog) :
  presents d (_determine_if_versions_match c p w) ->
  exists booted,
    computer_oclp_version c = Some booted /\
    booted <> patcher_version c /\
    d = BootloaderPrompt booted (patcher_version c) /\
    special_build c = false /\
    osascript_args c d =
    [ "osascript"; "-e";
      "display dialog " +:+ dq +:+
      "OpenCore Legacy Patcher has detected that you are booting an outdated OpenCore build" +:+ nl +:+
      "- Booted: " +:+ booted +:+ nl +:+
      "- Installed: " +:+ patcher_version c +:+ nl +:+ nl +:+
      "Would you like to update the OpenCore bootloader?" +:+ dq +:+ " " +:+
      with_icon c ].
Proof.
  unfold presents. rewrite versions_match_run.
  destruct (computer_oclp_version c) as [booted|]; [|absent].
  destruct (String.eqb booted (patcher_version c)) eqn:Heq; [absent|].
  apply String.eqb_neq in Heq.
  destruct (special_build c) eqn:Hs; [absent|].
  destruct (check_if_newer p booted); [absent|].
  assert (Hd : In (Osascript d)
                 [ Osascript (BootloaderPrompt booted (patcher_version c)) ] ->
               exists booted0,
                 Some booted = Some booted0 /\
                 booted0 <> patcher_version c /\
                 d = BootloaderPrompt booted0 (patcher_version c) /\
                 false = false /\
                 osascript_args c d =
                 [ "osascript"; "-e";
                   "display dialog " +:+ dq +:+
                   "OpenCore Legacy Patcher has detected that you are booting an outdated OpenCore build" +:+ nl +:+
                   "- Booted: " +:+ booted0 +:+ nl +:+
                   "- Installed: " +:+ patcher_version c +:+ nl +:+ nl +:+
                   "Would you like to update the OpenCore bootloader?" +:+ dq +:+ " " +:+
                   with_icon c ]).
  { intros [H | []]. injection H as <-. exists booted.
    repeat split; try assumption. apply bootloader_dialog_args. exact Hs. }
  destruct (Z.eqb _ 0); cbn;
    intros H; repeat (destruct H as [H | H]; try discriminate H);
    try (apply Hd; left; exact H); destruct H.
Qed.

Lemma bootloader_dialog_says_outdated_witness :
  let c := Example.machine (Some "0.6.1") false false (Some "disk0s1") in
  let p := Example.cycle_probes None ID_CANCEL false [] true 1 in
  exists booted,
    computer_oclp_version c = Some booted /\
    booted <> patcher_version c /\
    BootloaderPrompt "0.6.1" "0.6.2" = BootloaderPrompt booted (patcher_version c) /\
    special_build c = false /\
    osascript_args c (BootloaderPrompt "0.6.1" "0.6.2") =
    [ "osascript"; "-e";
      "display dialog " +:+ dq +:+
      "OpenCore Legacy Patcher has detected that you are booting an outdated OpenCore build" +:+ nl +:+
      "- Booted: " +:+ booted +:+ nl +:+
      "- Installed: " +:+ patcher_version c +:+ nl +:+ nl +:+
      "Would you like to update the OpenCore bootloader?" +:+ dq +:+ " " +:+
      with_icon c ].
Proof.
  intros c p.
  apply (bootloader_dialog_says_outdated c p Example.empty_disk
           (BootloaderPrompt "0.6.1" "0.6.2")).
  vm_compute. right. right. left. reflexivity.
Defined.

(** ** The installer, further *)

(** X15. When the process runs from source, or from the copy of the
    application that is already staged under
    [/Library/Application Support/Dortania/], the installer logs that it
    skips and returns: it runs no privileged command and leaves the machine
    as it was.  Running from source is tested first. *)
Theorem installer_skips_when_not_applicable (c : Constants) (p : Probes) (w : World) :
  launcher_script c <> None \/
  Py.startswith (launcher_binary c) "/Library/Application Support/Dortania/" = true ->
  let r := install_auto_patcher_launch_agent c p w in
  value r = Return tt /\
  world r = w /\
  effects r =
    [ Log match launcher_script c with
          | Some _ =>
              "- Skipping Auto Patcher Launch Agent, not supported when running from source"
          | None => "- Skipping Auto Patcher Launch Agent, already installed"
          end ] /\
  ~ runs_elevated r.
Proof.
  intros H r. subst r. unfold runs_elevated, install_auto_patcher_launch_agent.
  destruct (launcher_script c) as [script|].
  - repeat split. intros [argv Hin]. revert Hin. absent.
  - destruct H as [H | H]; [congruence|]. rewrite H.
    repeat split. intros [argv Hin]. revert Hin. absent.
Qed.

Lemma installer_skips_when_not_applicable_witness :
  let c := Example.constants in
  let w := Example.installed_disk in
  let staged := {|
    wxpython_variant := true;
    patcher_version := patcher_version c;
    commit_info0 := commit_info0 c;
    computer_real_model := computer_real_model c;
    computer_oclp_version := computer_oclp_version c;
    special_build := special_build c;
    host_is_hackintosh := false;
    booted_oc_disk := booted_oc_disk c;
    launcher_script := None;
    launcher_binary :=
      "/Library/Application Support/Dortania/OpenCore-Patcher.app/Contents/MacOS/OpenCore-Patcher";
    app_icon_path := app_icon_path c;
    auto_patch_launch_agent_path := auto_patch_launch_agent_path c;
    rsr_monitor_launch_daemon_path := rsr_monitor_launch_daemon_path c;
    cwd := "/"
  |} in
  let r := install_auto_patcher_launch_agent staged Example.installer_probes w in
  value r = Return tt /\
  world r = w /\
  effects r = [ Log "- Skipping Auto Patcher Launch Agent, already installed" ] /\
  ~ runs_elevated r.
Proof.
  intros c w staged.
  apply (installer_skips_when_not_applicable staged Example.installer_probes w).
  right. reflexivity.
Defined.

(** *** The source of the copy *)





(** *** The support directory and the alias *)

(** X17. Line 279 tests a path that has no leading slash, so the presence
    of the support directory is looked up under the working directory of the
    process.  When that path exists, no directory is made, whether
    [/Library/Application Support/Dortania] exists or not; when it does not,
    [mkdir -p /Library/Application Support/Dortania] is run, whether that
    directory exists or not. *)
Theorem support_dir_is_tested_under_cwd (c : Constants) (w : World) :
  let tested := Py.rstrip "/" (cwd c) +:+ support_dir in
  let r := create_support_dir c w in
  if Fs.exists_ (files w) tested then
    r = Run (Return tt) w []
  else
    r = Run (Return tt)
          (with_files
             match files w !! support_dir with
             | None => <[support_dir := Directory]> (files w)
             | Some _ => files w
             end w)
          [ Log "- Creating /Library/Application Support/Dortania/";
            Elevated ["mkdir"; "-p"; support_dir];
            ProcessStatus
              match files w !! support_dir with
              | None => 0
              | Some _ =>
                  match Fs.stat (files w) support_dir with
                  | Some Directory | Some (Bundle _) => 0
                  | _ => 1
                  end
              end ].
Proof.
  cbv zeta. unfold create_support_dir.
  rewrite (bind_returned _ _ _ _ _ _ (Path_exists_run c _ w)).
  change (Fs.absolute (cwd c) (Fs.Path "Library/Application Support/Dortania"))
    with (Py.rstrip "/" (cwd c) +:+ support_dir).
  destruct (Fs.exists_ (files w) (Py.rstrip "/" (cwd c) +:+ support_dir));
    cbv beta iota delta [negb when]; [reflexivity|].
  run_step. rewrite elevated_checked_run, sh_mkdir_p. unfold Fs.mkdir_p.
  change (Fs.Path support_dir) with support_dir.
  destruct (files w !! support_dir); [|reflexivity].
  destruct (Fs.stat (files w) support_dir) as [[]|]; reflexivity.
Qed.

(** X18. The alias is made whenever [Path.exists] is false of
    [/Applications/OpenCore-Patcher.app], and [Path.exists] follows links: an
    alias that is there but leads nowhere is not skipped.  [ln -s] is run on
    it, fails with status 1 since the link exists, and the broken alias
    stays. *)
Theorem dangling_alias_is_not_repaired (c : Constants) (w : World) (target : string) :
  files w !! app_alias = Some (Symlink target) ->
  files w !! target = None ->
  let r := make_app_alias c w in
  In (Elevated ["ln"; "-s"; staged_app; app_alias]) (effects r) /\
  In (ProcessStatus 1) (effects r) /\
  files (world r) = files w /\
  files (world r) !! app_alias = Some (Symlink target).
Proof.
  intros Halias Htarget r.
  assert (He : Fs.exists_ (files w) app_alias = false).
  { unfold Fs.exists_, Fs.stat, Fs.realpath, Fs.MAXSYMLINKS.
    rewrite realpath_go_step, Halias, realpath_go_step, Htarget. reflexivity. }
  assert (Hr : r = Run (Return tt) w
                 [ Log "- Making app alias";
                   Elevated ["ln"; "-s"; staged_app; app_alias];
                   ProcessStatus 1 ]).
  { subst r. unfold make_app_alias.
    rewrite (bind_returned _ _ _ _ _ _ (Path_exists_run c _ w)).
    change (Fs.absolute (cwd c) (Fs.Path app_alias)) with app_alias. rewrite He.
    cbv beta iota delta [negb when]. run_step.
    rewrite elevated_checked_run, sh_ln_s. unfold Fs.ln_s. rewrite Halias.
    cbn [fst snd]. rewrite with_files_id. reflexivity. }
  rewrite Hr. cbn [world effects]. repeat split; [cbn; tauto | cbn; tauto | exact Halias].
Qed.

Lemma dangling_alias_is_not_repaired_witness :
  let w := {| files := <[app_alias := Symlink "/Users/me/Old/OpenCore-Patcher.app"]>
                         (files Example.fresh_disk);
              start_build_install := false |} in
  let r := make_app_alias Example.constants w in
  In (Elevated ["ln"; "-s"; staged_app; app_alias]) (effects r) /\
  In (ProcessStatus 1) (effects r) /\
  files (world r) = files w /\
  files (world r) !! app_alias = Some (Symlink "/Users/me/Old/OpenCore-Patcher.app").
Proof.
  intros w.
  apply (dangling_alias_is_not_repaired Example.constants w "/Users/me/Old/OpenCore-Patcher.app").
  - vm_compute. reflexivity.
  - vm_compute. reflexivity.
Defined.

(** ** The monitor daemon, further *)

(** X19. Without the image [OS.dmg] of the cryptex,
    [_create_rsr_monitor_daemon] answers [False] at once: the extensions are
    not even listed, no property list is loaded or written, and the machine
    is left as it was, whatever the extensions are. *)
Theorem no_os_image_no_daemon (c : Constants) (p : Probes) (w : World) :
  Fs.exists_ (files w) (Fs.absolute (cwd c) (Fs.Path (cryptex_path p))) = false ->
  _create_rsr_monitor_daemon c p w =
  Run (Return false) w
    [ Log "- Checking if RSRMonitor is needed";
      GetPrebootUuid;
      Log "- No OS.dmg, skipping RSRMonitor" ].
Proof.
  intros H. rewrite create_rsr_monitor_daemon_run, H. reflexivity.
Qed.

Lemma no_os_image_no_daemon_witness :
  _create_rsr_monitor_daemon Example.constants Example.installer_probes Example.empty_disk =
  Run (Return false) Example.empty_disk
    [ Log "- Checking if RSRMonitor is needed";
      GetPrebootUuid;
      Log "- No OS.dmg, skipping RSRMonitor" ].
Proof.
  apply (no_os_image_no_daemon Example.constants Example.installer_probes Example.empty_disk).
  vm_compute. reflexivity.
Defined.

(** The effects of lines 370 to 388 on a descriptor that loads. *)
Lemma write_rsr_monitor_plist_run (c : Constants) (p : Probes) (kexts : list string)
    (w : World) (d : plist) (mode owner : string) :
  Fs.absolute (cwd c) (rsr_monitor_launch_daemon_path c) = rsr_monitor_launch_daemon_path c ->
  Fs.Path (rsr_monitor_launch_daemon_path c) = rsr_monitor_launch_daemon_path c ->
  files w !! rsr_monitor_launch_daemon_path c = Some (File (Plist d) mode owner) ->
  write_rsr_monitor_plist c (cryptex_path p) kexts w =
  Run (Return true)
    (with_files
       (<[rsr_monitor_launch_daemon_path c := File (Plist (monitor_plist p kexts d)) mode owner]>
          (files w)) w)
    [ PlistLoad (rsr_monitor_launch_daemon_path c);
      Log ("  - Adding monitor: " +:+ cryptex_path p);
      PlistDump (rsr_monitor_launch_daemon_path c) ].
Proof.
  intros Habs Hnormal Hfile. unfold write_rsr_monitor_plist.
  assert (Hload : plistlib_load c (rsr_monitor_launch_daemon_path c) w =
                  Run (Return d) w [ PlistLoad (rsr_monitor_launch_daemon_path c) ]).
  { rewrite plistlib_load_run, Habs.
    rewrite stat_not_link by (rewrite Hfile; exact I). rewrite Hfile. reflexivity. }
  rewrite (bind_returned _ _ _ _ _ _ Hload). cbv beta zeta. run_step.
  assert (Hdump : forall d', plistlib_dump c d' (rsr_monitor_launch_daemon_path c) w =
                  Run (Return tt)
                    (with_files
                       (<[rsr_monitor_launch_daemon_path c := File (Plist d') mode owner]>
                          (files w)) w)
                    [ PlistDump (rsr_monitor_launch_daemon_path c) ]).
  { intros d'. unfold plistlib_dump. run_step. run_step. cbv zeta.
    rewrite Hnormal, Habs, Hfile.
    rewrite realpath_not_link by (rewrite Hfile; exact I).
    rewrite Hfile. cbv beta iota. rewrite Hfile. reflexivity. }
  rewrite (bind_returned _ _ _ _ _ _ (Hdump _)). reflexivity.
Qed.

(** X20. When the image of the cryptex is there and the scan finds a
    bundle that carries the key, the descriptor of the daemon, a property
    list at an absolute path, is rewritten in place:
    [ProgramArguments] becomes [rm -Rfv] followed by
    [/Library/Extensions/name] for each bundle found, in the order of the
    scan; [WatchPaths] becomes the path of the image alone; every other key
    of the descriptor is kept, and so are the mode and the owner of the
    file.  No other file changes, and the answer is [True]. *)
Theorem monitor_descriptor_is_rewritten (c : Constants) (p : Probes) (w : World)
    (d : plist) (mode owner : string) :
  Fs.absolute (cwd c) (rsr_monitor_launch_daemon_path c) = rsr_monitor_launch_daemon_path c ->
  Fs.Path (rsr_monitor_launch_daemon_path c) = rsr_monitor_launch_daemon_path c ->
  files w !! rsr_monitor_launch_daemon_path c = Some (File (Plist d) mode owner) ->
  Fs.exists_ (files w) (Fs.absolute (cwd c) (Fs.Path (cryptex_path p))) = true ->
  (exists kext, In kext (glob_extensions p) /\ carries_marker c w kext = true) ->
  let r := _create_rsr_monitor_daemon c p w in
  let found := List.filter (carries_marker c w) (glob_extensions p) in
  value r = Return true /\
  start_build_install (world r) = start_build_install w /\
  (forall q, q <> rsr_monitor_launch_daemon_path c -> files (world r) !! q = files w !! q) /\
  exists d',
    files (world r) !! rsr_monitor_launch_daemon_path c = Some (File (Plist d') mode owner) /\
    d' !! "ProgramArguments" =
      Some (PArray ("rm" :: "-Rfv" ::
                    map (fun kext => "/Library/Extensions/" +:+ Fs.name kext) found)) /\
    d' !! "WatchPaths" = Some (PArray [ cryptex_path p ]) /\
    (forall key, key <> "ProgramArguments" -> key <> "WatchPaths" -> d' !! key = d !! key).
Proof.
  intros Habs Hnormal Hfile Himage (kext & Hin & Hmark) r found.
  assert (Hk : monitor_kexts c p w <> []).
  { unfold monitor_kexts. intros E. apply map_eq_nil in E.
    assert (Hf : In kext (List.filter (carries_marker c w) (glob_extensions p)))
      by (apply filter_In; split; assumption).
    rewrite E in Hf. destruct Hf. }
  assert (Hr : exists es,
             r = Run (Return true)
                   (with_files
                      (<[rsr_monitor_launch_daemon_path c :=
                           File (Plist (monitor_plist p (monitor_kexts c p w) d)) mode owner]>
                         (files w)) w) es).
  { subst r. rewrite create_rsr_monitor_daemon_run, Himage.
    destruct (monitor_kexts c p w) as [|k ks] eqn:E; [congruence|].
    rewrite (write_rsr_monitor_plist_run c p (k :: ks) w d mode owner Habs Hnormal Hfile).
    eexists. reflexivity. }
  destruct Hr as [es ->]. cbn [value world files with_files start_build_install].
  split; [reflexivity|]. split; [reflexivity|].
  split; [intros q Hq; apply lookup_insert_ne; congruence|].
  exists (monitor_plist p (monitor_kexts c p w) d).
  split; [apply lookup_insert_eq|].
  unfold monitor_plist, monitor_kexts. fold found.
  split; [|split].
  - rewrite lookup_insert_ne by discriminate. rewrite lookup_insert_eq.
    rewrite map_map. reflexivity.
  - apply lookup_insert_eq.
  - intros key H1 H2. rewrite !lookup_insert_ne by congruence. reflexivity.
Qed.

Lemma monitor_descriptor_is_rewritten_witness :
  let c := Example.constants in
  let p := Example.installer_probes in
  let w := Example.fresh_disk in
  let r := _create_rsr_monitor_daemon c p w in
  let found := List.filter (carries_marker c w) (glob_extensions p) in
  value r = Return true /\
  start_build_install (world r) = start_build_install w /\
  (forall q, q <> rsr_monitor_launch_daemon_path c -> files (world r) !! q = files w !! q) /\
  exists d',
    files (world r) !! rsr_monitor_launch_daemon_path c = Some (File (Plist d') "755" "me:staff") /\
    d' !! "ProgramArguments" =
      Some (PArray ("rm" :: "-Rfv" ::
                    map (fun kext => "/Library/Extensions/" +:+ Fs.name kext) found)) /\
    d' !! "WatchPaths" = Some (PArray [ cryptex_path p ]) /\
    (forall key, key <> "ProgramArguments" -> key <> "WatchPaths" ->
       d' !! key =
       (<["Label" := PString "com.dortania.opencore-legacy-patcher.rsr-monitor"]> ∅ : plist) !! key).
Proof.
  intros c p w.
  apply (monitor_descriptor_is_rewritten c p w
           (<["Label" := PString "com.dortania.opencore-legacy-patcher.rsr-monitor"]> ∅)
           "755" "me:staff").
  - reflexivity.
  - reflexivity.
  - vm_compute. reflexivity.
  - vm_compute. reflexivity.
  - exists "/Library/Extensions/AMDRadeonX4000.kext". split; [left; reflexivity|].
    vm_compute. reflexivity.
Defined.

(** X21. The descriptor of the daemon is loaded outside any [try]: when
    the daemon is needed and the descriptor is missing, is a directory or
    is no property list, [_create_rsr_monitor_daemon] raises the exception of
    [plistlib.load], unlike the scan, which logs such a failure and goes on.
    Nothing has been written: the machine is as it was. *)
Theorem unloadable_descriptor_raises (c : Constants) (p : Probes) (w : World) :
  Fs.exists_ (files w) (Fs.absolute (cwd c) (Fs.Path (cryptex_path p))) = true ->
  (exists kext, In kext (glob_extensions p) /\ carries_marker c w kext = true) ->
  (forall d mode owner,
     Fs.stat (files w) (Fs.absolute (cwd c) (rsr_monitor_launch_daemon_path c))
     <> Some (File (Plist d) mode owner)) ->
  let r := _create_rsr_monitor_daemon c p w in
  let path := rsr_monitor_launch_daemon_path c in
  value r =
    Raise match Fs.stat (files w) (Fs.absolute (cwd c) path) with
          | Some (File _ _ _) => InvalidFileException path
          | Some Directory | Some (Bundle _) => IsADirectoryError path
          | _ => FileNotFoundError path
          end /\
  world r = w /\
  (forall q, ~ In (PlistDump q) (effects r)) /\
  List.last (effects r) (Log EmptyString) = PlistLoad path.
Proof.
  intros Himage (kext & Hin & Hmark) Hbad r path.
  assert (Hk : monitor_kexts c p w <> []).
  { unfold monitor_kexts. intros E. apply map_eq_nil in E.
    assert (Hf : In kext (List.filter (carries_marker c w) (glob_extensions p)))
      by (apply filter_In; split; assumption).
    rewrite E in Hf. destruct Hf. }
  set (e := match Fs.stat (files w) (Fs.absolute (cwd c) path) with
            | Some (File _ _ _) => InvalidFileException path
            | Some Directory | Some (Bundle _) => IsADirectoryError path
            | _ => FileNotFoundError path
            end).
  assert (Hload : plistlib_load c path w = Run (Raise e) w [ PlistLoad path ]).
  { rewrite plistlib_load_run. subst e. fold path in Hbad.
    destruct (Fs.stat (files w) (Fs.absolute (cwd c) path))
      as [[| payload | [d | bytes] mode owner | target]|]; try reflexivity.
    destruct (Hbad d mode owner eq_refl). }
  assert (Hr : r = Run (Raise e) w
                 ([ Log "- Checking if RSRMonitor is needed"; GetPrebootUuid ] ++
                  (Glob "/Library/Extensions" "*.kext" ::
                   flat_map (kext_effects c w) (glob_extensions p)) ++
                  [ PlistLoad path ])).
  { subst r. rewrite create_rsr_monitor_daemon_run, Himage.
    destruct (monitor_kexts c p w) as [|k ks] eqn:E; [congruence|].
    unfold write_rsr_monitor_plist. fold path.
    rewrite (bind_raised _ _ _ _ _ _ Hload). reflexivity. }
  rewrite Hr. cbn [value world effects].
  split; [reflexivity|]. split; [reflexivity|]. split.
  - intros q H. cbn [app In] in H. destruct H as [H | [H | [H | H]]]; try discriminate H.
    apply in_app_or in H. destruct H as [H | [H | []]]; [|discriminate H].
    apply in_flat_map in H. destruct H as (k & _ & H).
    apply kext_effects_loads in H. destruct H as [H | [msg H]]; discriminate H.
  - rewrite app_assoc. apply last_last.
Qed.

Lemma unloadable_descriptor_raises_witness :
  let c := Example.constants in
  let p := Example.installer_probes in
  let w := {| files := delete (rsr_monitor_launch_daemon_path c) (files Example.fresh_disk);
              start_build_install := false |} in
  let r := _create_rsr_monitor_daemon c p w in
  value r = Raise (FileNotFoundError (rsr_monitor_launch_daemon_path c)) /\
  world r = w /\
  (forall q, ~ In (PlistDump q) (effects r)) /\
  List.last (effects r) (Log EmptyString) = PlistLoad (rsr_monitor_launch_daemon_path c).
Proof.
  intros c p w.
  apply (unloadable_descriptor_raises c p w).
  - vm_compute. reflexivity.
  - exists "/Library/Extensions/AMDRadeonX4000.kext". split; [left; reflexivity|].
    vm_compute. reflexivity.
  - intros d mode owner. vm_compute. discriminate.
Defined.

(** X22. Asking twice whether the monitor daemon is needed changes
    nothing more than asking once: on a machine where the descriptor of the
    daemon is a property list at an absolute path, and where the image and
    the descriptors of the extensions are no symbolic links and are not that
    descriptor, the second call gives the answer of the first and leaves the
    machine that the first left. *)
Theorem monitor_daemon_twice_is_once (c : Constants) (p : Probes) (w : World)
    (d : plist) (mode owner : string) :
  Fs.absolute (cwd c) (rsr_monitor_launch_daemon_path c) = rsr_monitor_launch_daemon_path c ->
  Fs.Path (rsr_monitor_launch_daemon_path c) = rsr_monitor_launch_daemon_path c ->
  files w !! rsr_monitor_launch_daemon_path c = Some (File (Plist d) mode owner) ->
  (forall q, In q (probed_paths c p) ->
     not_a_link (files w !! q) /\ q <> rsr_monitor_launch_daemon_path c) ->
  let once := _create_rsr_monitor_daemon c p w in
  let twice := _create_rsr_monitor_daemon c p (world once) in
  value once = Return (monitor_needed c p w) /\
  value twice = value once /\
  world twice = world once.
Proof.
  intros Habs Hnormal Hfile Hprobed once twice.
  destruct (create_rsr_monitor_daemon_returns c p w d mode owner Habs Hnormal Hfile)
    as [Hv Hw].
  fold once in Hv, Hw. subst twice. rewrite Hw, Hv.
  split; [reflexivity|].
  destruct (monitor_needed c p w) eqn:Hneeded.
  2:{ fold once. split; [exact Hv | exact Hw]. }
  set (d' := monitor_plist p (monitor_kexts c p w) d).
  set (w' := with_files (<[rsr_monitor_launch_daemon_path c := File (Plist d') mode owner]>
                           (files w)) w).
  assert (Hframe : monitor_kexts c p w' = monitor_kexts c p w /\
                   monitor_needed c p w' = monitor_needed c p w).
  { apply monitor_frame. intros q Hq. destruct (Hprobed q Hq) as [Hl Hne].
    assert (E : files w' !! q = files w !! q)
      by (subst w'; cbn [files with_files]; apply lookup_insert_ne; congruence).
    rewrite !stat_not_link by (rewrite ?E; exact Hl). exact E. }
  destruct Hframe as [Hk Hn].
  destruct (create_rsr_monitor_daemon_returns c p w' d' mode owner Habs Hnormal)
    as [Hv' Hw'].
  { subst w'. cbn [files with_files]. apply lookup_insert_eq. }
  rewrite Hv', Hw', Hn, Hneeded, Hk. split; [reflexivity|].
  subst w' d'. cbn [files with_files]. rewrite with_files_with_files.
  rewrite monitor_plist_idempotent, insert_insert_eq. reflexivity.
Qed.

Lemma monitor_daemon_twice_is_once_witness :
  let c := Example.constants in
  let p := Example.installer_probes in
  let once := _create_rsr_monitor_daemon c p Example.fresh_disk in
  let twice := _create_rsr_monitor_daemon c p (world once) in
  value once = Return (monitor_needed c p Example.fresh_disk) /\
  value twice = value once /\
  world twice = world once.
Proof.
  intros c p.
  apply (monitor_daemon_twice_is_once c p Example.fresh_disk
           (<["Label" := PString "com.dortania.opencore-legacy-patcher.rsr-monitor"]> ∅)
           "755" "me:staff").
  - reflexivity.
  - reflexivity.
  - vm_compute. reflexivity.
  - intros q Hq. vm_compute in Hq.
    destruct Hq as [<- | [<- | [<- | [<- | [<- | []]]]]];
      (split; [vm_compute; exact I | discriminate]).
Defined.

(** ** The installer on a deployment: every step succeeds *)
























(** ** The installer: what it never runs *)

(** An effect of a sequence is an effect of its first part, or of what
    follows on some value. *)
Lemma in_effects_bind_inv {A B} (m : M A) (k : A -> M B) (w : World) (e : event) :
  In e (effects (bind m k w)) ->
  In e (effects (m w)) \/ exists a w', In e (effects (k a w')).
Proof.
  unfold bind. destruct (value (m w)) as [a|x]; cbn [effects]; [|tauto].
  intros H. apply in_app_or in H. destruct H as [H | H]; [tauto | eauto].
Qed.

(** Writing a property list has one effect. *)
Lemma plistlib_dump_effects (c : Constants) (d : plist) (path : string) (w : World) :
  effects (plistlib_dump c d path w) = [ PlistDump path ].
Proof.
  unfold plistlib_dump. run_step. run_step. cbv zeta.
  destruct (files w !! _); [|reflexivity].
  destruct (Fs.realpath _ _) as [q|]; [|reflexivity].
  destruct (files w !! q) as [[]|]; reflexivity.
Qed.

(** The question of the monitor daemon runs no privileged command,
    whatever the machine. *)
Lemma create_rsr_monitor_daemon_no_command (c : Constants) (p : Probes) (w : World)
    (argv : list string) :
  ~ In (Elevated argv) (effects (_create_rsr_monitor_daemon c p w)).
Proof.
  rewrite create_rsr_monitor_daemon_run. unfold prepend. cbn [effects].
  intros H. apply in_app_or in H. destruct H as [H | H]; [revert H; absent|].
  destruct (Fs.exists_ _ _); [|revert H; absent].
  cbn [effects] in H. apply in_app_or in H. destruct H as [[H | H] | H].
  - discriminate H.
  - apply in_flat_map in H. destruct H as (kext & _ & H).
    apply kext_effects_loads in H. destruct H as [H | [msg H]]; discriminate H.
  - destruct (monitor_kexts c p w) as [|kext kexts]; [revert H; absent|].
    unfold write_rsr_monitor_plist in H.
    apply in_effects_bind_inv in H. destruct H as [H | (a & w' & H)].
    + rewrite plistlib_load_run in H. revert H. absent.
    + cbv beta zeta in H.
      apply in_effects_bind_inv in H. destruct H as [H | (a' & w'' & H)]; [revert H; absent|].
      apply in_effects_bind_inv in H. destruct H as [H | (a'' & w''' & H)]; [|revert H; absent].
      rewrite plistlib_dump_effects in H. revert H. absent.
Qed.

(** Going through a block for a privileged command: the sequence is taken
    apart, and each of its parts either has no such effect or is a command,
    which is then the one looked for. *)
Ltac walk H :=
  repeat
    match type of H with
    | In _ (effects (bind _ _ _)) =>
        apply in_effects_bind_inv in H;
        let a := fresh "a" in
        let w' := fresh "w'" in
        destruct H as [H | (a & w' & H)]; cbv beta zeta in H
    | In _ (effects (when ?b _ _)) =>
        destruct b; cbv beta iota delta [when] in H
    | In _ (effects (logging_info _ _)) => exfalso; revert H; absent
    | In _ (effects (Path_exists _ _ _)) => destruct H
    | In _ (effects (emit _ _)) => exfalso; revert H; absent
    | In _ (effects (ret _ _)) => destruct H
    | In (Elevated _) (effects (elevated_checked _ _)) =>
        rewrite elevated_checked_run in H;
        destruct H as [H | [H | []]]; [injection H as <- | discriminate H]
    end.

(** X24. Whatever the machine and whatever the collaborators answer, the
    privileged commands that a run of the installer issues are among the
    fifteen written in the source.  In particular the only path it ever
    removes recursively is the staged application, the only files it removes
    are the two descriptors it installs, and the only renaming is towards the
    staged application, from inside the support directory.  The question of
    the monitor daemon runs no privileged command at all. *)
Theorem installer_runs_only_its_commands (c : Constants) (p : Probes) (w : World) :
  let r := install_auto_patcher_launch_agent c p w in
  (forall argv, In (Elevated argv) (effects r) -> In argv (installer_commands c)) /\
  (forall q, In (Elevated ["rm"; "-R"; q]) (effects r) -> q = staged_app) /\
  (forall q, In (Elevated ["rm"; q]) (effects r) -> q = launch_agent \/ q = launch_daemon) /\
  (forall src dst,
     In (Elevated ["mv"; src; dst]) (effects r) ->
     Py.startswith src "/Library/Application Support/Dortania/" = true /\ dst = staged_app) /\
  (forall argv, ~ In (Elevated argv) (effects (_create_rsr_monitor_daemon c p w))).
Proof.
  cbv zeta.
  assert (Hall : forall argv,
             In (Elevated argv) (effects (install_auto_patcher_launch_agent c p w)) ->
             In argv (installer_commands c)).
  { intros argv H. unfold install_auto_patcher_launch_agent in H.
    destruct (launcher_script c); [exfalso; revert H; absent|].
    destruct (Py.startswith _ _); [exfalso; revert H; absent|].
    apply in_effects_bind_inv in H. destruct H as [H | (a0 & w0 & H)]; [exfalso; revert H; absent|].
    apply in_effects_bind_inv in H. destruct H as [H | (a1 & w1 & H)].
    { unfold create_support_dir in H. walk H. cbn. tauto. }
    apply in_effects_bind_inv in H. destruct H as [H | (a2 & w2 & H)].
    { unfold copy_app in H. walk H; cbn; tauto. }
    apply in_effects_bind_inv in H. destruct H as [H | (a3 & w3 & H)].
    { unfold copy_launch_agent in H. walk H; cbn; tauto. }
    apply in_effects_bind_inv in H. destruct H as [H | (a4 & w4 & H)].
    { destruct (create_rsr_monitor_daemon_no_command c p _ _ H). }
    apply in_effects_bind_inv in H. destruct H as [H | (a5 & w5 & H)].
    { destruct a4; cbv beta iota delta [when] in H; [|destruct H].
      unfold copy_launch_daemon in H. walk H; cbn; tauto. }
    unfold make_app_alias in H. walk H. cbn. tauto. }
  split; [exact Hall|].
  assert (Hname : Py.startswith
                    ("/Library/Application Support/Dortania/" +:+
                     Py.last_ (Py.split (source_app c) "/"))
                    "/Library/Application Support/Dortania/" = true).
  { unfold Py.startswith. apply prefix_spec. eexists. reflexivity. }
  repeat split.
  - intros q H. apply Hall in H. cbn in H.
    repeat (destruct H as [H | H]; [try discriminate H; try (injection H as <-; reflexivity)|]).
    destruct H.
  - intros q H. apply Hall in H. cbn in H.
    repeat (destruct H as [H | H];
            [try discriminate H; try (injection H as <-; (left; reflexivity) || (right; reflexivity))|]).
    destruct H.
  - apply Hall in H. cbn in H.
    repeat (destruct H as [H | H]; [try discriminate H; try (injection H as <- <-; exact Hname)|]).
    destruct H.
  - apply Hall in H. cbn in H.
    repeat (destruct H as [H | H]; [try discriminate H; try (injection H as <- <-; reflexivity)|]).
    destruct H.
  - intros argv. apply create_rsr_monitor_daemon_no_command.
Qed.

(** ** The alias after a run *)

(** X25. On a deployment where nothing is at the place of the alias, a
    run of the installer leaves an alias that works: followed as
    [Path.exists] and [open] follow links,
    [/Applications/OpenCore-Patcher.app] leads to the staged application,
    which is a copy of the bundle the installer ran from. *)
Theorem alias_leads_to_staged_copy (c : Constants) (p : Probes) (w : World) :
  Deployment c p w ->
  files w !! app_alias = None ->
  let r := install_auto_patcher_launch_agent c p w in
  files (world r) !! app_alias = Some (Symlink staged_app) /\
  Fs.realpath (files (world r)) app_alias = Some staged_app /\
  Fs.stat (files (world r)) app_alias = files w !! source_app c /\
  Fs.exists_ (files (world r)) app_alias = true.
Proof.
  intros D Hnone r.
  destruct (deployment_data c p w D)
    as (payload & agent & amode & aowner & d & dmode & downer & Hsrc & Hagent & Hdaemon).
  destruct (install_returns c p w payload agent amode aowner d dmode downer
              D Hsrc Hagent Hdaemon) as [_ Hw].
  fold r in Hw. rewrite Hw. cbn [files with_files].
  pose proof (installed_app_alias c p w payload agent d dmode downer D) as Ha.
  pose proof (installed_staged_app c p w payload agent d dmode downer D) as Hs.
  rewrite Hnone in Ha.
  set (F := installed c p w payload agent d dmode downer) in *.
  assert (Hr : Fs.realpath F app_alias = Some staged_app).
  { unfold Fs.realpath, Fs.MAXSYMLINKS.
    rewrite realpath_go_step, Ha, realpath_go_step, Hs. reflexivity. }
  split; [exact Ha|]. split; [exact Hr|].
  unfold Fs.exists_, Fs.stat. rewrite Hr, Hs, Hsrc. split; reflexivity.
Qed.

Lemma alias_leads_to_staged_copy_witness :
  let r := install_auto_patcher_launch_agent Example.constants Example.installer_probes
             Example.fresh_disk in
  files (world r) !! app_alias = Some (Symlink staged_app) /\
  Fs.realpath (files (world r)) app_alias = Some staged_app /\
  Fs.stat (files (world r)) app_alias =
    files Example.fresh_disk !! source_app Example.constants /\
  Fs.exists_ (files (world r)) app_alias = true.
Proof.
  apply (alias_leads_to_staged_copy Example.constants Example.installer_probes
           Example.fresh_disk).
  - exact example_deployment.
  - vm_compute. reflexivity.
Defined.
